(** * The Emby webhook of misaka_danmu_server: identity reconciliation

    A shallow embedding of [src/webhook/emby.py],
    [src/webhook/utils/metadata_enhancer.py] and
    [src/webhook/utils/enhanced_checker.py].

    The webhook payload and the answers of the Emby API are untyped JSON; the
    Python code reads them with [dict.get], [in], subscripts, truth tests and
    [str], each of which may raise.  The embedding keeps these operations as
    they behave on every JSON value, so that the exceptions of the code are
    the exceptions of the model. *)

From Stdlib Require Import Ascii String.
From stdpp Require Import gmap strings list fin_maps pretty.

#[local] Set Warnings "-register-all".
#[local] Open Scope string_scope.
#[local] Open Scope Z_scope.

(** ** JSON values, as [json.loads] delivers them

    A JSON number is modelled as an integer: fractional numbers are left out.
    An object is a finite map from its keys, as a Python [dict] is when it is
    only read by key; the order in which the members were inserted is not
    recorded. *)

Inductive json : Type :=
| JNull
| JBool (b : bool)
| JInt (z : Z)
| JStr (s : string)
| JArr (l : list json)
| JObj (m : gmap string json).

(** A Python [dict] whose keys are strings. *)
Abbreviation pydict := (gmap string json).

(** Python exceptions that the modelled code can meet. *)
Inductive exn : Type :=
| AttributeError
| TypeError
| KeyError
| IndexError
| ValueError
| NameError
| JSONDecodeError
| TimeoutException          (* httpx.TimeoutException *)
| TransportError            (* any other failure of an HTTP request *)
| HTTPException (status : Z).

(** The outcome of evaluating a Python expression. *)
Inductive res (A : Type) : Type :=
| Ok (a : A)
| Raise (e : exn).
Arguments Ok {A} a.
Arguments Raise {A} e.

Definition res_bind {A B} (r : res A) (k : A -> res B) : res B :=
  match r with
  | Ok a => k a
  | Raise e => Raise e
  end.

Notation "'let!' x ':=' r 'in' k" := (res_bind r (fun x => k))
  (at level 10, x name, r at level 100, k at level 200,
   format "'[v' 'let!'  x  ':='  r  'in' '/' k ']'").

Definition is_ok {A} (r : res A) : bool :=
  match r with Ok _ => true | Raise _ => false end.

(** ** Python's built-in operations on JSON values *)

(** [bool(v)], the test of [if v:], [not v], [or] and [any]. *)
Definition truthy (v : json) : bool :=
  match v with
  | JNull => false
  | JBool b => b
  | JInt z => negb (z =? 0)
  | JStr s => negb (String.eqb s "")
  | JArr l => match l with [] => false | _ => true end
  | JObj m => negb (bool_decide (m = ∅))
  end.

(** [v is None]. *)
Definition is_none (v : json) : bool :=
  match v with JNull => true | _ => false end.

(** [a or b]: the first operand when it is true, else the second. *)
Definition py_or (a b : json) : json := if truthy a then a else b.

(** [v == s] for a string constant [s]. *)
Definition py_eq_str (v : json) (s : string) : bool :=
  match v with
  | JStr t => String.eqb t s
  | _ => false
  end.

(** [v in [s1, s2, ...]] for a list of string constants. *)
Definition py_in_strs (v : json) (l : list string) : bool :=
  existsb (py_eq_str v) l.

(** [needle in hay] on strings: [hay] has [needle] as a substring. *)
Fixpoint str_contains (needle hay : string) : bool :=
  if String.prefix needle hay then true
  else match hay with
       | EmptyString => false
       | String _ rest => str_contains needle rest
       end.

(** [obj.get(key, default)]: only a dict has the method. *)
Definition py_get (obj : json) (key : string) (dflt : json) : res json :=
  match obj with
  | JObj m => Ok (default dflt (m !! key))
  | _ => Raise AttributeError
  end.

(** [key in obj] for a string [key]: key membership on a dict, element
    membership on a list, substring on a string; other values are not
    containers. *)
Definition py_in (key : string) (obj : json) : res bool :=
  match obj with
  | JObj m => Ok (bool_decide (is_Some (m !! key)))
  | JArr l => Ok (existsb (fun v => py_eq_str v key) l)
  | JStr s => Ok (str_contains key s)
  | _ => Raise TypeError
  end.

(** [obj[key]] for a string [key]. *)
Definition py_getitem (obj : json) (key : string) : res json :=
  match obj with
  | JObj m => match m !! key with
              | Some v => Ok v
              | None => Raise KeyError
              end
  | _ => Raise TypeError
  end.

(** [obj[0]]. *)
Definition py_first (obj : json) : res json :=
  match obj with
  | JArr (v :: _) => Ok v
  | JArr [] => Raise IndexError
  | JStr (String c _) => Ok (JStr (String c EmptyString))
  | JStr EmptyString => Raise IndexError
  | JObj _ => Raise KeyError
  | _ => Raise TypeError
  end.

Fixpoint str_chars (s : string) : list json :=
  match s with
  | EmptyString => []
  | String c rest => JStr (String c EmptyString) :: str_chars rest
  end.

(** The values a [for x in obj] loop runs over. *)
Definition py_iter (obj : json) : res (list json) :=
  match obj with
  | JArr l => Ok l
  | JObj m => Ok (JStr <$> (map_to_list m).*1)
  | JStr s => Ok (str_chars s)
  | _ => Raise TypeError
  end.

(** [any(d.values())]. *)
Definition any_values (d : pydict) : bool :=
  existsb truthy (map_to_list d).*2.

(** *** [str] and [repr] *)

Definition dquote : ascii := ascii_of_nat 34.
Definition squote : ascii := ascii_of_nat 39.
Definition backslash : ascii := ascii_of_nat 92.

Definition str_has (c : ascii) (s : string) : bool :=
  str_contains (String c EmptyString) s.

Definition hex_digit (n : nat) : ascii :=
  ascii_of_nat (if (n <? 10)%nat then 48 + n else 87 + n)%nat.

(** One character of a string literal delimited by [q]. *)
Definition repr_char (q c : ascii) : string :=
  let n := nat_of_ascii c in
  if Ascii.eqb c backslash then String backslash (String backslash EmptyString)
  else if Ascii.eqb c q then String backslash (String q EmptyString)
  else if (n =? 9)%nat then String backslash "t"
  else if (n =? 10)%nat then String backslash "n"
  else if (n =? 13)%nat then String backslash "r"
  else if ((n <? 32) || (n =? 127))%nat
       then String backslash
              (String "x" (String (hex_digit (n / 16))
                             (String (hex_digit (n mod 16)) EmptyString)))
  else String c EmptyString.

Fixpoint repr_chars (q : ascii) (s : string) : string :=
  match s with
  | EmptyString => EmptyString
  | String c rest => repr_char q c ++ repr_chars q rest
  end.

(** [repr(s)] of a string: single quotes, unless the text holds a single
    quote and no double quote.  Bytes above 127 are kept as they are, as
    Python keeps the printable characters beyond ASCII; the characters
    beyond ASCII that Python takes for non-printable, and escapes, are not
    told apart. *)
Definition repr_str (s : string) : string :=
  let q := if str_has squote s && negb (str_has dquote s)
           then dquote else squote in
  String q EmptyString ++ repr_chars q s ++ String q EmptyString.

(** [repr(v)].  It is Python's on [None], booleans and integers, and on
    strings within the limit stated at [repr_str].  On a list or a dict it
    is an approximation: the members of a dict are rendered in the order the
    map lists them, where Python renders them in the order of insertion,
    which the map does not record, and the strings inside inherit the limit
    of [repr_str].  Nothing below depends on the text of a rendered list or
    dict but that it is not empty. *)
Fixpoint py_repr (v : json) : string :=
  match v with
  | JNull => "None"
  | JBool true => "True"
  | JBool false => "False"
  | JInt z => pretty z
  | JStr s => repr_str s
  | JArr l => "[" ++ String.concat ", " (map py_repr l) ++ "]"
  | JObj m =>
      "{" ++ String.concat ", "
               (map (fun kv : string * string => repr_str kv.1 ++ ": " ++ kv.2)
                    (map_to_list (py_repr <$> m))) ++ "}"
  end.

(** [str(v)], which is also what [f"{v}"] renders: the string itself, and
    [repr(v)] otherwise.  It is exact on strings, integers, booleans and
    [None]. *)
Definition py_str (v : json) : string :=
  match v with
  | JStr s => s
  | _ => py_repr v
  end.

(** [f"{v:02d}"]: only [int] (and [bool], its subclass) accept the code [d]. *)
Definition format_02d (v : json) : res string :=
  match v with
  | JInt z => Ok (if (0 <=? z) && (z <? 10) then "0" ++ pretty z else pretty z)
  | JBool b => Ok (if b then "01" else "00")
  | JStr _ => Raise ValueError
  | _ => Raise TypeError
  end.

(** ** Metadata dictionaries ([metadata_enhancer.py]) *)

(** [d.get(key)] on a dictionary of the code's own. *)
Definition dict_get (d : pydict) (key : string) : json :=
  default JNull (d !! key).

(** The dict literal with the five identifiers absent, written out at lines
    85-91, 172-178, 225-231 and 291-297. *)
Definition default_metadata : pydict :=
  <["tmdb_id" := JNull]> (<["imdb_id" := JNull]> (<["tvdb_id" := JNull]>
    (<["douban_id" := JNull]> (<["bangumi_id" := JNull]> ∅)))).

(** The table of field-name spellings, lines 181-187 and 304-310. *)
Definition id_mappings : list (list string * string) :=
  [ (["Tmdb"; "TheMovieDb"; "TMDB"], "tmdb_id");
    (["Imdb"; "IMDB"; "IMDb"], "imdb_id");
    (["Tvdb"; "TheTVDB"; "TVDB"], "tvdb_id");
    (["DoubanID"; "Douban"; "douban"], "douban_id");
    (["Bangumi"; "bangumi"; "BangumiID"], "bangumi_id") ].

(** The inner loop, lines 190-193 and 313-316:
<<
    for field_name in field_names:
        if field_name in provider_ids and provider_ids[field_name]:
            metadata_ids[target_key] = str(provider_ids[field_name])
            break
>> *)
Fixpoint scan_field_names (provider_ids : json) (field_names : list string)
    (target_key : string) (metadata_ids : pydict) : res pydict :=
  match field_names with
  | [] => Ok metadata_ids
  | field_name :: rest =>
      let! found := py_in field_name provider_ids in
      if found then
        let! value := py_getitem provider_ids field_name in
        if truthy value
        then Ok (<[target_key := JStr (py_str value)]> metadata_ids)
        else scan_field_names provider_ids rest target_key metadata_ids
      else scan_field_names provider_ids rest target_key metadata_ids
  end.

(** The outer loop, [for field_names, target_key in id_mappings]. *)
Fixpoint scan_mappings (provider_ids : json)
    (mappings : list (list string * string)) (metadata_ids : pydict)
    : res pydict :=
  match mappings with
  | [] => Ok metadata_ids
  | (field_names, target_key) :: rest =>
      let! metadata_ids :=
        scan_field_names provider_ids field_names target_key metadata_ids in
      scan_mappings provider_ids rest metadata_ids
  end.

(** [SafeMetadataEnhancer._extract_metadata_ids], lines 168-200. *)
Definition _extract_metadata_ids (item_data : json) : res pydict :=
  let! provider_ids := py_get item_data "ProviderIds" (JObj ∅) in
  scan_mappings provider_ids id_mappings default_metadata.

(** [_extract_metadata_from_webhook], lines 289-318. *)
Definition _extract_metadata_from_webhook (webhook_data : json) : res pydict :=
  let! item := py_get webhook_data "Item" (JObj ∅) in
  let! provider_ids := py_get item "ProviderIds" (JObj ∅) in
  scan_mappings provider_ids id_mappings default_metadata.

(** One pass of lines 235-237 (and 241-243):
<<
    for key, value in source.items():
        if value:
            merged[key] = value
>> *)
Definition overwrite_with (source merged : pydict) : pydict :=
  map_fold (fun key value merged =>
              if truthy value then <[key := value]> merged else merged)
           merged source.

(** [if d:] for an optional dict. *)
Definition dict_truthy (d : option pydict) : bool :=
  match d with
  | Some d => negb (bool_decide (d = ∅))
  | None => false
  end.

(** [SafeMetadataEnhancer._merge_metadata], lines 222-245. *)
Definition _merge_metadata (series_metadata item_metadata : option pydict)
    : pydict :=
  let merged := default_metadata in
  let merged :=
    match item_metadata with
    | Some item => if dict_truthy item_metadata
                   then overwrite_with item merged else merged
    | None => merged
    end in
  let merged :=
    match series_metadata with
    | Some series => if dict_truthy series_metadata
                     then overwrite_with series merged else merged
    | None => merged
    end in
  merged.

(** ** State and exceptions

    A computation reads and updates a state and either returns or raises. *)

Definition M (S A : Type) : Type := S -> res A * S.

Definition ret {S A} (a : A) : M S A := fun s => (Ok a, s).

Definition raise {S A} (e : exn) : M S A := fun s => (Raise e, s).

Definition lift {S A} (r : res A) : M S A := fun s => (r, s).

Definition bind {S A B} (m : M S A) (k : A -> M S B) : M S B :=
  fun s => match m s with
           | (Ok a, s') => k a s'
           | (Raise e, s') => (Raise e, s')
           end.

(** [try: m  except Exception as e: h e]. *)
Definition try_except {S A} (m : M S A) (h : exn -> M S A) : M S A :=
  fun s => match m s with
           | (Ok a, s') => (Ok a, s')
           | (Raise e, s') => h e s'
           end.

Definition get_state {S} : M S S := fun s => (Ok s, s).

Definition modify {S} (f : S -> S) : M S unit := fun s => (Ok tt, f s).

Notation "'let*' x ':=' m 'in' k" := (bind m (fun x => k))
  (at level 10, x name, m at level 100, k at level 200,
   format "'[v' 'let*'  x  ':='  m  'in' '/' k ']'").

(** ** The enhancer object and the network *)

(** An [httpx.AsyncClient]. *)
Record client : Type := Client { is_closed : bool }.

(** The attributes of a [SafeMetadataEnhancer]. *)
Record enhancer : Type := Enhancer {
  emby_url : option string;
  emby_api_key : option string;
  session : option client;
  user_id : json;
  enabled : bool
}.

(** What the process has done on the network: the URLs it requested, newest
    first, and the number of HTTP clients it created. *)
Record io : Type := Io {
  requests : list string;
  clients : nat
}.

(** The state a method of the enhancer runs in. *)
Record obj_state : Type := ObjState {
  self : enhancer;
  net : io
}.

(** What a [GET] meets: a response with a status code and a body, which is
    [None] when [response.json()] cannot parse it, or an exception. *)
Inductive http_outcome : Type :=
| Responds (status_code : Z) (body : option json)
| Fails (e : exn).

(** [bool(s)] for an optional string. *)
Definition str_truthy (s : option string) : bool :=
  match s with
  | Some s => negb (String.eqb s "")
  | None => false
  end.

(** [SafeMetadataEnhancer.__init__], lines 18-28, given the two environment
    variables. *)
Definition __init__ (EMBY_SERVER_URL EMBY_API_KEY : option string) : enhancer :=
  {| emby_url := EMBY_SERVER_URL;
     emby_api_key := EMBY_API_KEY;
     session := None;
     user_id := JNull;
     enabled := str_truthy EMBY_SERVER_URL |}.

(** [self.session = httpx.AsyncClient(timeout=timeout)]. *)
Definition set_session (c : client) (s : obj_state) : obj_state :=
  let e := self s in
  {| self := {| emby_url := emby_url e; emby_api_key := emby_api_key e;
                session := Some c; user_id := user_id e;
                enabled := enabled e |};
     net := {| requests := requests (net s); clients := S (clients (net s)) |} |}.

(** [self.user_id = uid]. *)
Definition set_user_id (uid : json) (s : obj_state) : obj_state :=
  let e := self s in
  {| self := {| emby_url := emby_url e; emby_api_key := emby_api_key e;
                session := session e; user_id := uid;
                enabled := enabled e |};
     net := net s |}.

(** A request for [url] goes out. *)
Definition log_request (url : string) (s : obj_state) : obj_state :=
  {| self := self s;
     net := {| requests := url :: requests (net s);
               clients := clients (net s) |} |}.

(** [response.json()]. *)
Definition response_json (body : option json) : res json :=
  match body with
  | Some v => Ok v
  | None => Raise JSONDecodeError
  end.

(** The admin search of lines 56-60: the [Id] of the first user whose
    [Policy.IsAdministrator] is true. *)
Fixpoint find_admin (users : list json) : res (option json) :=
  match users with
  | [] => Ok None
  | user :: rest =>
      let! policy := py_get user "Policy" (JObj ∅) in
      let! is_admin := py_get policy "IsAdministrator" (JBool false) in
      if truthy is_admin then
        let! uid := py_getitem user "Id" in
        Ok (Some uid)
      else find_admin rest
  end.

(** ** The task handed to the task manager ([emby.py], lines 130-151) *)

(** The keyword arguments of [webhook_search_and_dispatch_task] that the
    handler computes; the collaborators it passes through are left out. *)
Record task : Type := Task {
  animeTitle : json;
  mediaType : string;
  season : json;
  currentEpisodeIndex : json;
  year : json;
  searchKeyword : json;
  doubanId : option string;
  tmdbId : option string;
  imdbId : option string;
  tvdbId : option string;
  bangumiId : option string;
  webhookSource : string;
  eventType : json
}.

(** One call of [task_manager.submit_task(task_coro, task_title, unique_key)]. *)
Record submission : Type := Submission {
  sub_task : task;
  sub_title : string;
  sub_unique_key : string
}.

(** The process: its environment variables, the module's global
    [_metadata_enhancer], the network record and the tasks submitted so far,
    newest first. *)
Record world : Type := World {
  EMBY_SERVER_URL : option string;
  EMBY_API_KEY : option string;
  _metadata_enhancer : option enhancer;
  net_io : io;
  submitted : list submission
}.

(** The process once the global instance is [e] and the network record [n]. *)
Definition with_enhancer (e : enhancer) (n : io) (w : world) : world :=
  {| EMBY_SERVER_URL := EMBY_SERVER_URL w; EMBY_API_KEY := EMBY_API_KEY w;
     _metadata_enhancer := Some e; net_io := n; submitted := submitted w |}.

(** Modelled from the spec: [task_manager.submit_task], the task submission
    collaborator, whose code is not part of these sources.  The specification
    describes it as "a callable accepting (task coroutine/closure,
    human-readable title, uniqueness key) -- this is a fire-and-forget
    enqueue; its retry/backpressure semantics belong to the collaborator",
    and leaves the collision policy ("reject vs. ignore duplicate") to it.
    The model records the hand-over and nothing else: [submitted] lists the
    calls, newest first.  Whether the collaborator then returns or refuses
    is not modelled; line 151 of [emby.py] awaits it outside any [try], so
    a refusal would leave the handler as an exception.  Of the statements
    below, only the result [Ok tt] of a run that has handed a task over
    rests on this. *)
Definition submit_task (t : task) (title key : string) : M world unit :=
  modify (fun w =>
    {| EMBY_SERVER_URL := EMBY_SERVER_URL w; EMBY_API_KEY := EMBY_API_KEY w;
       _metadata_enhancer := _metadata_enhancer w; net_io := net_io w;
       submitted := Submission t title key :: submitted w |}).

(** [str(v) if v else None]. *)
Definition str_or_none (v : json) : option string :=
  if truthy v then Some (py_str v) else None.

(** The five identifiers the handler reads from the payload itself. *)
Record basic_ids : Type := BasicIds {
  basic_tmdb_id : json;
  basic_imdb_id : json;
  basic_tvdb_id : json;
  basic_douban_id : json;
  basic_bangumi_id : json
}.

(** Lines 44-50 of [emby.py]: one spelling is read for each identifier. *)
Definition basic_provider_ids (item : json) : res basic_ids :=
  let! provider_ids := py_get item "ProviderIds" (JObj ∅) in
  let! basic_tmdb_id := py_get provider_ids "Tmdb" JNull in
  let! basic_imdb_id := py_get provider_ids "IMDB" JNull in
  let! basic_tvdb_id := py_get provider_ids "Tvdb" JNull in
  let! basic_douban_id := py_get provider_ids "DoubanID" JNull in
  let! basic_bangumi_id := py_get provider_ids "Bangumi" JNull in
  Ok (BasicIds basic_tmdb_id basic_imdb_id basic_tvdb_id basic_douban_id
        basic_bangumi_id).

(** [await self.session.aclose()]. *)
Definition close_session (s : obj_state) : obj_state :=
  let e := self s in
  {| self := {| emby_url := emby_url e; emby_api_key := emby_api_key e;
                session := Some (Client true); user_id := user_id e;
                enabled := enabled e |};
     net := net s |}.

(** [SafeMetadataEnhancer.close], lines 202-205. *)
Definition close : M obj_state unit :=
  fun s => match session (self s) with
           | Some c => if negb (is_closed c) then (Ok tt, close_session s)
                       else (Ok tt, s)
           | None => (Ok tt, s)
           end.

(** [cleanup_metadata_enhancer], lines 321-326: the global instance is closed
    and forgotten. *)
Definition cleanup_metadata_enhancer : M world unit :=
  fun w => match _metadata_enhancer w with
           | Some e =>
               let (r, s) := close (ObjState e (net_io w)) in
               (r, {| EMBY_SERVER_URL := EMBY_SERVER_URL w;
                      EMBY_API_KEY := EMBY_API_KEY w;
                      _metadata_enhancer := None;
                      net_io := net s;
                      submitted := submitted w |})
           | None => (Ok tt, w)
           end.

Section Emby.

(** [urllib.parse.urljoin], left uninterpreted. *)
Variable urljoin : string -> string -> string.

(** The Emby server and the network before it: what the next [GET] of a URL
    meets, given the URLs requested so far.  Every request lengthens that
    record, so any sequence of answers, failures and timeouts is the
    behaviour of some [remote]. *)
Variable remote : list string -> string -> http_outcome.

(** [await session.get(url)]. *)
Definition session_get (url : string) : M obj_state (Z * option json) :=
  fun s => match remote (requests (net s)) url with
           | Responds status_code body =>
               (Ok (status_code, body), log_request url s)
           | Fails e => (Raise e, log_request url s)
           end.

(** [SafeMetadataEnhancer._get_session], lines 30-38. *)
Definition _get_session : M obj_state (option client) :=
  fun s =>
    if negb (enabled (self s)) then (Ok None, s)
    else match session (self s) with
         | Some c =>
             if is_closed c
             then (Ok (Some (Client false)), set_session (Client false) s)
             else (Ok (Some c), s)
         | None => (Ok (Some (Client false)), set_session (Client false) s)
         end.

(** [SafeMetadataEnhancer._build_url], lines 160-166.  It is only called on
    an enabled enhancer, whose [emby_url] is a string. *)
Definition _build_url (e : enhancer) (endpoint : string) : string :=
  let url := urljoin (default "" (emby_url e)) ("/emby/" ++ endpoint) in
  if str_truthy (emby_api_key e) then
    let separator := if str_contains "?" url then "&" else "?" in
    url ++ separator ++ "api_key=" ++ default "" (emby_api_key e)
  else url.

(** [SafeMetadataEnhancer._get_user_id], lines 40-71. *)
Definition _get_user_id : M obj_state json :=
  let* s := get_state in
  if truthy (user_id (self s)) then ret (user_id (self s)) else
  let* session := _get_session in
  match session with
  | None => ret JNull
  | Some _ =>
      try_except
        (let* s := get_state in
         let url := _build_url (self s) "Users" in
         let* response := session_get url in
         if response.1 =? 200 then
           let* users := lift (response_json response.2) in
           if truthy users then
             let* listed := lift (py_iter users) in
             let* admin := lift (find_admin listed) in
             match admin with
             | Some uid =>
                 let* _ := modify (set_user_id uid) in
                 ret uid
             | None =>
                 let* first := lift (py_first users) in
                 let* uid := lift (py_getitem first "Id") in
                 let* _ := modify (set_user_id uid) in
                 ret uid
             end
           else ret JNull
         else ret JNull)
        (fun _ => ret JNull)
  end.

(** [SafeMetadataEnhancer._fetch_item_metadata], lines 129-158. *)
Definition _fetch_item_metadata (item_id : json) : M obj_state (option pydict) :=
  let* session := _get_session in
  match session with
  | None => ret None
  | Some _ =>
      let* user_id := _get_user_id in
      if negb (truthy user_id) then ret None else
      try_except
        (let* s := get_state in
         let url := _build_url (self s)
                      ("Users/" ++ py_str user_id ++ "/Items/" ++ py_str item_id) in
         let* response := session_get url in
         if response.1 =? 200 then
           let* data := lift (response_json response.2) in
           let* ids := lift (_extract_metadata_ids data) in
           ret (Some ids)
         else ret None)
        (fun _ => ret None)
  end.

(** [SafeMetadataEnhancer.enhance_metadata], lines 73-127. *)
Definition enhance_metadata (item_id series_id : json) : M obj_state pydict :=
  let* s := get_state in
  if negb (enabled (self s)) then ret default_metadata else
  try_except
    (let* series_metadata :=
       if truthy series_id then _fetch_item_metadata series_id else ret None in
     let* item_metadata := _fetch_item_metadata item_id in
     let merged_metadata := _merge_metadata series_metadata item_metadata in
     if any_values merged_metadata then ret merged_metadata
     else ret default_metadata)
    (fun _ => ret default_metadata).

(** [get_metadata_enhancer], lines 252-257: the global instance, created at
    its first use. *)
Definition get_metadata_enhancer : M world enhancer :=
  fun w => match _metadata_enhancer w with
           | Some e => (Ok e, w)
           | None =>
               let e := __init__ (EMBY_SERVER_URL w) (EMBY_API_KEY w) in
               (Ok e, with_enhancer e (net_io w) w)
           end.

(** A method call on the object [e], which stays the global instance. *)
Definition call {A} (e : enhancer) (m : M obj_state A) : M world A :=
  fun w => let (r, s) := m (ObjState e (net_io w)) in
           (r, with_enhancer (self s) (net s) w).

(** [enhance_webhook_metadata], lines 260-286. *)
Definition enhance_webhook_metadata (item_id series_id webhook_data : json)
    : M world pydict :=
  let* enhancer := get_metadata_enhancer in
  let* enhanced_metadata := call enhancer (enhance_metadata item_id series_id) in
  if negb (any_values enhanced_metadata) && truthy webhook_data then
    let* webhook_metadata := lift (_extract_metadata_from_webhook webhook_data) in
    if any_values webhook_metadata then ret webhook_metadata
    else ret enhanced_metadata
  else ret enhanced_metadata.

(** *** [EmbyWebhook.handle] ([emby.py]) *)

(** Lines 118-151, the code after the two branches: merge the identifiers,
    build the key and the task, submit. *)
Definition merge_and_submit (event_type year : json) (basic : basic_ids)
    (enhanced_metadata : pydict) (task_title : string) (search_keyword : json)
    (media_type : string) (season_number episode_number anime_title : json)
    : M world unit :=
  let final_tmdb_id :=
    py_or (dict_get enhanced_metadata "tmdb_id") (basic_tmdb_id basic) in
  let final_imdb_id :=
    py_or (dict_get enhanced_metadata "imdb_id") (basic_imdb_id basic) in
  let final_tvdb_id :=
    py_or (dict_get enhanced_metadata "tvdb_id") (basic_tvdb_id basic) in
  let final_douban_id :=
    py_or (dict_get enhanced_metadata "douban_id") (basic_douban_id basic) in
  let final_bangumi_id :=
    py_or (dict_get enhanced_metadata "bangumi_id") (basic_bangumi_id basic) in
  let unique_key :=
    "webhook-search-" ++ py_str anime_title ++ "-S" ++ py_str season_number
      ++ "-E" ++ py_str episode_number in
  submit_task
    {| animeTitle := anime_title;
       mediaType := media_type;
       season := season_number;
       currentEpisodeIndex := episode_number;
       year := year;
       searchKeyword := search_keyword;
       doubanId := str_or_none final_douban_id;
       tmdbId := str_or_none final_tmdb_id;
       imdbId := str_or_none final_imdb_id;
       tvdbId := str_or_none final_tvdb_id;
       bangumiId := str_or_none final_bangumi_id;
       webhookSource := "emby";
       eventType := event_type |}
    task_title unique_key.

(** Lines 72-81 and 100-109: the enhancement call inside its [try]. *)
Definition guarded_enhance (item_id series_id payload : json) : M world pydict :=
  try_except (enhance_webhook_metadata item_id series_id payload)
             (fun _ => ret default_metadata).

(** [EmbyWebhook.handle], lines 15-151.  [body] is [None] when the request
    body is not JSON.  The log lines are left out, but for the format
    specifications of lines 68 and 70, which can raise. *)
Definition handle (body : option json) : M world unit :=
  match body with
  | None => raise (HTTPException 400)
  | Some payload =>
      let* event_type := lift (py_get payload "Event" JNull) in
      if negb (py_in_strs event_type ["item.add"; "library.new"; "playback.start"])
      then ret tt else
      let* item := lift (py_get payload "Item" (JObj ∅)) in
      if negb (truthy item) then ret tt else
      let* item_type := lift (py_get item "Type" JNull) in
      if negb (py_in_strs item_type ["Episode"; "Movie"]) then ret tt else
      let* item_id := lift (py_get item "Id" JNull) in
      let* year := lift (py_get item "ProductionYear" JNull) in
      let* basic := lift (basic_provider_ids item) in
      if py_eq_str item_type "Episode" then
        let* series_title := lift (py_get item "SeriesName" JNull) in
        let* series_id := lift (py_get item "SeriesId" JNull) in
        let* season_number := lift (py_get item "ParentIndexNumber" JNull) in
        let* episode_number := lift (py_get item "IndexNumber" JNull) in
        if negb (truthy series_title && negb (is_none season_number)
                 && negb (is_none episode_number))
        then ret tt else
        let* s02 := lift (format_02d season_number) in
        let* e02 := lift (format_02d episode_number) in
        let* enhanced_metadata := guarded_enhance item_id series_id payload in
        let task_title :=
          "Webhook（emby）搜索: " ++ py_str series_title
            ++ " - S" ++ s02 ++ "E" ++ e02 in
        let search_keyword :=
          JStr (py_str series_title ++ " S" ++ s02 ++ "E" ++ e02) in
        merge_and_submit event_type year basic enhanced_metadata task_title
          search_keyword "tv_series" season_number episode_number series_title
      else if py_eq_str item_type "Movie" then
        let* movie_title := lift (py_get item "Name" JNull) in
        if negb (truthy movie_title) then ret tt else
        let* enhanced_metadata := guarded_enhance item_id JNull payload in
        let task_title := "Webhook（emby）搜索: " ++ py_str movie_title in
        merge_and_submit event_type year basic enhanced_metadata task_title
          movie_title "movie" (JInt 1) (JInt 1) movie_title
      else raise NameError
  end.

(** ** The five provider kinds, and how each part of the code names them *)

Inductive ProviderKind : Type := TMDB | IMDb | TVDB | Douban | Bangumi.

Definition all_kinds : list ProviderKind := [TMDB; IMDb; TVDB; Douban; Bangumi].

(** The key of a kind in a metadata dictionary. *)
Definition enhanced_key (k : ProviderKind) : string :=
  match k with
  | TMDB => "tmdb_id" | IMDb => "imdb_id" | TVDB => "tvdb_id"
  | Douban => "douban_id" | Bangumi => "bangumi_id"
  end.

(** The spellings tried for a kind by the two table-driven extractors. *)
Definition aliases (k : ProviderKind) : list string :=
  match k with
  | TMDB => ["Tmdb"; "TheMovieDb"; "TMDB"]
  | IMDb => ["Imdb"; "IMDB"; "IMDb"]
  | TVDB => ["Tvdb"; "TheTVDB"; "TVDB"]
  | Douban => ["DoubanID"; "Douban"; "douban"]
  | Bangumi => ["Bangumi"; "bangumi"; "BangumiID"]
  end.

(** The one spelling the handler reads for a kind. *)
Definition webhook_key (k : ProviderKind) : string :=
  match k with
  | TMDB => "Tmdb" | IMDb => "IMDB" | TVDB => "Tvdb"
  | Douban => "DoubanID" | Bangumi => "Bangumi"
  end.

(** The handler's reading of a kind. *)
Definition basic_id (k : ProviderKind) (b : basic_ids) : json :=
  match k with
  | TMDB => basic_tmdb_id b | IMDb => basic_imdb_id b | TVDB => basic_tvdb_id b
  | Douban => basic_douban_id b | Bangumi => basic_bangumi_id b
  end.

(** The identifier of a kind in a task. *)
Definition task_id (k : ProviderKind) (t : task) : option string :=
  match k with
  | TMDB => tmdbId t | IMDb => imdbId t | TVDB => tvdbId t
  | Douban => doubanId t | Bangumi => bangumiId t
  end.

(** *** The rules in the words of the specification *)

(** A value is present when Python takes it for true: it is not [None], not
    the empty string, not zero. *)
Definition present (v : json) : bool := truthy v.

(** First match wins: the first spelling of the list under which the
    identifier map holds a present value. *)
Definition first_match (provider_ids : pydict) (names : list string)
    : option string :=
  List.find (fun name => present (dict_get provider_ids name)) names.

(** The identifier resolved through a list of spellings: the value under the
    first match as a string, absent when no spelling matches. *)
Definition resolve (provider_ids : pydict) (names : list string) : json :=
  match first_match provider_ids names with
  | Some name => JStr (py_str (dict_get provider_ids name))
  | None => JNull
  end.

(** Enhanced value if present, else basic value if present, else absent. *)
Definition merge_rule (enhanced basic : json) : option string :=
  if present enhanced then Some (py_str enhanced)
  else if present basic then Some (py_str basic)
  else None.

(** Series-level value if present, else item-level value if present, else
    absent. *)
Definition series_over_item (series item : json) : json :=
  if present series then series
  else if present item then item
  else JNull.

(** [d.get(key)] on an optional dictionary, absent when there is none. *)
Definition opt_get (d : option pydict) (key : string) : json :=
  match d with
  | Some d => dict_get d key
  | None => JNull
  end.

(** The payload's [Item.ProviderIds], [{}] standing for a missing member, as
    lines 300-301 of [metadata_enhancer.py] read it. *)
Definition webhook_provider_ids (webhook_data : json) : res json :=
  let! item := py_get webhook_data "Item" (JObj ∅) in
  py_get item "ProviderIds" (JObj ∅).

(** The key under which a title, a season and an episode are submitted. *)
Definition dispatch_key (title season episode : json) : string :=
  "webhook-search-" ++ py_str title ++ "-S" ++ py_str season
    ++ "-E" ++ py_str episode.

(** What the table-driven extraction may leave under a kind: nothing, or the
    string of the present raw value found under the first match. *)
Definition extracted_from (provider_ids : json) (kind : ProviderKind)
    (v : json) : Prop :=
  v = JNull \/
  exists (ids : pydict) (name : string) (raw : json),
    provider_ids = JObj ids /\
    first_match ids (aliases kind) = Some name /\
    ids !! name = Some raw /\
    present raw = true /\
    v = JStr (py_str raw).

(** What the table-driven extraction leaves under a list of spellings of an
    identifier map: the string of the raw value under the first spelling
    whose value is present, every spelling before it having been skipped;
    and nothing exactly when no spelling holds a present value. *)
Definition coerced_from (ids : pydict) (names : list string) (v : json) : Prop :=
  (exists before name after,
     names = (before ++ name :: after)%list /\
     Forall (fun skipped => present (dict_get ids skipped) = false) before /\
     present (dict_get ids name) = true /\
     v = JStr (py_str (dict_get ids name)))
  \/ (Forall (fun skipped => present (dict_get ids skipped) = false) names /\
      v = JNull).

(** An episode without a series title, a season number or an episode
    number. *)
Definition episode_incomplete (item : pydict) : Prop :=
  dict_get item "Type" = JStr "Episode" /\
  (truthy (dict_get item "SeriesName") = false \/
   dict_get item "ParentIndexNumber" = JNull \/
   dict_get item "IndexNumber" = JNull).

(** The server never answers a request with status 200. *)
Definition never_200 : Prop :=
  forall log url body, remote log url <> Responds 200 body.

(** *** Views of the enhancer's state *)

(** The object holds a client that is not closed. *)
Definition session_is_open (e : enhancer) : bool :=
  match session e with
  | Some c => negb (is_closed c)
  | None => false
  end.

(** The configuration read at creation is the same in both objects. *)
Definition same_config (e e' : enhancer) : Prop :=
  emby_url e' = emby_url e /\
  emby_api_key e' = emby_api_key e /\
  enabled e' = enabled e.

(** The URL of an item in the context of a user, line 142. *)
Definition item_url (e : enhancer) (user_id item_id : json) : string :=
  _build_url e ("Users/" ++ py_str user_id ++ "/Items/" ++ py_str item_id).

(** What a fetch makes of the answer to its request, lines 144-158: the
    identifiers extracted from the body of a 200, nothing otherwise. *)
Definition metadata_of_answer (answer : http_outcome) : option pydict :=
  match answer with
  | Responds status_code (Some data) =>
      if status_code =? 200 then
        match _extract_metadata_ids data with
        | Ok ids => Some ids
        | Raise _ => None
        end
      else None
  | _ => None
  end.

(** A user of the list [GET /Users] returns is an administrator. *)
Definition is_administrator (user : pydict) : bool :=
  match default (JObj ∅) (user !! "Policy") with
  | JObj policy => truthy (default (JBool false) (policy !! "IsAdministrator"))
  | _ => false
  end.

(** A user object whose [Policy], when given, is an object. *)
Definition user_shaped (user : pydict) : Prop :=
  is_Some (user !! "Id") /\
  exists policy : pydict, default (JObj ∅) (user !! "Policy") = JObj policy.

(** The acting user: the first administrator, else the first user. *)
Definition acting_user (users : list pydict) : json :=
  match List.find is_administrator users with
  | Some user => dict_get user "Id"
  | None => match users with
            | user :: _ => dict_get user "Id"
            | [] => JNull
            end
  end.

(** *** Views of a delivery *)

(** The values the format code [d] of lines 68 to 84 accepts. *)
Definition is_int (v : json) : bool :=
  match v with
  | JInt _ | JBool _ => true
  | _ => false
  end.

(** The events the handler cares about, line 26. *)
Definition handled_events : list string :=
  ["item.add"; "library.new"; "playback.start"].

(** An item that leads to a task: its [ProviderIds] can be read, and it is an
    Episode with a series title and numbers for season and episode, or a
    Movie with a name. *)
Definition accepted_item (item : pydict) : bool :=
  match default (JObj ∅) (item !! "ProviderIds") with
  | JObj _ =>
      if py_eq_str (dict_get item "Type") "Episode" then
        truthy (dict_get item "SeriesName")
        && is_int (dict_get item "ParentIndexNumber")
        && is_int (dict_get item "IndexNumber")
      else if py_eq_str (dict_get item "Type") "Movie" then
        truthy (dict_get item "Name")
      else false
  | _ => false
  end.

(** A request body that leads to a task. *)
Definition accepted (body : option json) : bool :=
  match body with
  | Some (JObj payload) =>
      py_in_strs (dict_get payload "Event") handled_events
      && match default (JObj ∅) (payload !! "Item") with
         | JObj item => accepted_item item
         | _ => false
         end
  | _ => false
  end.

(** The series an item is fetched with: its [SeriesId] for an Episode, none
    for a Movie (lines 74 and 102). *)
Definition series_of (item : pydict) : json :=
  if py_eq_str (dict_get item "Type") "Episode" then dict_get item "SeriesId"
  else JNull.

(** Deliveries handled one after the other by the same process.  A delivery
    whose handling raises is answered with an error and the next one is
    handled all the same. *)
Fixpoint serve (bodies : list (option json)) (w : world) : world :=
  match bodies with
  | [] => w
  | body :: rest => serve rest (handle body w).2
  end.


(** What a state has become after requests and, maybe, a newly cached user:
    everything else is as it was. *)
Definition moved (s s' : obj_state) (new : list string) : Prop :=
  requests (net s') = (new ++ requests (net s))%list /\
  clients (net s') = clients (net s) /\
  session (self s') = session (self s) /\
  same_config (self s) (self s').

(** The state in which an enabled enhancer holds an open client. *)
Definition opened (s : obj_state) : obj_state :=
  if session_is_open (self s) then s else set_session (Client false) s.

(** What the task of a submission says about the item it was made for. *)
Definition task_for (payload item : pydict) (sub : submission) : Prop :=
  let t := sub_task sub in
  webhookSource t = "emby" /\
  eventType t = dict_get payload "Event" /\
  year t = dict_get item "ProductionYear" /\
  truthy (animeTitle t) = true /\
  sub_unique_key sub =
    dispatch_key (animeTitle t) (season t) (currentEpisodeIndex t) /\
  if py_eq_str (dict_get item "Type") "Episode" then
    animeTitle t = dict_get item "SeriesName" /\
    mediaType t = "tv_series" /\
    season t = dict_get item "ParentIndexNumber" /\
    currentEpisodeIndex t = dict_get item "IndexNumber" /\
    exists s02 e02,
      format_02d (season t) = Ok s02 /\
      format_02d (currentEpisodeIndex t) = Ok e02 /\
      searchKeyword t =
        JStr (py_str (animeTitle t) ++ " S" ++ s02 ++ "E" ++ e02) /\
      sub_title sub =
        "Webhook（emby）搜索: " ++ py_str (animeTitle t)
          ++ " - S" ++ s02 ++ "E" ++ e02
  else
    animeTitle t = dict_get item "Name" /\
    mediaType t = "movie" /\
    season t = JInt 1 /\
    currentEpisodeIndex t = JInt 1 /\
    searchKeyword t = animeTitle t /\
    sub_title sub = "Webhook（emby）搜索: " ++ py_str (animeTitle t).

(** The global instance as [get_metadata_enhancer] hands it out: the one in
    place, or one made from the environment. *)
Definition instance (w : world) : enhancer :=
  default (__init__ (EMBY_SERVER_URL w) (EMBY_API_KEY w)) (_metadata_enhancer w).

(** The process holds an instance with an open client. *)
Definition holds_open_client (w : world) : bool :=
  match _metadata_enhancer w with
  | Some e => session_is_open e
  | None => false
  end.


(** ** The danmaku checker ([enhanced_checker.py]) *)

(** A row of [select(Anime.id, Anime.title, Anime.season)]. *)
Record anime_row : Type := AnimeRow {
  row_id : json;
  row_title : json;
  row_season : json
}.

(** A row of [select(Episode.commentCount, Episode.danmakuFilePath)]; a
    column may hold [NULL]. *)
Record episode_row : Type := EpisodeRow {
  commentCount : option Z;
  danmakuFilePath : option string
}.

(** What the checker asks of the database: the two statements it executes,
    the second one for one episode or ([None]) for all, and the title match
    of [crud]. *)
Inductive db_call : Type :=
| SelectAnime (id_type : string) (id_value : json)
| SelectEpisodes (anime_id episode_index : json)
| TitleMatch (title season episode_index : json).

(** The rows [session.execute] returns for the two statements, or the
    exception it raises.  Nothing is written during a check. *)
Variable anime_rows : string -> json -> res (list anime_row).
Variable episode_rows : json -> json -> res (list episode_row).

(** [crud.check_anime_has_danmaku] and [crud._get_fs_path_from_web_path],
    which these sources do not hold, and [Path.is_file]. *)
Variable crud_check_anime_has_danmaku : json -> json -> json -> res bool.
Variable _get_fs_path_from_web_path : string -> res (option string).
Variable is_file : string -> res bool.

(** The calls made so far, newest first. *)
Definition log_call (c : db_call) : M (list db_call) unit := modify (cons c).

(** The keys of [id_field_map], lines 81-87. *)
Definition id_field_map : list string :=
  ["TMDB"; "Douban"; "IMDb"; "TVDB"; "Bangumi"].

(** [EnhancedDanmakuChecker._find_anime_by_metadata_id], lines 79-104. *)
Definition _find_anime_by_metadata_id (id_type : string) (id_value : json)
    : M (list db_call) (option anime_row) :=
  if negb (existsb (String.eqb id_type) id_field_map) then ret None else
  let* _ := log_call (SelectAnime id_type id_value) in
  let* rows := lift (anime_rows id_type id_value) in
  ret (head rows).

(** [c <= 0] and [c > 0] for a column that may hold [NULL]. *)
Definition py_le0 (c : option Z) : res bool :=
  match c with
  | Some z => Ok (z <=? 0)
  | None => Raise TypeError
  end.

Definition py_gt0 (c : option Z) : res bool :=
  match c with
  | Some z => Ok (0 <? z)
  | None => Raise TypeError
  end.

(** [fs_path = crud._get_fs_path_from_web_path(p)] followed by
    [fs_path and fs_path.is_file()]. *)
Definition file_found (web_path : string) : res json :=
  let! fs_path := _get_fs_path_from_web_path web_path in
  match fs_path with
  | Some p => let! found := is_file p in Ok (JBool found)
  | None => Ok JNull
  end.

(** Lines 133-139: the loop over all episodes and the final [return False]. *)
Fixpoint scan_episodes (episodes : list episode_row) : res json :=
  match episodes with
  | [] => Ok (JBool false)
  | episode_data :: rest =>
      let! positive := py_gt0 (commentCount episode_data) in
      if positive && str_truthy (danmakuFilePath episode_data) then
        let! found := file_found (default "" (danmakuFilePath episode_data)) in
        if truthy found then Ok (JBool true) else scan_episodes rest
      else scan_episodes rest
  end.

(** [EnhancedDanmakuChecker._check_anime_danmaku_by_id], lines 106-139. *)
Definition _check_anime_danmaku_by_id (anime_id episode_index : json)
    : M (list db_call) json :=
  if negb (is_none episode_index) then
    let* _ := log_call (SelectEpisodes anime_id episode_index) in
    let* rows := lift (episode_rows anime_id episode_index) in
    match head rows with
    | None => ret (JBool false)
    | Some episode_data =>
        let* nothing := lift (py_le0 (commentCount episode_data)) in
        if nothing then ret (JBool false) else
        if str_truthy (danmakuFilePath episode_data) then
          lift (file_found (default "" (danmakuFilePath episode_data)))
        else ret (JBool false)
    end
  else
    let* _ := log_call (SelectEpisodes anime_id JNull) in
    let* rows := lift (episode_rows anime_id JNull) in
    lift (scan_episodes rows).

(** [EnhancedDanmakuChecker._get_metadata_priority_order], lines 141-153. *)
Definition _get_metadata_priority_order (metadata : pydict)
    : list (string * json) :=
  [ ("TMDB", dict_get metadata "tmdb_id");
    ("Douban", dict_get metadata "douban_id");
    ("IMDb", dict_get metadata "imdb_id");
    ("TVDB", dict_get metadata "tvdb_id");
    ("Bangumi", dict_get metadata "bangumi_id") ].

(** Lines 50-66, the body of the loop for one identifier: [true] when the
    loop is left with [return True]. *)
Definition try_id (id_type : string) (id_value episode_index : json)
    : M (list db_call) bool :=
  try_except
    (let* anime := _find_anime_by_metadata_id id_type id_value in
     match anime with
     | Some row =>
         let* has_danmaku :=
           _check_anime_danmaku_by_id (row_id row) episode_index in
         ret (truthy has_danmaku)
     | None => ret false
     end)
    (fun _ => ret false).

(** Lines 47-66, the loop over the identifiers in their order. *)
Fixpoint try_ids (ids : list (string * json)) (episode_index : json)
    : M (list db_call) bool :=
  match ids with
  | [] => ret false
  | (id_type, id_value) :: rest =>
      if truthy id_value then
        let* matched := try_id id_type id_value episode_index in
        if matched then ret true else try_ids rest episode_index
      else try_ids rest episode_index
  end.

(** Lines 70-76, the title match in its [try]. *)
Definition title_match (title season episode_index : json)
    : M (list db_call) bool :=
  try_except
    (let* _ := log_call (TitleMatch title season episode_index) in
     lift (crud_check_anime_has_danmaku title season episode_index))
    (fun _ => ret false).

(** [EnhancedDanmakuChecker.check_anime_has_danmaku], lines 20-76. *)
Definition check_anime_has_danmaku (title season episode_index : json)
    (metadata : option pydict) : M (list db_call) bool :=
  let* matched :=
    match metadata with
    | Some ids =>
        if dict_truthy metadata && any_values ids
        then try_ids (_get_metadata_priority_order ids) episode_index
        else ret false
    | None => ret false
    end in
  if matched then ret true else title_match title season episode_index.

(** [check_danmaku_enhanced], lines 167-190. *)
Definition check_danmaku_enhanced (title season episode_index : json)
    (metadata : option pydict) : M (list db_call) bool :=
  try_except
    (check_anime_has_danmaku title season episode_index metadata)
    (fun _ =>
       try_except
         (let* _ := log_call (TitleMatch title season episode_index) in
          lift (crud_check_anime_has_danmaku title season episode_index))
         (fun _ => ret false)).

(** [has_useful_metadata], lines 193-197. *)
Definition has_useful_metadata (metadata : option pydict) : bool :=
  match metadata with
  | Some ids => if negb (dict_truthy metadata) then false else any_values ids
  | None => false
  end.

(** *** Views of a check *)

(** What [_check_anime_danmaku_by_id] answers for an anime. *)
Definition danmaku_by_id (anime_id episode_index : json) : res json :=
  (_check_anime_danmaku_by_id anime_id episode_index []).1.

(** An identifier leads to danmaku: the database knows an anime under it,
    and the check of that anime answers with a value Python takes for true;
    an exception on the way counts as no. *)
Definition id_matches (episode_index : json) (id : string * json) : bool :=
  match anime_rows id.1 id.2 with
  | Ok (row :: _) =>
      match danmaku_by_id (row_id row) episode_index with
      | Ok has_danmaku => truthy has_danmaku
      | Raise _ => false
      end
  | _ => false
  end.

(** The calls made for one identifier, oldest first. *)
Definition calls_for (episode_index : json) (id : string * json)
    : list db_call :=
  SelectAnime id.1 id.2
  :: match anime_rows id.1 id.2 with
     | Ok (row :: _) => [SelectEpisodes (row_id row) episode_index]
     | _ => []
     end.

(** The identifiers that are tried: those of the list up to the first one
    that leads to danmaku. *)
Fixpoint tried (episode_index : json) (ids : list (string * json))
    : list (string * json) :=
  match ids with
  | [] => []
  | id :: rest =>
      id :: (if id_matches episode_index id then []
             else tried episode_index rest)
  end.

(** The present identifiers of a metadata dictionary, in the order of
    priority. *)
Definition present_ids (metadata : pydict) : list (string * json) :=
  List.filter (fun id => truthy id.2) (_get_metadata_priority_order metadata).

(** The answer of the title match, an exception counting as no. *)
Definition title_answer (title season episode_index : json) : bool :=
  match crud_check_anime_has_danmaku title season episode_index with
  | Ok has_danmaku => has_danmaku
  | Raise _ => false
  end.


(** An episode row stands for danmaku: it counts comments and names a file
    that is there. *)
Definition episode_has_danmaku (episode_data : episode_row) : bool :=
  match commentCount episode_data with
  | Some count => 0 <? count
  | None => false
  end
  && str_truthy (danmakuFilePath episode_data)
  && match file_found (default "" (danmakuFilePath episode_data)) with
     | Ok found => truthy found
     | Raise _ => false
     end.

(** Reading an episode row raises nothing: its count is not [NULL], and the
    look at its file, when it names one, returns. *)
Definition row_readable (episode_data : episode_row) : Prop :=
  is_Some (commentCount episode_data) /\
  (str_truthy (danmakuFilePath episode_data) = true ->
   exists found,
     file_found (default "" (danmakuFilePath episode_data)) = Ok found).


(** ** Sample deliveries

    Concrete payloads, processes and servers at which the statements below
    are instantiated. *)

(** A stand-in for [urljoin] on a base without a path. *)
Definition join_base (base path : string) : string := base ++ path.

(** A server that cannot be reached. *)
Definition remote_down (log : list string) (url : string) : http_outcome :=
  Fails TimeoutException.

Definition sample_users : json :=
  JArr [ JObj {[ "Id" := JStr "u1" ]};
         JObj (<["Id" := JStr "u2"]>
                 {[ "Policy" := JObj {[ "IsAdministrator" := JBool true ]} ]}) ].

(** A server with an administrator [u2] that knows the series [S1] under
    TMDB 55 and the item [M1] under TMDB 100, and nothing else. *)
Definition remote_up (log : list string) (url : string) : http_outcome :=
  if String.eqb url "http://emby:8096/emby/Users?api_key=k"
  then Responds 200 (Some sample_users)
  else if String.eqb url "http://emby:8096/emby/Users/u2/Items/S1?api_key=k"
  then Responds 200
         (Some (JObj {[ "ProviderIds" := JObj {[ "TheMovieDb" := JInt 55 ]} ]}))
  else if String.eqb url "http://emby:8096/emby/Users/u2/Items/M1?api_key=k"
  then Responds 200
         (Some (JObj {[ "ProviderIds" := JObj {[ "Tmdb" := JStr "100" ]} ]}))
  else Responds 404 None.

(** A fresh process without and with a configured Emby server. *)
Definition world_unconfigured : world := World None None None (Io [] 0) [].

Definition world_configured : world :=
  World (Some "http://emby:8096") (Some "k") None (Io [] 0) [].

Definition make_payload (event : string) (item : pydict) : pydict :=
  <["Event" := JStr event]> {[ "Item" := JObj item ]}.

(** Scenario A of the specification: the movie Foo. *)
Definition movie_foo_item : pydict :=
  <["Type" := JStr "Movie"]> (<["Name" := JStr "Foo"]>
    (<["ProductionYear" := JInt 2020]>
       {[ "ProviderIds" := JObj {[ "Tmdb" := JStr "100" ]} ]})).

Definition movie_foo : pydict := make_payload "item.add" movie_foo_item.

(** Scenario B of the specification: episode 5 of season 2 of Bar. *)
Definition episode_bar : pydict :=
  make_payload "playback.start"
    (<["Type" := JStr "Episode"]> (<["Id" := JStr "E9"]>
       (<["SeriesName" := JStr "Bar"]> (<["SeriesId" := JStr "S1"]>
          (<["ParentIndexNumber" := JInt 2]> (<["IndexNumber" := JInt 5]>
             {[ "ProviderIds" := JObj ∅ ]})))))).

(** The same episode, delivered again on its addition to the library, with
    an identifier of its own. *)
Definition episode_bar_added : pydict :=
  make_payload "library.new"
    (<["Type" := JStr "Episode"]> (<["SeriesName" := JStr "Bar"]>
       (<["ParentIndexNumber" := JInt 2]> (<["IndexNumber" := JInt 5]>
          {[ "ProviderIds" := JObj {[ "Tmdb" := JStr "9" ]} ]})))).

(** The first episode of a series named as the movie is. *)
Definition episode_foo_item : pydict :=
  <["Type" := JStr "Episode"]> (<["SeriesName" := JStr "Foo"]>
    (<["ProductionYear" := JInt 1999]>
       (<["ParentIndexNumber" := JInt 1]> {[ "IndexNumber" := JInt 1 ]}))).

Definition episode_foo : pydict := make_payload "item.add" episode_foo_item.

(** A movie known to the server, whose payload spells IMDb as [Imdb]. *)
Definition movie_imdb_spelling : pydict :=
  make_payload "item.add"
    (<["Type" := JStr "Movie"]> (<["Id" := JStr "M1"]> (<["Name" := JStr "Foo"]>
       {[ "ProviderIds" := JObj {[ "Imdb" := JStr "tt1" ]} ]}))).

(** An episode without title and numbers, whose [ProviderIds] is [null]. *)
Definition episode_null_ids : pydict :=
  make_payload "item.add"
    (<["Type" := JStr "Episode"]> {[ "ProviderIds" := JNull ]}).

(** A delivery whose [Item] is [null]. *)
Definition delivery_null_item : pydict :=
  <["Event" := JStr "item.add"]> {[ "Item" := JNull ]}.

(** A movie known to the server, with identifiers of its own. *)
Definition movie_known : pydict :=
  make_payload "item.add"
    (<["Type" := JStr "Movie"]> (<["Id" := JStr "M1"]> (<["Name" := JStr "Foo"]>
       {[ "ProviderIds" :=
            JObj (<["Tmdb" := JStr "2"]> {[ "IMDB" := JStr "9" ]}) ]}))).

(** The removal of an item, a season, and an episode without numbers. *)
Definition item_removed : pydict :=
  make_payload "item.remove" {[ "Type" := JStr "Movie" ]}.

Definition season_added : pydict :=
  make_payload "item.add" {[ "Type" := JStr "Season" ]}.

Definition episode_unnumbered : pydict :=
  make_payload "item.add"
    (<["Type" := JStr "Episode"]> {[ "SeriesName" := JStr "Bar" ]}).

(** An enhancer of the configured process, before and after it has cached
    the acting user [u2]. *)
Definition enhancer_fresh : obj_state :=
  ObjState (__init__ (Some "http://emby:8096") (Some "k")) (Io [] 0).

Definition enhancer_with_user : obj_state :=
  ObjState (Enhancer (Some "http://emby:8096") (Some "k") (Some (Client false))
              (JStr "u2") true)
           (Io ["http://emby:8096/emby/Users?api_key=k"] 1).

Definition sample_user_list : list pydict :=
  [ {[ "Id" := JStr "u1" ]};
    <["Id" := JStr "u2"]>
      {[ "Policy" := JObj {[ "IsAdministrator" := JBool true ]} ]} ].

(** The item of [movie_imdb_spelling]. *)
Definition imdb_spelling_item : pydict :=
  <["Type" := JStr "Movie"]> (<["Id" := JStr "M1"]> (<["Name" := JStr "Foo"]>
    {[ "ProviderIds" := JObj {[ "Imdb" := JStr "tt1" ]} ]})).

(** A database that fails on TMDB identifiers, knows the anime 7 under the
    Douban identifier 2, and holds one episode of it, with comments and a
    file that is there; no title matches. *)
Definition sample_anime_rows (id_type : string) (id_value : json)
    : res (list anime_row) :=
  if String.eqb id_type "TMDB" then Raise TimeoutException
  else if String.eqb id_type "Douban"
  then Ok [AnimeRow (JInt 7) (JStr "Foo") (JInt 1)]
  else Ok [].

Definition sample_episode_rows (anime_id episode_index : json)
    : res (list episode_row) :=
  Ok [EpisodeRow (Some 12) (Some "/danmaku/7/1.xml")].

Definition sample_crud_check (title season episode_index : json) : res bool :=
  Ok false.

Definition sample_fs_path (web_path : string) : res (option string) :=
  Ok (Some ("/app/config" ++ web_path)).

Definition sample_is_file (fs_path : string) : res bool := Ok true.

Definition sample_metadata : pydict :=
  <["tmdb_id" := JStr "1"]> (<["douban_id" := JStr "2"]> default_metadata).

(** * Properties *)

(** ** Strings and truth *)

Lemma pretty_N_go_nonempty (x : N) (s : string) :
  s <> "" -> pretty_N_go x s <> "".
Proof.
  revert s. induction (N.lt_wf_0 x) as [x _ IH]; intros s Hs.
  destruct (decide (x = 0)%N) as [->|Hx].
  - by rewrite pretty_N_go_0.
  - rewrite pretty_N_go_step by lia.
    apply IH; [apply N.div_lt; lia | discriminate].
Qed.

Lemma pretty_positive_nonempty (p : positive) : pretty p <> "".
Proof.
  unfold pretty, pretty_positive, pretty, pretty_N.
  case_decide; [discriminate|].
  rewrite pretty_N_go_step by lia.
  apply pretty_N_go_nonempty. discriminate.
Qed.

Lemma pretty_Z_nonempty (z : Z) : pretty z <> "".
Proof.
  destruct z as [|p|p]; unfold pretty, pretty_Z.
  - discriminate.
  - apply pretty_positive_nonempty.
  - discriminate.
Qed.

(** The string of a value that Python takes for true is never empty. *)
Lemma py_str_nonempty (v : json) : truthy v = true -> py_str v <> "".
Proof.
  destruct v as [|b|z|s|l|m]; simpl; intros Ht; try discriminate.
  - by destruct b.
  - apply pretty_Z_nonempty.
  - apply negb_true_iff in Ht. by apply String.eqb_neq.
Qed.

Lemma truthy_str (s : string) : truthy (JStr s) = true <-> s <> "".
Proof.
  simpl. rewrite negb_true_iff. apply String.eqb_neq.
Qed.

(** ** Dictionaries *)

Lemma dict_get_insert (d : pydict) (k k' : string) (v : json) :
  dict_get (<[k := v]> d) k' = if decide (k = k') then v else dict_get d k'.
Proof.
  unfold dict_get. rewrite lookup_insert. by case_decide.
Qed.

Lemma dict_get_empty (k : string) : dict_get ∅ k = JNull.
Proof. unfold dict_get. by rewrite lookup_empty. Qed.

Lemma dict_get_default_metadata (k : string) : dict_get default_metadata k = JNull.
Proof.
  unfold default_metadata.
  rewrite !dict_get_insert, dict_get_empty. by repeat case_decide.
Qed.

Lemma any_values_false (d : pydict) :
  any_values d = false <-> forall k, truthy (dict_get d k) = false.
Proof.
  unfold any_values. rewrite <- not_true_iff_false, existsb_exists. split.
  - intros Hno k. unfold dict_get.
    destruct (d !! k) as [v|] eqn:Hk; [|done].
    apply not_true_iff_false. intros Hv. apply Hno. exists v. split; [|done].
    apply list_elem_of_In, list_elem_of_fmap. exists (k, v).
    split; [done|]. by apply elem_of_map_to_list.
  - intros Hall (v & Hin & Hv).
    apply list_elem_of_In, list_elem_of_fmap in Hin as ([k v'] & -> & Hkv).
    apply elem_of_map_to_list in Hkv. specialize (Hall k).
    unfold dict_get in Hall. rewrite Hkv in Hall. simpl in *. congruence.
Qed.

Lemma any_values_default : any_values default_metadata = false.
Proof.
  apply any_values_false. intros k. by rewrite dict_get_default_metadata.
Qed.

(** ** The series/item merge *)

Lemma overwrite_with_lookup (source merged : pydict) (k : string) :
  overwrite_with source merged !! k =
    match source !! k with
    | Some v => if truthy v then Some v else merged !! k
    | None => merged !! k
    end.
Proof.
  unfold overwrite_with.
  apply (map_fold_weak_ind (fun r (m : pydict) =>
    r !! k = match m !! k with
             | Some v => if truthy v then Some v else merged !! k
             | None => merged !! k
             end)).
  - by rewrite lookup_empty.
  - intros i x m r Hi IH. rewrite (lookup_insert m).
    case_decide as Hik; subst.
    + destruct (truthy x) eqn:Hx.
      * by rewrite lookup_insert_eq.
      * rewrite IH, Hi. done.
    + destruct (truthy x); [rewrite lookup_insert_ne by done|]; exact IH.
Qed.

Lemma overwrite_with_get (source merged : pydict) (k : string) :
  dict_get (overwrite_with source merged) k =
    if truthy (dict_get source k) then dict_get source k else dict_get merged k.
Proof.
  unfold dict_get. rewrite overwrite_with_lookup.
  destruct (source !! k) as [v|]; simpl; [|done].
  by destruct (truthy v).
Qed.

Lemma overwrite_with_opt (source : option pydict) (merged : pydict) (k : string) :
  dict_get match source with
           | Some d => if dict_truthy source then overwrite_with d merged
                       else merged
           | None => merged
           end k =
    if truthy (opt_get source k) then opt_get source k else dict_get merged k.
Proof.
  destruct source as [d|]; simpl; [|done].
  case_bool_decide as Hd; simpl.
  - subst d. by rewrite dict_get_empty.
  - apply overwrite_with_get.
Qed.

(** C2. [_merge_metadata] starts from the item-level values and overwrites
    a field with the series-level value exactly when that value is present:
    under every key the merged dictionary holds the series-level value if it
    is present, else the item-level value if it is present, else nothing.  So
    a present series-level value always overrides the item-level one, and an
    absent series-level value never erases a present item-level value.  Both
    dictionaries may be missing. *)
Theorem merge_metadata_series_over_item
    (series_metadata item_metadata : option pydict) (key : string) :
  dict_get (_merge_metadata series_metadata item_metadata) key =
    series_over_item (opt_get series_metadata key) (opt_get item_metadata key).
Proof.
  unfold _merge_metadata, series_over_item, present.
  rewrite overwrite_with_opt.
  destruct (truthy (opt_get series_metadata key)); [done|].
  rewrite overwrite_with_opt, dict_get_default_metadata.
  by destruct (truthy (opt_get item_metadata key)).
Qed.

(** ** Extraction through the table of spellings *)

Lemma id_mappings_by_kind :
  id_mappings = map (fun k => (aliases k, enhanced_key k)) all_kinds.
Proof. reflexivity. Qed.

(** The inner loop on an identifier map never raises and stores the value
    under the first match. *)
Lemma scan_field_names_map (provider_ids : pydict) (names : list string)
    (target_key : string) (metadata_ids : pydict) :
  scan_field_names (JObj provider_ids) names target_key metadata_ids =
    Ok match first_match provider_ids names with
       | Some name =>
           <[target_key := JStr (py_str (dict_get provider_ids name))]>
             metadata_ids
       | None => metadata_ids
       end.
Proof.
  induction names as [|name rest IH]; [done|].
  unfold first_match in *. cbn [scan_field_names List.find].
  unfold present, dict_get in *. simpl.
  destruct (provider_ids !! name) as [v|] eqn:Hv; simpl.
  - destruct (truthy v); [by rewrite Hv | exact IH].
  - exact IH.
Qed.

Lemma scan_field_names_get (provider_ids : pydict) (names : list string)
    (target_key : string) (metadata_ids d : pydict) (k : string) :
  scan_field_names (JObj provider_ids) names target_key metadata_ids = Ok d ->
  dict_get d k =
    if decide (target_key = k)
    then match first_match provider_ids names with
         | Some _ => resolve provider_ids names
         | None => dict_get metadata_ids k
         end
    else dict_get metadata_ids k.
Proof.
  rewrite scan_field_names_map. intros [= <-]. unfold resolve.
  destruct (first_match provider_ids names).
  - rewrite dict_get_insert. by case_decide.
  - by case_decide.
Qed.

(** The whole table on an identifier map: every kind is resolved through its
    own list of spellings. *)
Lemma scan_mappings_map (provider_ids : pydict) :
  exists d,
    scan_mappings (JObj provider_ids) id_mappings default_metadata = Ok d /\
    (forall kind,
       dict_get d (enhanced_key kind) = resolve provider_ids (aliases kind)) /\
    (forall k, (forall kind, enhanced_key kind <> k) -> dict_get d k = JNull).
Proof.
  unfold id_mappings. cbn [scan_mappings].
  repeat match goal with
  | |- context [scan_field_names (JObj provider_ids) ?n ?t ?m] =>
      let d := fresh "d" in let H := fresh "H" in
      destruct (scan_field_names (JObj provider_ids) n t m) as [d|] eqn:H;
      [ cbn [res_bind]
      | rewrite scan_field_names_map in H; discriminate ]
  end.
  eexists. split; [reflexivity|].
  assert (Hnone : forall names,
            first_match provider_ids names = None ->
            resolve provider_ids names = JNull).
  { intros names Hn. unfold resolve. by rewrite Hn. }
  split.
  - intros kind.
    destruct kind; cbn [enhanced_key aliases];
      repeat match goal with
      | H : scan_field_names _ _ _ _ = Ok ?d |- context [dict_get ?d _] =>
          rewrite (scan_field_names_get _ _ _ _ _ _ H); clear H;
          case_decide; try congruence
      end;
      rewrite ?dict_get_default_metadata;
      repeat match goal with
      | |- context [first_match provider_ids ?n] =>
          destruct (first_match provider_ids n) eqn:?
      end; auto using eq_sym.
  - intros k Hk.
    pose proof (Hk TMDB); pose proof (Hk IMDb); pose proof (Hk TVDB);
      pose proof (Hk Douban); pose proof (Hk Bangumi).
    cbn [enhanced_key] in *.
    repeat match goal with
    | H : scan_field_names _ _ _ _ = Ok ?d |- context [dict_get ?d _] =>
        rewrite (scan_field_names_get _ _ _ _ _ _ H); clear H;
        case_decide; [congruence|]
    end.
    apply dict_get_default_metadata.
Qed.

(** Off an identifier map the loop stores nothing: where a spelling is found
    in a list or in a string, the subscript raises. *)
Lemma scan_field_names_other (provider_ids : json) (names : list string)
    (target_key : string) (metadata_ids d : pydict) :
  (forall m, provider_ids <> JObj m) ->
  scan_field_names provider_ids names target_key metadata_ids = Ok d ->
  d = metadata_ids.
Proof.
  intros Hno. induction names as [|name rest IH]; cbn [scan_field_names].
  - by intros [= <-].
  - destruct (py_in name provider_ids) as [[|]|] eqn:Hin; cbn [res_bind];
      [|exact IH|done].
    destruct provider_ids; try done. by destruct (Hno m).
Qed.

Lemma scan_mappings_other (provider_ids : json) (d : pydict) :
  (forall m, provider_ids <> JObj m) ->
  scan_mappings provider_ids id_mappings default_metadata = Ok d ->
  d = default_metadata.
Proof.
  intros Hno. unfold id_mappings. cbn [scan_mappings].
  repeat match goal with
  | |- context [scan_field_names provider_ids ?n ?t ?m] =>
      let d := fresh "d" in let H := fresh "H" in
      destruct (scan_field_names provider_ids n t m) as [d|] eqn:H;
      [ cbn [res_bind];
        apply (scan_field_names_other _ _ _ _ _ Hno) in H; subst d
      | cbn [res_bind]; discriminate ]
  end.
  by intros [= <-].
Qed.

Lemma first_match_Some (ids : pydict) (names : list string) (name : string) :
  first_match ids names = Some name ->
  exists raw, ids !! name = Some raw /\ present raw = true /\
              dict_get ids name = raw.
Proof.
  unfold first_match. intros Hf. apply find_some in Hf as [_ Hp].
  unfold dict_get in *. destruct (ids !! name) as [raw|]; [|done].
  by exists raw.
Qed.

Lemma scan_mappings_extracted (provider_ids : json) (d : pydict)
    (kind : ProviderKind) :
  scan_mappings provider_ids id_mappings default_metadata = Ok d ->
  extracted_from provider_ids kind (dict_get d (enhanced_key kind)).
Proof.
  intros Hd.
  assert (Hcase : (exists m, provider_ids = JObj m) \/
                  (forall m, provider_ids <> JObj m)).
  { destruct provider_ids; eauto; right; done. }
  destruct Hcase as [[ids ->]|Hno].
  - destruct (scan_mappings_map ids) as (d' & Hd' & Hres & _).
    rewrite Hd' in Hd. injection Hd as ->.
    rewrite Hres. unfold resolve.
    destruct (first_match ids (aliases kind)) as [name|] eqn:Hf;
      [right|by left].
    destruct (first_match_Some _ _ _ Hf) as (raw & Hraw & Hp & ->).
    by exists ids, name, raw.
  - left. rewrite (scan_mappings_other provider_ids d); [|done|done].
    apply dict_get_default_metadata.
Qed.

Lemma resolve_coerced (ids : pydict) (names : list string) :
  coerced_from ids names (resolve ids names).
Proof.
  unfold resolve, first_match.
  induction names as [|name rest IH]; [by right|].
  cbn [List.find].
  destruct (present (dict_get ids name)) eqn:Hname.
  - left. exists [], name, rest. by repeat split.
  - destruct IH as [(before & name' & after & -> & Hbefore & Hp & Hv)
                   |[Hall Hv]].
    + left. exists (name :: before), name', after. rewrite Hv.
      repeat split; [by constructor|done].
    + right. split; [by constructor|done].
Qed.

Lemma coerced_from_nonempty (ids : pydict) (names : list string) (v : json) :
  coerced_from ids names v -> v <> JStr "".
Proof.
  intros [(before & name & after & _ & _ & Hp & ->)|[_ ->]]; [|done].
  intros [= Hs]. by apply (py_str_nonempty (dict_get ids name)).
Qed.

(** C10. Every identifier the table-driven extraction produces, from an API
    response ([_extract_metadata_ids]) or in the fallback pass over the
    webhook payload ([_extract_metadata_from_webhook]), is the string
    coercion of a raw value.  On an identifier map both extractions return,
    and under every kind they leave the string of the raw value found under
    the first spelling of the kind whose value is present, every spelling
    before it having been skipped; they leave nothing only when no spelling
    of the kind holds a present value.  A raw value that is missing, null,
    the empty string or zero is not present, so its spelling is skipped in
    favour of the next.  No identifier produced is the empty string, on any
    input on which an extraction returns. *)
Theorem extraction_coerces_present_values :
  (forall (item_data ids : pydict),
     default (JObj ∅) (item_data !! "ProviderIds") = JObj ids ->
     exists d,
       _extract_metadata_ids (JObj item_data) = Ok d /\
       forall kind,
         coerced_from ids (aliases kind) (dict_get d (enhanced_key kind)) /\
         dict_get d (enhanced_key kind) <> JStr "") /\
  (forall (webhook_data ids : pydict),
     webhook_provider_ids (JObj webhook_data) = Ok (JObj ids) ->
     exists d,
       _extract_metadata_from_webhook (JObj webhook_data) = Ok d /\
       forall kind,
         coerced_from ids (aliases kind) (dict_get d (enhanced_key kind)) /\
         dict_get d (enhanced_key kind) <> JStr "") /\
  (forall (ids : pydict) name,
     ids !! name = None \/ ids !! name = Some JNull \/
       ids !! name = Some (JStr "") \/ ids !! name = Some (JInt 0) ->
     present (dict_get ids name) = false) /\
  (forall item_data d kind,
     _extract_metadata_ids item_data = Ok d ->
     dict_get d (enhanced_key kind) = JNull \/
     exists s, dict_get d (enhanced_key kind) = JStr s /\ s <> "") /\
  (forall webhook_data d kind,
     _extract_metadata_from_webhook webhook_data = Ok d ->
     dict_get d (enhanced_key kind) = JNull \/
     exists s, dict_get d (enhanced_key kind) = JStr s /\ s <> "").
Proof.
  assert (Hany : forall provider_ids d kind,
            scan_mappings provider_ids id_mappings default_metadata = Ok d ->
            dict_get d (enhanced_key kind) = JNull \/
            exists s, dict_get d (enhanced_key kind) = JStr s /\ s <> "").
  { intros provider_ids d kind Hd.
    destruct (scan_mappings_extracted _ _ kind Hd)
      as [->|(ids & name & raw & _ & _ & _ & Hp & ->)]; [by left|].
    right. eexists. split; [done|]. by apply py_str_nonempty. }
  split; [|split; [|split; [|split]]].
  - intros item_data ids Hids. unfold _extract_metadata_ids.
    cbn [py_get res_bind]. rewrite Hids.
    destruct (scan_mappings_map ids) as (d & Hd & Hres & _).
    exists d. split; [done|]. intros kind. rewrite Hres.
    split; [apply resolve_coerced|].
    eapply coerced_from_nonempty, resolve_coerced.
  - intros webhook_data ids. unfold webhook_provider_ids,
      _extract_metadata_from_webhook.
    destruct (py_get (JObj webhook_data) "Item" (JObj ∅)) as [item|]; [|done].
    cbn [res_bind]. intros ->. cbn [res_bind].
    destruct (scan_mappings_map ids) as (d & Hd & Hres & _).
    exists d. split; [done|]. intros kind. rewrite Hres.
    split; [apply resolve_coerced|].
    eapply coerced_from_nonempty, resolve_coerced.
  - intros ids name Hcase. unfold present, dict_get.
    destruct Hcase as [ -> | [ -> | [ -> | -> ] ] ]; done.
  - intros item_data d kind. unfold _extract_metadata_ids.
    destruct (py_get item_data "ProviderIds" (JObj ∅)) as [provider_ids|];
      [|done].
    cbn [res_bind]. apply Hany.
  - intros webhook_data d kind. unfold _extract_metadata_from_webhook.
    destruct (py_get webhook_data "Item" (JObj ∅)) as [item|]; [|done].
    cbn [res_bind].
    destruct (py_get item "ProviderIds" (JObj ∅)) as [provider_ids|]; [|done].
    cbn [res_bind]. apply Hany.
Qed.

Lemma first_match_all_absent (ids : pydict) (names : list string) :
  Forall (fun name => ids !! name = None) names ->
  first_match ids names = None.
Proof.
  unfold first_match. induction 1 as [|name rest Hname _ IH]; [done|].
  cbn [List.find]. unfold present, dict_get at 1. by rewrite Hname.
Qed.

Lemma basic_provider_ids_map (item ids : pydict) :
  default (JObj ∅) (item !! "ProviderIds") = JObj ids ->
  basic_provider_ids (JObj item) =
    Ok (BasicIds (dict_get ids "Tmdb") (dict_get ids "IMDB")
          (dict_get ids "Tvdb") (dict_get ids "DoubanID")
          (dict_get ids "Bangumi")).
Proof.
  intros Hids. unfold basic_provider_ids. cbn [py_get res_bind].
  rewrite Hids. reflexivity.
Qed.

(** C3, as the code has it. The two table-driven extractions, from an API
    response ([_extract_metadata_ids]) and in the fallback pass over the
    webhook payload ([_extract_metadata_from_webhook]), resolve every kind
    through its fixed ordered list of spellings: the first spelling under
    which the identifier map holds a present value wins, a spelling that is
    absent is passed over, and when all are absent the kind is absent; no
    error is raised.  The handler's own reading of the webhook payload
    ([emby.py], lines 44-50) looks each kind up under one spelling only
    (Tmdb, IMDB, Tvdb, DoubanID, Bangumi) and yields absent, not an error,
    when that spelling is missing.  For the identifier map [{"IMDB": "tt1"}]
    all three yield IMDb = "tt1". *)
Theorem extraction_first_match_wins :
  (forall (item_data ids : pydict),
     default (JObj ∅) (item_data !! "ProviderIds") = JObj ids ->
     exists d,
       _extract_metadata_ids (JObj item_data) = Ok d /\
       forall kind, dict_get d (enhanced_key kind) = resolve ids (aliases kind)) /\
  (forall (webhook_data ids : pydict),
     webhook_provider_ids (JObj webhook_data) = Ok (JObj ids) ->
     exists d,
       _extract_metadata_from_webhook (JObj webhook_data) = Ok d /\
       forall kind, dict_get d (enhanced_key kind) = resolve ids (aliases kind)) /\
  (forall (item ids : pydict),
     default (JObj ∅) (item !! "ProviderIds") = JObj ids ->
     exists basic,
       basic_provider_ids (JObj item) = Ok basic /\
       forall kind, basic_id kind basic = dict_get ids (webhook_key kind)) /\
  (forall (ids : pydict) kind,
     Forall (fun name => ids !! name = None) (aliases kind) ->
     resolve ids (aliases kind) = JNull) /\
  (let ids : pydict := {[ "IMDB" := JStr "tt1" ]} in
   let item : pydict := {[ "ProviderIds" := JObj ids ]} in
   first_match ids (aliases IMDb) = Some "IMDB" /\
   _extract_metadata_ids (JObj item) =
     Ok (<["imdb_id" := JStr "tt1"]> default_metadata) /\
   _extract_metadata_from_webhook (JObj {[ "Item" := JObj item ]}) =
     Ok (<["imdb_id" := JStr "tt1"]> default_metadata) /\
   basic_provider_ids (JObj item) =
     Ok (BasicIds JNull (JStr "tt1") JNull JNull JNull)).
Proof.
  split; [|split; [|split; [|split]]].
  - intros item_data ids Hids. unfold _extract_metadata_ids.
    cbn [py_get res_bind]. rewrite Hids.
    destruct (scan_mappings_map ids) as (d & Hd & Hres & _). eauto.
  - intros webhook_data ids. unfold webhook_provider_ids,
      _extract_metadata_from_webhook.
    destruct (py_get (JObj webhook_data) "Item" (JObj ∅)) as [item|]; [|done].
    cbn [res_bind]. intros ->. cbn [res_bind].
    destruct (scan_mappings_map ids) as (d & Hd & Hres & _). eauto.
  - intros item ids Hids. rewrite (basic_provider_ids_map _ _ Hids).
    eexists. split; [reflexivity|]. by intros [].
  - intros ids kind Habs. unfold resolve.
    by rewrite first_match_all_absent.
  - cbv zeta. repeat split; vm_compute; reflexivity.
Qed.

(** The witness of C3: the map [{"Imdb": "", "IMDB": "tt1"}] in an API
    response, in a webhook payload, and read by the handler. *)
Lemma extraction_first_match_wins_witness :
  let ids : pydict := <["Imdb" := JStr ""]> {[ "IMDB" := JStr "tt1" ]} in
  let item : pydict := {[ "ProviderIds" := JObj ids ]} in
  let payload : pydict := {[ "Item" := JObj item ]} in
  (exists d,
     _extract_metadata_ids (JObj item) = Ok d /\
     forall kind, dict_get d (enhanced_key kind) = resolve ids (aliases kind)) /\
  (exists d,
     _extract_metadata_from_webhook (JObj payload) = Ok d /\
     forall kind, dict_get d (enhanced_key kind) = resolve ids (aliases kind)) /\
  (exists basic,
     basic_provider_ids (JObj item) = Ok basic /\
     forall kind, basic_id kind basic = dict_get ids (webhook_key kind)) /\
  resolve ids (aliases IMDb) = JStr "tt1" /\
  resolve ∅ (aliases Douban) = JNull.
Proof.
  intros ids item payload.
  pose proof extraction_first_match_wins as (Hapi & Hweb & Hbasic & Habs & _).
  split; [|split; [|split; [|split]]].
  - apply (Hapi item ids). reflexivity.
  - apply (Hweb payload ids). reflexivity.
  - apply (Hbasic item ids). reflexivity.
  - reflexivity.
  - apply (Habs ∅ Douban). repeat constructor.
Defined.

(** ** Computations *)

Lemma bind_lift {S A B} (r : res A) (k : A -> M S B) (s : S) :
  bind (lift r) k s =
    match r with
    | Ok a => k a s
    | Raise e => (Raise e, s)
    end.
Proof. by destruct r. Qed.

(** A [try] whose handler returns a value never raises. *)
Lemma try_except_returns {S A} (m : M S A) (a : A) (s : S) :
  exists a' s', try_except m (fun _ => ret a) s = (Ok a', s').
Proof.
  unfold try_except. destruct (m s) as [[a'|e] s']; simpl; eauto.
Qed.

Lemma try_except_cases {S A} (m : M S A) (a : A) (s : S) :
  try_except m (fun _ => ret a) s =
    match m s with
    | (Ok a', s') => (Ok a', s')
    | (Raise _, s') => (Ok a, s')
    end.
Proof. unfold try_except. by destruct (m s) as [[a'|e] s']. Qed.

(** ** The enhancer *)

(** [enhance_metadata] always returns, and what it returns is the all-absent
    dictionary unless it holds a present value. *)
Lemma enhance_metadata_returns (item_id series_id : json) (s : obj_state) :
  exists d s',
    enhance_metadata item_id series_id s = (Ok d, s') /\
    (d = default_metadata \/ any_values d = true).
Proof.
  unfold enhance_metadata, get_state, bind at 1.
  destruct (negb (enabled (self s))).
  { exists default_metadata, s. split; [done|by left]. }
  rewrite try_except_cases.
  match goal with |- context [match ?m s with _ => _ end] =>
    destruct (m s) as [[d|e] s'] eqn:Hm end.
  - exists d, s'. split; [done|].
    revert Hm. unfold bind at 1.
    match goal with |- context [match ?m s with _ => _ end] =>
      destruct (m s) as [[series|?] s1] end; [|done].
    unfold bind at 1.
    destruct (_fetch_item_metadata item_id s1) as [[item|?] s2]; [|done].
    destruct (any_values (_merge_metadata series item)) eqn:Hany;
      unfold ret; intros [= <- <-]; auto.
  - exists default_metadata, s'. split; [done|by left].
Qed.

Lemma get_metadata_enhancer_returns (w : world) :
  exists e,
    get_metadata_enhancer w = (Ok e, with_enhancer e (net_io w) w) /\
    e = default (__init__ (EMBY_SERVER_URL w) (EMBY_API_KEY w))
          (_metadata_enhancer w).
Proof.
  unfold get_metadata_enhancer.
  destruct w as [url key [e|] n subs]; cbn; eauto.
Qed.

(** The module-level call in normal form: the call of [enhance_metadata] on
    the global instance returns [enhanced]; the fallback pass runs when that
    holds no present value and a payload was passed. *)
Lemma enhance_webhook_metadata_unfold (item_id series_id webhook_data : json)
    (w : world) :
  exists e enhanced s',
    get_metadata_enhancer w = (Ok e, with_enhancer e (net_io w) w) /\
    enhance_metadata item_id series_id (ObjState e (net_io w)) =
      (Ok enhanced, s') /\
    (enhanced = default_metadata \/ any_values enhanced = true) /\
    enhance_webhook_metadata item_id series_id webhook_data w =
      let w' := with_enhancer (self s') (net s') w in
      if negb (any_values enhanced) && truthy webhook_data then
        match _extract_metadata_from_webhook webhook_data with
        | Ok webhook_metadata =>
            (Ok (if any_values webhook_metadata then webhook_metadata
                 else enhanced), w')
        | Raise e => (Raise e, w')
        end
      else (Ok enhanced, w').
Proof.
  destruct (get_metadata_enhancer_returns w) as (e & He & _).
  destruct (enhance_metadata_returns item_id series_id (ObjState e (net_io w)))
    as (enhanced & s' & Hen & Hshape).
  exists e, enhanced, s'. split; [done|]. split; [done|]. split; [done|].
  unfold enhance_webhook_metadata, bind at 1. rewrite He.
  unfold bind at 1, call. cbn [net_io with_enhancer]. rewrite Hen.
  destruct (negb (any_values enhanced) && truthy webhook_data); [|done].
  rewrite bind_lift.
  destruct (_extract_metadata_from_webhook webhook_data) as [wm|]; [|done].
  by destruct (any_values wm).
Qed.

(** The enhancement call of the handler always returns, and leaves the
    submitted tasks and the environment as they are. *)
Lemma guarded_enhance_returns (item_id series_id payload : json) (w : world) :
  exists d w',
    guarded_enhance item_id series_id payload w = (Ok d, w') /\
    submitted w' = submitted w.
Proof.
  destruct (enhance_webhook_metadata_unfold item_id series_id payload w)
    as (e & enhanced & s' & _ & _ & _ & Heq).
  unfold guarded_enhance. rewrite try_except_cases, Heq. cbn zeta.
  destruct (negb (any_values enhanced) && truthy payload).
  - destruct (_extract_metadata_from_webhook payload); eauto.
  - eauto.
Qed.

(** ** The handler *)

Lemma merge_and_submit_task (event_type year : json) (basic : basic_ids)
    (enhanced : pydict) (task_title : string) (search_keyword : json)
    (media_type : string) (season_number episode_number anime_title : json)
    (w : world) :
  exists sub w',
    merge_and_submit event_type year basic enhanced task_title search_keyword
      media_type season_number episode_number anime_title w = (Ok tt, w') /\
    submitted w' = sub :: submitted w /\
    net_io w' = net_io w /\
    animeTitle (sub_task sub) = anime_title /\
    season (sub_task sub) = season_number /\
    currentEpisodeIndex (sub_task sub) = episode_number /\
    sub_unique_key sub = dispatch_key anime_title season_number episode_number /\
    forall kind,
      task_id kind (sub_task sub) =
        merge_rule (dict_get enhanced (enhanced_key kind)) (basic_id kind basic).
Proof.
  eexists _, _. split; [reflexivity|]. cbn.
  repeat (split; [reflexivity|]).
  intros kind. unfold merge_rule, present, str_or_none, py_or.
  destruct kind; cbn -[truthy dict_get py_str];
    match goal with |- context [truthy (dict_get enhanced ?k)] =>
      destruct (truthy (dict_get enhanced k)) eqn:He end;
    rewrite ?He; try done;
    match goal with |- context [truthy (?f basic)] =>
      destruct (truthy (f basic)) eqn:Hb end; by rewrite ?Hb.
Qed.

(** One step of the handler that reads the payload. *)
Ltac handler_step H :=
  first
    [ rewrite bind_lift in H;
      match type of H with
      | match ?r with Ok _ => _ | Raise _ => _ end = _ =>
          destruct r eqn:?; [|injection H as <- <-; left; reflexivity]
      end
    | match type of H with
      | (if ?c then _ else _) _ = _ =>
          destruct c eqn:?; [injection H as <- <-; left; reflexivity|]
      end ].

(** What a run of the handler that submits a task has done: the payload's
    [Item] was read for the basic identifiers, the enhancement call returned
    a dictionary, and the task carries the merged identifiers and the key of
    its title, season and episode. *)
Lemma handle_inv (body : option json) (w w' : world) (r : res unit) :
  handle body w = (r, w') ->
  submitted w' = submitted w \/
  exists payload item basic item_id series_id enhanced wx sub,
    body = Some payload /\
    py_get payload "Item" (JObj ∅) = Ok item /\
    basic_provider_ids item = Ok basic /\
    guarded_enhance item_id series_id payload w = (Ok enhanced, wx) /\
    r = Ok tt /\
    submitted w' = sub :: submitted w /\
    sub_unique_key sub =
      dispatch_key (animeTitle (sub_task sub)) (season (sub_task sub))
        (currentEpisodeIndex (sub_task sub)) /\
    forall kind,
      task_id kind (sub_task sub) =
        merge_rule (dict_get enhanced (enhanced_key kind)) (basic_id kind basic).
Proof.
  intros H. unfold handle in H.
  destruct body as [payload|]; [|injection H as <- <-; by left].
  do 9 handler_step H.
  destruct (py_eq_str _ "Episode").
  - do 7 handler_step H.
    unfold bind at 1 in H.
    match type of H with context [guarded_enhance ?i ?s ?p w] =>
      destruct (guarded_enhance_returns i s p w) as (d & wx & Hg & Hframe)
    end.
    rewrite Hg in H.
    match type of H with merge_and_submit ?a ?b ?c ?d ?e ?f ?g ?h ?i ?j wx = _ =>
      destruct (merge_and_submit_task a b c d e f g h i j wx)
        as (sub & w2 & Hm & Hsub & _ & Ht & Hs & He & Hkey & Hids)
    end.
    rewrite Hm in H. injection H as <- <-. right.
    eexists _, _, _, _, _, _, _, sub. repeat (split; [eassumption || reflexivity|]).
    split; [by rewrite Hsub, Hframe|]. split; [by rewrite Hkey, Ht, Hs, He|done].
  - destruct (py_eq_str _ "Movie"); [|injection H as <- <-; by left].
    do 2 handler_step H.
    unfold bind at 1 in H.
    match type of H with context [guarded_enhance ?i ?s ?p w] =>
      destruct (guarded_enhance_returns i s p w) as (d & wx & Hg & Hframe)
    end.
    rewrite Hg in H.
    match type of H with merge_and_submit ?a ?b ?c ?d ?e ?f ?g ?h ?i ?j wx = _ =>
      destruct (merge_and_submit_task a b c d e f g h i j wx)
        as (sub & w2 & Hm & Hsub & _ & Ht & Hs & He & Hkey & Hids)
    end.
    rewrite Hm in H. injection H as <- <-. right.
    eexists _, _, _, _, _, _, _, sub. repeat (split; [eassumption || reflexivity|]).
    split; [by rewrite Hsub, Hframe|]. split; [by rewrite Hkey, Ht, Hs, He|done].
Qed.

Lemma cons_neq_self {A} (x : A) (l : list A) : l <> x :: l.
Proof. intros H. apply (f_equal length) in H. simpl in H. lia. Qed.

(** C1. The identity handed to the dispatched task is, for each of the five
    kinds, the enhanced value if it is present, else the basic value read
    from the webhook payload if it is present, else absent; a value handed
    over is rendered as a string.  This holds of the merge for every
    enhanced dictionary and every basic reading, and of every run of the
    handler that submits a task, where the enhanced dictionary is the one
    the enhancement call returned.  In particular enhanced [{TMDB: "1"}] and
    basic [{TMDB: "2", IMDb: "9"}] give [{TMDB: "1", IMDb: "9"}]. *)
Theorem final_identity_prefers_enhanced :
  (forall event_type production_year basic (enhanced : pydict) task_title
          search_keyword media_type season_number episode_number anime_title w,
     exists sub w',
       merge_and_submit event_type production_year basic enhanced task_title
         search_keyword media_type season_number episode_number anime_title w
         = (Ok tt, w') /\
       submitted w' = sub :: submitted w /\
       forall kind,
         task_id kind (sub_task sub) =
           merge_rule (dict_get enhanced (enhanced_key kind))
             (basic_id kind basic)) /\
  (forall body w r w' sub,
     handle body w = (r, w') ->
     submitted w' = sub :: submitted w ->
     exists payload item basic item_id series_id enhanced wx,
       body = Some payload /\
       py_get payload "Item" (JObj ∅) = Ok item /\
       basic_provider_ids item = Ok basic /\
       guarded_enhance item_id series_id payload w = (Ok enhanced, wx) /\
       forall kind,
         task_id kind (sub_task sub) =
           merge_rule (dict_get enhanced (enhanced_key kind))
             (basic_id kind basic)) /\
  (let enhanced : pydict := {[ "tmdb_id" := JStr "1" ]} in
   let basic := BasicIds (JStr "2") (JStr "9") JNull JNull JNull in
   map (fun kind => merge_rule (dict_get enhanced (enhanced_key kind))
                      (basic_id kind basic)) all_kinds
   = [Some "1"; Some "9"; None; None; None]).
Proof.
  split; [|split].
  - intros.
    destruct (merge_and_submit_task event_type production_year basic enhanced
                task_title search_keyword media_type season_number
                episode_number anime_title w)
      as (sub & w' & Hm & Hsub & _ & _ & _ & _ & _ & Hids).
    eauto.
  - intros body w r w' sub H Hsub.
    destruct (handle_inv _ _ _ _ H)
      as [Hsame|(payload & item & basic & item_id & series_id & enhanced & wx
                 & sub' & -> & Hitem & Hbasic & Hg & _ & Hsub' & _ & Hids)].
    + rewrite Hsame in Hsub. by destruct (cons_neq_self sub (submitted w)).
    + rewrite Hsub in Hsub'. injection Hsub' as <-.
      by exists payload, item, basic, item_id, series_id, enhanced, wx.
  - vm_compute. reflexivity.
Qed.

(** ** Failures of the remote API *)

Lemma get_session_returns (s : obj_state) :
  exists o s', _get_session s = (Ok o, s').
Proof.
  unfold _get_session. destruct (negb (enabled (self s))); [eauto|].
  destruct (session (self s)) as [[[|]]|]; eauto.
Qed.

Lemma get_user_id_returns (s : obj_state) :
  exists uid s', _get_user_id s = (Ok uid, s').
Proof.
  unfold _get_user_id, get_state, bind at 1.
  destruct (truthy (user_id (self s))); [unfold ret; eauto|].
  unfold bind at 1.
  destruct (get_session_returns s) as (o & s1 & ->).
  destruct o; [apply try_except_returns | unfold ret; eauto].
Qed.

Lemma fetch_item_metadata_without_200 (item_id : json) (s : obj_state) :
  never_200 ->
  exists s', _fetch_item_metadata item_id s = (Ok None, s').
Proof.
  intros Hno. unfold _fetch_item_metadata, bind at 1.
  destruct (get_session_returns s) as (o & s1 & ->).
  destruct o as [c|]; [|unfold ret; eauto].
  unfold bind at 1.
  destruct (get_user_id_returns s1) as (uid & s2 & ->).
  destruct (negb (truthy uid)); [unfold ret; eauto|].
  rewrite try_except_cases. unfold bind at 1, get_state, bind at 1, session_get.
  destruct (remote (requests (net s2)) _) as [status body|e] eqn:Hr; [|eauto].
  cbn [fst snd].
  destruct (Z.eqb_spec status 200) as [->|_]; [|unfold ret; eauto].
  by destruct (Hno _ _ _ Hr).
Qed.

Lemma merge_metadata_none : _merge_metadata None None = default_metadata.
Proof. reflexivity. Qed.

Lemma enhance_metadata_without_200 (item_id series_id : json) (s : obj_state) :
  never_200 ->
  exists s', enhance_metadata item_id series_id s = (Ok default_metadata, s').
Proof.
  intros Hno. unfold enhance_metadata, get_state, bind at 1.
  destruct (negb (enabled (self s))); [unfold ret; eauto|].
  rewrite try_except_cases. unfold bind at 1.
  assert (Hseries : exists s1,
            (if truthy series_id then _fetch_item_metadata series_id
             else ret None) s = (Ok None, s1)).
  { destruct (truthy series_id); [|unfold ret; eauto].
    by apply fetch_item_metadata_without_200. }
  destruct Hseries as (s1 & ->). unfold bind at 1.
  destruct (fetch_item_metadata_without_200 item_id s1 Hno) as (s2 & ->).
  rewrite merge_metadata_none, any_values_default. unfold ret. eauto.
Qed.

Lemma enhance_metadata_disabled (e : enhancer) (n : io)
    (item_id series_id : json) :
  enabled e = false ->
  enhance_metadata item_id series_id (ObjState e n) =
    (Ok default_metadata, ObjState e n).
Proof.
  intros He. unfold enhance_metadata, get_state, bind at 1.
  cbn [self]. by rewrite He.
Qed.

(** C6. When no base URL is configured (the environment variable is unset
    or empty) the enhancer is created disabled and without a client, and
    every call of its [enhance_metadata], for every item and series, returns
    the all-absent dictionary at once and leaves the object and the network
    record as they were: no client is created and no request is issued.  The
    same holds when the call is made through the module's function on a
    fresh process. *)
Theorem unconfigured_enhancer_is_silent (url key : option string) :
  str_truthy url = false ->
  enabled (__init__ url key) = false /\
  session (__init__ url key) = None /\
  (forall item_id series_id n,
     enhance_metadata item_id series_id (ObjState (__init__ url key) n) =
       (Ok default_metadata, ObjState (__init__ url key) n)) /\
  (forall item_id series_id n subs,
     exists w',
       enhance_webhook_metadata item_id series_id JNull
         (World url key None n subs) = (Ok default_metadata, w') /\
       net_io w' = n /\
       _metadata_enhancer w' = Some (__init__ url key)).
Proof.
  intros Hurl.
  assert (Hoff : enabled (__init__ url key) = false) by exact Hurl.
  split; [done|]. split; [done|]. split.
  - intros. by apply enhance_metadata_disabled.
  - intros item_id series_id n subs.
    destruct (enhance_webhook_metadata_unfold item_id series_id JNull
                (World url key None n subs))
      as (e & enhanced & s' & He & Hen & _ & ->).
    injection He as <-. cbn [net_io] in Hen.
    rewrite enhance_metadata_disabled in Hen by done.
    injection Hen as <- <-. cbn. rewrite andb_false_r. eauto.
Qed.

(** The fallback pass finds nothing in a payload that Python takes for
    false. *)
Lemma extract_from_falsy_payload (payload : json) :
  truthy payload = false ->
  match _extract_metadata_from_webhook payload with
  | Ok webhook_metadata => webhook_metadata = default_metadata
  | Raise _ => True
  end.
Proof.
  destruct payload as [| | | | |m]; try done.
  cbn [truthy]. rewrite negb_false_iff, bool_decide_eq_true. by intros ->.
Qed.

(** X17. When the call of [enhance_metadata] on the global instance returns
    a dictionary without a present value and the payload passed holds an
    identifier map as its [Item.ProviderIds] (a missing member standing for
    the empty map), the fallback pass over the payload decides the result of
    [enhance_webhook_metadata]: each kind is resolved through its list of
    spellings, first match wins, and the result of the pass is returned when
    it holds a present value, the all-absent dictionary otherwise.  In the
    handler, where the call stands in a [try], that is the outcome for every
    payload, the all-absent dictionary also standing in when the pass
    raises. *)
Theorem webhook_fallback_after_absent_enhancement
    (item_id series_id payload : json) (w : world) (e : enhancer)
    (enhanced : pydict) (s' : obj_state) :
  get_metadata_enhancer w = (Ok e, with_enhancer e (net_io w) w) ->
  enhance_metadata item_id series_id (ObjState e (net_io w)) = (Ok enhanced, s') ->
  any_values enhanced = false ->
  let w' := with_enhancer (self s') (net s') w in
  (forall ids : pydict,
     webhook_provider_ids payload = Ok (JObj ids) ->
     exists webhook_metadata,
       _extract_metadata_from_webhook payload = Ok webhook_metadata /\
       (forall kind,
          dict_get webhook_metadata (enhanced_key kind) =
            resolve ids (aliases kind)) /\
       enhance_webhook_metadata item_id series_id payload w =
         (Ok (if any_values webhook_metadata then webhook_metadata
              else default_metadata), w')) /\
  guarded_enhance item_id series_id payload w =
    (Ok match _extract_metadata_from_webhook payload with
        | Ok webhook_metadata =>
            if any_values webhook_metadata then webhook_metadata
            else default_metadata
        | Raise _ => default_metadata
        end, w').
Proof.
  intros He Hen Hany w'.
  destruct (enhance_webhook_metadata_unfold item_id series_id payload w)
    as (e0 & enhanced0 & s0 & He0 & Hen0 & Hshape & Heq).
  rewrite He in He0. injection He0 as <-.
  rewrite Hen in Hen0. injection Hen0 as <- <-.
  destruct Hshape as [->|Hsome]; [|congruence].
  rewrite Hany in Heq. cbn [negb andb] in Heq.
  assert (Hfalsy : truthy payload = false ->
            match _extract_metadata_from_webhook payload with
            | Ok d => (if any_values d then d else default_metadata)
                      = default_metadata
            | Raise _ => True
            end).
  { intros Hp. pose proof (extract_from_falsy_payload payload Hp) as Hd.
    destruct (_extract_metadata_from_webhook payload) as [d|]; [|done].
    subst d. by rewrite any_values_default. }
  split.
  - intros ids Hids.
    assert (Hex : exists d,
              _extract_metadata_from_webhook payload = Ok d /\
              forall kind,
                dict_get d (enhanced_key kind) = resolve ids (aliases kind)).
    { revert Hids. unfold webhook_provider_ids, _extract_metadata_from_webhook.
      destruct (py_get payload "Item" (JObj ∅)) as [item|]; [|done].
      cbn [res_bind]. intros ->. cbn [res_bind].
      destruct (scan_mappings_map ids) as (d & Hd & Hres & _). eauto. }
    destruct Hex as (d & Hd & Hres). exists d.
    split; [done|]. split; [done|]. rewrite Heq.
    destruct (truthy payload) eqn:Hp; [by rewrite Hd|].
    specialize (Hfalsy eq_refl). rewrite Hd in Hfalsy. by rewrite Hfalsy.
  - unfold guarded_enhance. rewrite try_except_cases, Heq.
    destruct (truthy payload) eqn:Hp.
    + by destruct (_extract_metadata_from_webhook payload).
    + specialize (Hfalsy eq_refl).
      destruct (_extract_metadata_from_webhook payload); [by rewrite Hfalsy|done].
Qed.

(** X16. For every item, series and behaviour of the remote API,
    [enhance_metadata] returns a dictionary and never raises; the dictionary
    is the all-absent one unless it holds a present value, and it is the
    all-absent one whenever no request is answered with status 200.  The
    module's [enhance_webhook_metadata] returns as well whenever the payload
    passed is one Python takes for false (none, or an empty one), or is an
    object whose [Item] is an object, or missing, whose [ProviderIds] is an
    object, or missing.  The handler's call, which stands in a [try], returns
    for every payload and submits nothing by itself. *)
Theorem enhancement_absorbs_failures :
  (forall item_id series_id s,
     exists d s',
       enhance_metadata item_id series_id s = (Ok d, s') /\
       (d = default_metadata \/ any_values d = true)) /\
  (never_200 ->
   forall item_id series_id s,
     exists s', enhance_metadata item_id series_id s = (Ok default_metadata, s')) /\
  (forall item_id series_id webhook_data w,
     truthy webhook_data = false \/
       (exists ids : pydict, webhook_provider_ids webhook_data = Ok (JObj ids)) ->
     exists d w',
       enhance_webhook_metadata item_id series_id webhook_data w = (Ok d, w') /\
       (d = default_metadata \/ any_values d = true)) /\
  (forall item_id series_id payload w,
     exists d w',
       guarded_enhance item_id series_id payload w = (Ok d, w') /\
       submitted w' = submitted w).
Proof.
  split; [|split; [|split]].
  - apply enhance_metadata_returns.
  - intros Hno item_id series_id s. by apply enhance_metadata_without_200.
  - intros item_id series_id webhook_data w Hshape.
    destruct (enhance_webhook_metadata_unfold item_id series_id webhook_data w)
      as (e & enhanced & s' & _ & _ & Hen & ->). cbn zeta.
    destruct Hshape as [->|(ids & Hids)].
    + rewrite andb_false_r. eauto.
    + destruct (negb (any_values enhanced) && truthy webhook_data); [|eauto].
      revert Hids. unfold webhook_provider_ids, _extract_metadata_from_webhook.
      destruct (py_get webhook_data "Item" (JObj ∅)) as [item|]; [|done].
      cbn [res_bind]. intros ->. cbn [res_bind].
      destruct (scan_mappings_map ids) as (d & -> & _).
      destruct (any_values d) eqn:Hd; eauto.
  - apply guarded_enhance_returns.
Qed.

(** ** Payloads the handler ignores *)

Lemma py_get_obj (m : pydict) (key : string) :
  py_get (JObj m) key JNull = Ok (dict_get m key).
Proof. reflexivity. Qed.

Lemma py_get_item (payload item : pydict) :
  payload !! "Item" = Some (JObj item) ->
  py_get (JObj payload) "Item" (JObj ∅) = Ok (JObj item).
Proof. intros H. cbn [py_get]. by rewrite H. Qed.

Lemma handle_event_ignored (payload : pydict) (w : world) :
  py_in_strs (dict_get payload "Event")
    ["item.add"; "library.new"; "playback.start"] = false ->
  handle (Some (JObj payload)) w = (Ok tt, w).
Proof.
  intros Hev. unfold handle. rewrite bind_lift, py_get_obj, Hev. reflexivity.
Qed.

Lemma handle_type_ignored (payload item : pydict) (w : world) :
  payload !! "Item" = Some (JObj item) ->
  py_in_strs (dict_get item "Type") ["Episode"; "Movie"] = false ->
  handle (Some (JObj payload)) w = (Ok tt, w).
Proof.
  intros Hitem Hty. unfold handle. rewrite bind_lift, py_get_obj.
  destruct (negb (py_in_strs _ _)); [done|].
  rewrite bind_lift, (py_get_item _ _ Hitem).
  destruct (negb (truthy _)); [done|].
  rewrite bind_lift, py_get_obj, Hty. reflexivity.
Qed.

Lemma handle_episode_incomplete (payload item : pydict) (w : world) :
  payload !! "Item" = Some (JObj item) ->
  episode_incomplete item ->
  (exists r, handle (Some (JObj payload)) w = (r, w)) /\
  (forall ids : pydict,
     default (JObj ∅) (item !! "ProviderIds") = JObj ids ->
     handle (Some (JObj payload)) w = (Ok tt, w)).
Proof.
  intros Hitem [Hty Hmiss].
  assert (Hcheck : forall basic,
            basic_provider_ids (JObj item) = Ok basic ->
            handle (Some (JObj payload)) w = (Ok tt, w)).
  { intros basic Hbasic. unfold handle. rewrite bind_lift, py_get_obj.
    destruct (negb (py_in_strs _ _)); [done|].
    rewrite bind_lift, (py_get_item _ _ Hitem).
    destruct (negb (truthy _)); [done|].
    rewrite bind_lift, py_get_obj.
    destruct (negb (py_in_strs _ _)); [done|].
    rewrite !bind_lift, !py_get_obj. rewrite bind_lift, Hbasic, Hty.
    cbn [py_eq_str String.eqb Ascii.eqb Bool.eqb].
    rewrite !bind_lift.
    destruct Hmiss as [-> | [-> | ->]]; cbn [is_none negb andb];
      rewrite ?andb_false_r; reflexivity. }
  split.
  - destruct (basic_provider_ids (JObj item)) as [basic|e] eqn:Hbasic.
    { exists (Ok tt). by apply (Hcheck basic). }
    unfold handle. rewrite bind_lift, py_get_obj.
    destruct (negb (py_in_strs _ _)); [eauto|].
    rewrite bind_lift, (py_get_item _ _ Hitem).
    destruct (negb (truthy _)); [eauto|].
    rewrite bind_lift, py_get_obj.
    destruct (negb (py_in_strs _ _)); [eauto|].
    rewrite !bind_lift, !py_get_obj. rewrite bind_lift, Hbasic. eauto.
  - intros ids Hids. eapply Hcheck, basic_provider_ids_map, Hids.
Qed.

(** C5, as the code has it. For every payload that is a JSON object: when
    its [Event] is not one of item.add, library.new, playback.start, or its
    [Item] is an object whose [Type] is neither Episode nor Movie, handling
    returns normally, submits no task and changes nothing.  When its [Item]
    is an Episode without a series title, a season number or an episode
    number, no task is submitted and nothing changes, and handling returns
    normally whenever [Item.ProviderIds] is an object or missing. *)
Theorem irrelevant_payloads_are_ignored (payload : pydict) (w : world) :
  (py_in_strs (dict_get payload "Event")
     ["item.add"; "library.new"; "playback.start"] = false ->
   handle (Some (JObj payload)) w = (Ok tt, w)) /\
  (forall item : pydict,
     payload !! "Item" = Some (JObj item) ->
     py_in_strs (dict_get item "Type") ["Episode"; "Movie"] = false ->
     handle (Some (JObj payload)) w = (Ok tt, w)) /\
  (forall item : pydict,
     payload !! "Item" = Some (JObj item) ->
     episode_incomplete item ->
     (exists r, handle (Some (JObj payload)) w = (r, w)) /\
     (forall ids : pydict,
        default (JObj ∅) (item !! "ProviderIds") = JObj ids ->
        handle (Some (JObj payload)) w = (Ok tt, w))).
Proof.
  split; [|split].
  - apply handle_event_ignored.
  - intros item. apply handle_type_ignored.
  - intros item. apply handle_episode_incomplete.
Qed.

(** ** Payloads the handler accepts *)

Lemma item_truthy (item : pydict) (key : string) (v : json) :
  dict_get item key = v -> v <> JNull -> truthy (JObj item) = true.
Proof.
  intros Hk Hv. cbn [truthy]. apply negb_true_iff, bool_decide_eq_false.
  intros ->. rewrite dict_get_empty in Hk. congruence.
Qed.

Lemma merge_and_submit_media (event_type production_year : json)
    (basic : basic_ids) (enhanced : pydict) (task_title : string)
    (search_keyword : json) (media_type : string)
    (season_number episode_number anime_title : json) (w : world) :
  exists sub w',
    merge_and_submit event_type production_year basic enhanced task_title
      search_keyword media_type season_number episode_number anime_title w
      = (Ok tt, w') /\
    submitted w' = sub :: submitted w /\
    sub_unique_key sub = dispatch_key anime_title season_number episode_number /\
    mediaType (sub_task sub) = media_type /\
    year (sub_task sub) = production_year.
Proof. eexists _, _. repeat split; reflexivity. Qed.

(** The run of the handler on an accepted movie. *)
Lemma handle_movie (payload item ids : pydict) (w : world) :
  py_in_strs (dict_get payload "Event")
    ["item.add"; "library.new"; "playback.start"] = true ->
  payload !! "Item" = Some (JObj item) ->
  dict_get item "Type" = JStr "Movie" ->
  truthy (dict_get item "Name") = true ->
  default (JObj ∅) (item !! "ProviderIds") = JObj ids ->
  exists sub w',
    handle (Some (JObj payload)) w = (Ok tt, w') /\
    submitted w' = sub :: submitted w /\
    sub_unique_key sub = dispatch_key (dict_get item "Name") (JInt 1) (JInt 1) /\
    mediaType (sub_task sub) = "movie" /\
    year (sub_task sub) = dict_get item "ProductionYear".
Proof.
  intros Hev Hitem Hty Hname Hids. unfold handle.
  rewrite bind_lift, py_get_obj, Hev. cbn [negb].
  rewrite bind_lift, (py_get_item _ _ Hitem).
  rewrite (item_truthy item "Type" _ Hty) by done. cbn [negb].
  rewrite bind_lift, py_get_obj, Hty.
  cbn [py_in_strs existsb py_eq_str String.eqb Ascii.eqb Bool.eqb orb negb].
  rewrite !bind_lift, !py_get_obj.
  rewrite bind_lift, (basic_provider_ids_map _ _ Hids).
  rewrite !bind_lift, Hname. cbn [negb]. unfold bind at 1.
  match goal with |- context [guarded_enhance ?i ?s ?p w] =>
    destruct (guarded_enhance_returns i s p w) as (d & wx & -> & Hframe)
  end.
  match goal with |- context [merge_and_submit ?a ?b ?c ?d ?e ?f ?g ?h ?i ?j wx] =>
    destruct (merge_and_submit_media a b c d e f g h i j wx)
      as (sub & w2 & -> & Hsub & Hkey & Hmedia & Hyear)
  end.
  exists sub, w2. rewrite Hsub, Hframe. done.
Qed.

(** The run of the handler on an accepted episode whose season and episode
    numbers are integers. *)
Lemma handle_episode (payload item ids : pydict) (s e : Z) (w : world) :
  py_in_strs (dict_get payload "Event")
    ["item.add"; "library.new"; "playback.start"] = true ->
  payload !! "Item" = Some (JObj item) ->
  dict_get item "Type" = JStr "Episode" ->
  truthy (dict_get item "SeriesName") = true ->
  dict_get item "ParentIndexNumber" = JInt s ->
  dict_get item "IndexNumber" = JInt e ->
  default (JObj ∅) (item !! "ProviderIds") = JObj ids ->
  exists sub w',
    handle (Some (JObj payload)) w = (Ok tt, w') /\
    submitted w' = sub :: submitted w /\
    sub_unique_key sub =
      dispatch_key (dict_get item "SeriesName") (JInt s) (JInt e) /\
    mediaType (sub_task sub) = "tv_series" /\
    year (sub_task sub) = dict_get item "ProductionYear".
Proof.
  intros Hev Hitem Hty Hname Hs He Hids. unfold handle.
  rewrite bind_lift, py_get_obj, Hev. cbn [negb].
  rewrite bind_lift, (py_get_item _ _ Hitem).
  rewrite (item_truthy item "Type" _ Hty) by done. cbn [negb].
  rewrite bind_lift, py_get_obj, Hty.
  cbn [py_in_strs existsb py_eq_str String.eqb Ascii.eqb Bool.eqb orb negb].
  rewrite !bind_lift, !py_get_obj.
  rewrite bind_lift, (basic_provider_ids_map _ _ Hids).
  rewrite !bind_lift, Hname, Hs, He.
  cbn [is_none negb andb format_02d]. rewrite !bind_lift. unfold bind at 1.
  match goal with |- context [guarded_enhance ?i ?s ?p w] =>
    destruct (guarded_enhance_returns i s p w) as (d & wx & -> & Hframe)
  end.
  match goal with |- context [merge_and_submit ?a ?b ?c ?d ?e ?f ?g ?h ?i ?j wx] =>
    destruct (merge_and_submit_media a b c d e f g h i j wx)
      as (sub & w2 & -> & Hsub & Hkey & Hmedia & Hyear)
  end.
  exists sub, w2. rewrite Hsub, Hframe. done.
Qed.

Lemma dispatch_key_S1_E1 (T : string) :
  dispatch_key (JStr T) (JInt 1) (JInt 1) = "webhook-search-" ++ T ++ "-S1-E1".
Proof. reflexivity. Qed.

(** C9. The key leaves out the media type and the year. For every title
    [T], an accepted Movie payload named [T], which is given season 1 and
    episode 1, and an accepted Episode payload of the series [T] with season
    1 and episode 1 are both submitted under the key
    ["webhook-search-T-S1-E1"], although the two tasks differ in their media
    type and may differ in their year. *)
Theorem movie_and_first_episode_share_key (T : string)
    (movie movie_item movie_ids episode episode_item episode_ids : pydict)
    (w1 w2 : world) :
  T <> "" ->
  py_in_strs (dict_get movie "Event")
    ["item.add"; "library.new"; "playback.start"] = true ->
  movie !! "Item" = Some (JObj movie_item) ->
  dict_get movie_item "Type" = JStr "Movie" ->
  dict_get movie_item "Name" = JStr T ->
  default (JObj ∅) (movie_item !! "ProviderIds") = JObj movie_ids ->
  py_in_strs (dict_get episode "Event")
    ["item.add"; "library.new"; "playback.start"] = true ->
  episode !! "Item" = Some (JObj episode_item) ->
  dict_get episode_item "Type" = JStr "Episode" ->
  dict_get episode_item "SeriesName" = JStr T ->
  dict_get episode_item "ParentIndexNumber" = JInt 1 ->
  dict_get episode_item "IndexNumber" = JInt 1 ->
  default (JObj ∅) (episode_item !! "ProviderIds") = JObj episode_ids ->
  exists sub1 w1' sub2 w2',
    handle (Some (JObj movie)) w1 = (Ok tt, w1') /\
    submitted w1' = sub1 :: submitted w1 /\
    handle (Some (JObj episode)) w2 = (Ok tt, w2') /\
    submitted w2' = sub2 :: submitted w2 /\
    sub_unique_key sub1 = "webhook-search-" ++ T ++ "-S1-E1" /\
    sub_unique_key sub2 = "webhook-search-" ++ T ++ "-S1-E1" /\
    mediaType (sub_task sub1) = "movie" /\
    mediaType (sub_task sub2) = "tv_series" /\
    year (sub_task sub1) = dict_get movie_item "ProductionYear" /\
    year (sub_task sub2) = dict_get episode_item "ProductionYear".
Proof.
  intros HT Hev1 Hitem1 Hty1 Hname1 Hids1 Hev2 Hitem2 Hty2 Hname2 Hs He Hids2.
  assert (Htitle : truthy (JStr T) = true) by by apply truthy_str.
  destruct (handle_movie movie movie_item movie_ids w1)
    as (sub1 & w1' & Hrun1 & Hsub1 & Hkey1 & Hmedia1 & Hyear1);
    [done|done|done|by rewrite Hname1|done|].
  destruct (handle_episode episode episode_item episode_ids 1 1 w2)
    as (sub2 & w2' & Hrun2 & Hsub2 & Hkey2 & Hmedia2 & Hyear2);
    [done|done|done|by rewrite Hname2|done|done|done|].
  exists sub1, w1', sub2, w2'.
  rewrite Hkey1, Hkey2, Hname1, Hname2, dispatch_key_S1_E1. done.
Qed.

(** * More of the enhancer *)

(** ** The client *)

Lemma get_session_cases (s : obj_state) :
  _get_session s =
    if negb (enabled (self s)) then (Ok None, s)
    else if session_is_open (self s) then (Ok (Some (Client false)), s)
    else (Ok (Some (Client false)), set_session (Client false) s).
Proof.
  unfold _get_session, session_is_open.
  destruct (negb (enabled (self s))); [done|].
  by destruct (session (self s)) as [[[|]]|].
Qed.

(** X1. An enabled enhancer keeps one client: [_get_session] hands out the
    open client it holds and creates one only when it holds none or a closed
    one; called again, it returns the same client and changes nothing.  It
    issues no request and leaves the cached user and the configuration
    alone.  A disabled enhancer never gets a client. *)
Theorem get_session_reuses_client (s : obj_state) :
  (enabled (self s) = false -> _get_session s = (Ok None, s)) /\
  (enabled (self s) = true ->
   exists s',
     _get_session s = (Ok (Some (Client false)), s') /\
     session (self s') = Some (Client false) /\
     _get_session s' = (Ok (Some (Client false)), s') /\
     requests (net s') = requests (net s) /\
     user_id (self s') = user_id (self s) /\
     same_config (self s) (self s') /\
     clients (net s') =
       if session_is_open (self s) then clients (net s)
       else S (clients (net s))).
Proof.
  split; intros Hen.
  - by rewrite get_session_cases, Hen.
  - rewrite get_session_cases, Hen. cbn [negb].
    destruct (session_is_open (self s)) eqn:Hopen.
    + exists s. rewrite get_session_cases, Hen, Hopen. cbn [negb].
      unfold session_is_open in Hopen.
      destruct (session (self s)) as [[[|]]|] eqn:Hs; done.
    + exists (set_session (Client false) s).
      rewrite get_session_cases. cbn. rewrite Hen. by repeat split.
Qed.

(** ** The acting user *)

Lemma moved_refl (s : obj_state) : moved s s [].
Proof. by repeat split. Qed.

Lemma moved_log (s : obj_state) (url : string) : moved s (log_request url s) [url].
Proof. by repeat split. Qed.

Lemma moved_log_user (s : obj_state) (url : string) (uid : json) :
  moved s (set_user_id uid (log_request url s)) [url].
Proof. by repeat split. Qed.

Lemma moved_trans (s1 s2 s3 : obj_state) (new1 new2 : list string) :
  moved s1 s2 new1 -> moved s2 s3 new2 -> moved s1 s3 (new2 ++ new1)%list.
Proof.
  intros (Hr1 & Hc1 & Hs1 & Hu1 & Hk1 & He1) (Hr2 & Hc2 & Hs2 & Hu2 & Hk2 & He2).
  repeat split; try congruence.
  by rewrite Hr2, Hr1, app_assoc.
Qed.

(** The body of the [try] of [_get_user_id], lines 50-68, with the request
    it starts with. *)
Lemma get_user_id_effects (s : obj_state) :
  enabled (self s) = true ->
  session_is_open (self s) = true ->
  exists uid s' new,
    _get_user_id s = (Ok uid, s') /\
    moved s s' new /\
    (length new <= 1)%nat /\
    truthy (user_id (self s')) = truthy uid /\
    (truthy uid = true -> user_id (self s') = uid) /\
    (truthy (user_id (self s)) = true ->
     s' = s /\ uid = user_id (self s) /\ new = []).
Proof.
  intros Hen Hopen. unfold _get_user_id, get_state, bind at 1.
  destruct (truthy (user_id (self s))) eqn:Hcached.
  { exists (user_id (self s)), s, []. unfold ret.
    split; [done|]. split; [apply moved_refl|]. repeat split; simpl; auto; lia. }
  unfold bind at 1. rewrite get_session_cases, Hen, Hopen. cbn [negb].
  rewrite try_except_cases. unfold bind at 1, bind at 1, session_get.
  set (url := _build_url (self s) "Users").
  assert (Hfail : exists uid s' new,
            (Ok JNull, log_request url s) = (Ok uid, s') /\
            moved s s' new /\ (length new <= 1)%nat /\
            truthy (user_id (self s')) = truthy uid /\
            (truthy uid = true -> user_id (self s') = uid) /\
            (false = true -> s' = s /\ uid = user_id (self s) /\ new = [])).
  { exists JNull, (log_request url s), [url].
    split; [done|]. split; [apply moved_log|]. repeat split; simpl; auto; lia. }
  assert (Hset : forall uid0, exists uid s' new,
            (Ok uid0, set_user_id uid0 (log_request url s)) = (Ok uid, s') /\
            moved s s' new /\ (length new <= 1)%nat /\
            truthy (user_id (self s')) = truthy uid /\
            (truthy uid = true -> user_id (self s') = uid) /\
            (false = true -> s' = s /\ uid = user_id (self s) /\ new = [])).
  { intros uid0. exists uid0, (set_user_id uid0 (log_request url s)), [url].
    split; [done|]. split; [apply moved_log_user|]. repeat split; simpl; auto; lia. }
  destruct (remote (requests (net s)) url) as [status body|e]; [|exact Hfail].
  cbn [fst snd]. destruct (status =? 200); [|exact Hfail].
  rewrite bind_lift. destruct (response_json body) as [users|]; [|exact Hfail].
  destruct (truthy users); [|exact Hfail].
  rewrite bind_lift. destruct (py_iter users) as [listed|]; [|exact Hfail].
  rewrite bind_lift. destruct (find_admin listed) as [[uid0|]|]; [| |exact Hfail].
  - apply Hset.
  - rewrite bind_lift. destruct (py_first users) as [first|]; [|exact Hfail].
    rewrite bind_lift. destruct (py_getitem first "Id") as [uid0|]; [|exact Hfail].
    apply Hset.
Qed.

Lemma opened_open (s : obj_state) : session_is_open (self (opened s)) = true.
Proof. unfold opened. by destruct (session_is_open (self s)) eqn:H. Qed.

Lemma opened_fields (s : obj_state) :
  requests (net (opened s)) = requests (net s) /\
  user_id (self (opened s)) = user_id (self s) /\
  same_config (self s) (self (opened s)) /\
  _build_url (self (opened s)) = _build_url (self s) /\
  clients (net (opened s)) =
    if session_is_open (self s) then clients (net s) else S (clients (net s)).
Proof.
  unfold opened. by destruct (session_is_open (self s)).
Qed.

Lemma get_session_opened (s : obj_state) :
  enabled (self s) = true ->
  _get_session s = (Ok (Some (Client false)), opened s).
Proof.
  intros Hen. rewrite get_session_cases, Hen. unfold opened.
  by destruct (session_is_open (self s)).
Qed.

(** Without a cached user, an enabled enhancer first gets its client. *)
Lemma get_user_id_opens (s : obj_state) :
  enabled (self s) = true ->
  truthy (user_id (self s)) = false ->
  _get_user_id s = _get_user_id (opened s).
Proof.
  intros Hen Hno.
  destruct (opened_fields s) as (_ & Huid & (_ & _ & Hen') & _ & _).
  eassert (Hstep : forall s0 s1,
             truthy (user_id (self s0)) = false ->
             _get_session s0 = (Ok (Some (Client false)), s1) ->
             _get_user_id s0 = _ s1).
  { intros s0 s1 H0 H1. unfold _get_user_id, get_state, bind at 1.
    rewrite H0. unfold bind at 1. rewrite H1. reflexivity. }
  rewrite (Hstep s (opened s) Hno (get_session_opened s Hen)).
  rewrite (Hstep (opened s) (opened s)); [done|congruence|].
  rewrite get_session_cases, Hen', Hen, opened_open. done.
Qed.


Lemma find_admin_shaped (users : list pydict) :
  Forall user_shaped users ->
  find_admin (JObj <$> users) =
    Ok match List.find is_administrator users with
       | Some user => Some (dict_get user "Id")
       | None => None
       end.
Proof.
  induction 1 as [|user rest [[uid Hid] [policy Hpol]] _ IH]; [done|].
  cbn [fmap list_fmap find_admin List.find py_get res_bind].
  unfold is_administrator. rewrite Hpol. cbn [py_get res_bind].
  destruct (truthy (default (JBool false) (policy !! "IsAdministrator"))).
  - cbn [py_getitem]. unfold dict_get. by rewrite Hid.
  - exact IH.
Qed.

(** X3. When [GET /Users] is answered with a list of users, the acting user
    is the first administrator of the list, else its first user; it is
    cached.  An empty list gives no user and caches nothing. *)
Theorem administrator_is_preferred (s : obj_state) (users : list pydict) :
  enabled (self s) = true ->
  truthy (user_id (self s)) = false ->
  remote (requests (net s)) (_build_url (self s) "Users") =
    Responds 200 (Some (JArr (JObj <$> users))) ->
  Forall user_shaped users ->
  exists s',
    _get_user_id s = (Ok (acting_user users), s') /\
    requests (net s') = _build_url (self s) "Users" :: requests (net s) /\
    user_id (self s') =
      match users with
      | [] => user_id (self s)
      | _ => acting_user users
      end.
Proof.
  intros Hen Hc Hremote Hshaped.
  rewrite (get_user_id_opens s Hen Hc).
  destruct (opened_fields s) as (Hreq & Huid & (_ & _ & Hen') & Hurl & _).
  unfold _get_user_id, get_state, bind at 1. rewrite Huid, Hc.
  unfold bind at 1.
  rewrite get_session_cases, Hen', Hen, opened_open. cbn [negb].
  rewrite try_except_cases. unfold bind at 1, bind at 1, session_get.
  rewrite Hreq, Hurl, Hremote. cbn [fst snd Z.eqb Pos.eqb].
  rewrite bind_lift. cbn [response_json].
  destruct users as [|user rest].
  { cbn. eexists. split; [reflexivity|]. cbn. rewrite Hreq, Huid. done. }
  cbn [truthy fmap list_fmap].
  rewrite bind_lift. cbn [py_iter]. rewrite bind_lift.
  change (JObj user :: (JObj <$> rest)) with (JObj <$> (user :: rest)).
  rewrite (find_admin_shaped _ Hshaped). unfold acting_user.
  destruct (List.find is_administrator (user :: rest)) as [admin|].
  - cbn. eexists. split; [reflexivity|]. cbn. by rewrite Hreq.
  - rewrite bind_lift. cbn [py_first fmap list_fmap]. rewrite bind_lift.
    inversion Hshaped as [|? ? [[uid Hid] _] _]; subst.
    cbn [py_getitem]. rewrite Hid. cbn.
    eexists. split; [unfold dict_get; rewrite Hid; reflexivity|].
    cbn. rewrite Hreq. unfold dict_get. by rewrite Hid.
Qed.

(** ** Fetching the metadata of one item *)

(** What the [try] of [_fetch_item_metadata], lines 140-158, returns. *)
Lemma fetch_try_block (user_id item_id : json) (s : obj_state) :
  try_except
    (let* s0 := get_state in
     let url := _build_url (self s0)
                  ("Users/" ++ py_str user_id ++ "/Items/" ++ py_str item_id) in
     let* response := session_get url in
     if response.1 =? 200 then
       let* data := lift (response_json response.2) in
       let* ids := lift (_extract_metadata_ids data) in
       ret (Some ids)
     else ret None)
    (fun _ => ret None) s =
  (Ok (metadata_of_answer
         (remote (requests (net s)) (item_url (self s) user_id item_id))),
   log_request (item_url (self s) user_id item_id) s).
Proof.
  rewrite try_except_cases. unfold get_state, bind at 1, bind at 1, session_get.
  fold (item_url (self s) user_id item_id).
  destruct (remote (requests (net s)) _) as [status [data|]|e]; cbn [fst snd];
    try done.
  - cbn [metadata_of_answer]. destruct (status =? 200); [|done].
    rewrite bind_lift. cbn [response_json]. rewrite bind_lift.
    by destruct (_extract_metadata_ids data).
  - cbn [metadata_of_answer]. by destruct (status =? 200).
Qed.

(** A fetch on an enabled enhancer: the client, the acting user, then at
    most one request for the item. *)
Lemma fetch_item_metadata_steps (item_id : json) (s : obj_state) :
  enabled (self s) = true ->
  exists uid s2 new,
    _get_user_id (opened s) = (Ok uid, s2) /\
    moved (opened s) s2 new /\
    (length new <= 1)%nat /\
    truthy (user_id (self s2)) = truthy uid /\
    (truthy uid = true -> user_id (self s2) = uid) /\
    (truthy (user_id (self s)) = true ->
     s2 = opened s /\ uid = user_id (self s) /\ new = []) /\
    _fetch_item_metadata item_id s =
      if truthy uid
      then (Ok (metadata_of_answer
                  (remote (requests (net s2)) (item_url (self s2) uid item_id))),
            log_request (item_url (self s2) uid item_id) s2)
      else (Ok None, s2).
Proof.
  intros Hen.
  destruct (opened_fields s) as (_ & Huid & (_ & _ & Hen') & _ & _).
  destruct (get_user_id_effects (opened s))
    as (uid & s2 & new & Hrun & Hmoved & Hlen & Ht & Heq & Hcached).
  { congruence. }
  { apply opened_open. }
  exists uid, s2, new. repeat (split; [done|]).
  split; [by rewrite <- Huid|].
  unfold _fetch_item_metadata, bind at 1. rewrite (get_session_opened s Hen).
  unfold bind at 1. rewrite Hrun.
  destruct (truthy uid); cbn [negb]; [|done].
  apply fetch_try_block.
Qed.

(** What one fetch costs and keeps. *)
Lemma fetch_item_metadata_effects (item_id : json) (s : obj_state) :
  exists r s' new,
    _fetch_item_metadata item_id s = (Ok r, s') /\
    requests (net s') = (new ++ requests (net s))%list /\
    (length new <= 2)%nat /\
    (truthy (user_id (self s)) = true ->
     (length new <= 1)%nat /\ user_id (self s') = user_id (self s)) /\
    ((length new = 2)%nat -> truthy (user_id (self s')) = true) /\
    same_config (self s) (self s') /\
    (enabled (self s) = true -> session_is_open (self s') = true) /\
    clients (net s') =
      (if enabled (self s) && negb (session_is_open (self s))
       then S (clients (net s)) else clients (net s)) /\
    (enabled (self s) = false -> s' = s /\ r = None).
Proof.
  destruct (enabled (self s)) eqn:Hen.
  - destruct (fetch_item_metadata_steps item_id s Hen)
      as (uid & s2 & new & _ & (Hr & Hc & Hs & Hu & Hk & He) & Hlen & Ht & Heq
          & Hcached & ->).
    destruct (opened_fields s) as (Hreq & Huid & (Hu0 & Hk0 & He0) & _ & Hcl).
    assert (Hopen2 : session_is_open (self s2) = true).
    { unfold session_is_open. rewrite Hs. apply opened_open. }
    assert (Hclients : clients (net s2) =
              if true && negb (session_is_open (self s))
              then S (clients (net s)) else clients (net s)).
    { rewrite Hc, Hcl. by destruct (session_is_open (self s)). }
    destruct (truthy uid) eqn:Hp.
    + eexists _, _, (item_url (self s2) uid item_id :: new).
      split; [reflexivity|]. cbn.
      split; [by rewrite Hr, Hreq|]. split; [lia|].
      split.
      { intros Hc0. destruct (Hcached Hc0) as (-> & _ & ->). by split. }
      split; [intros _; exact Ht|].
      split; [repeat split; congruence|]. split; [done|]. by split.
    + exists None, s2, new. split; [done|].
      split; [by rewrite Hr, Hreq|]. split; [lia|].
      split.
      { intros Hc0. destruct (Hcached Hc0) as (-> & _ & ->). by split. }
      split; [lia|].
      split; [repeat split; congruence|]. split; [done|]. by split.
  - assert (Hrun : _fetch_item_metadata item_id s = (Ok None, s)).
    { unfold _fetch_item_metadata, bind at 1.
      by rewrite get_session_cases, Hen. }
    exists None, s, []. rewrite Hrun.
    repeat split; simpl; auto; try lia; try done.
Qed.

Lemma fetch_item_metadata_cached (item_id : json) (s : obj_state) :
  enabled (self s) = true ->
  truthy (user_id (self s)) = true ->
  _fetch_item_metadata item_id s =
    (Ok (metadata_of_answer
           (remote (requests (net s))
                   (item_url (self s) (user_id (self s)) item_id))),
     log_request (item_url (self s) (user_id (self s)) item_id) (opened s)).
Proof.
  intros Hen Hc.
  destruct (fetch_item_metadata_steps item_id s Hen)
    as (uid & s2 & new & _ & _ & _ & _ & _ & Hcached & Hrun).
  destruct (Hcached Hc) as (-> & -> & ->). rewrite Hc in Hrun.
  destruct (opened_fields s) as (Hreq & Huid & _ & Hurl & _).
  unfold item_url in *. by rewrite Hurl, Hreq in Hrun.
Qed.

(** X4. With the acting user cached, a fetch issues exactly one request, for
    the item in the context of that user, and returns the identifiers
    extracted from the body of a 200 answer.  Every other answer gives no
    metadata rather than an error: an exception or a timeout, a status other
    than 200, a body that is not JSON, a body that is not an object.  An
    object without [ProviderIds] gives the dictionary of five absent
    identifiers. *)
Theorem fetch_with_cached_user (item_id : json) (s : obj_state) :
  enabled (self s) = true ->
  truthy (user_id (self s)) = true ->
  let url := item_url (self s) (user_id (self s)) item_id in
  let answer := remote (requests (net s)) url in
  exists r s',
    _fetch_item_metadata item_id s = (Ok r, s') /\
    requests (net s') = url :: requests (net s) /\
    user_id (self s') = user_id (self s) /\
    r = metadata_of_answer answer /\
    (forall e, answer = Fails e -> r = None) /\
    (forall status body, answer = Responds status body -> status <> 200 ->
       r = None) /\
    (answer = Responds 200 None -> r = None) /\
    (forall data, answer = Responds 200 (Some data) ->
       (forall m, data <> JObj m) -> r = None) /\
    (forall data : pydict, answer = Responds 200 (Some (JObj data)) ->
       data !! "ProviderIds" = None -> r = Some default_metadata) /\
    (forall data ids : pydict, answer = Responds 200 (Some (JObj data)) ->
       data !! "ProviderIds" = Some (JObj ids) ->
       exists d, r = Some d /\
         forall kind, dict_get d (enhanced_key kind) = resolve ids (aliases kind)).
Proof.
  intros Hen Hc url answer.
  pose proof (fetch_item_metadata_cached item_id s Hen Hc) as Hrun.
  fold url in Hrun. fold answer in Hrun.
  destruct (opened_fields s) as (Hreq & Huid & _).
  exists (metadata_of_answer answer), (log_request url (opened s)).
  split; [exact Hrun|]. split; [cbn; by rewrite Hreq|].
  split; [exact Huid|]. split; [done|].
  split; [by intros e ->|].
  split.
  { intros status body -> Hst. cbn. destruct body; [|done].
    by destruct (Z.eqb_spec status 200). }
  split; [by intros ->|].
  split.
  { intros data -> Hno. cbn. destruct data; try done. by destruct (Hno m). }
  split.
  { intros data -> Hnone. cbn. unfold _extract_metadata_ids.
    cbn [py_get res_bind]. by rewrite Hnone. }
  intros data ids -> Hids. unfold metadata_of_answer, _extract_metadata_ids.
  rewrite Z.eqb_refl. cbn [py_get res_bind]. rewrite Hids. cbn [default].
  unfold id at 1.
  destruct (scan_mappings_map ids) as (d & -> & Hres & _). eauto.
Qed.

(** ** The cost of one enhancement *)

Lemma enhance_metadata_steps (item_id series_id : json) (s : obj_state) :
  enabled (self s) = true ->
  exists series_metadata s1 item_metadata s2,
    (if truthy series_id then _fetch_item_metadata series_id s
     else (Ok None, s)) = (Ok series_metadata, s1) /\
    _fetch_item_metadata item_id s1 = (Ok item_metadata, s2) /\
    enhance_metadata item_id series_id s =
      (Ok (if any_values (_merge_metadata series_metadata item_metadata)
           then _merge_metadata series_metadata item_metadata
           else default_metadata), s2).
Proof.
  intros Hen.
  assert (Hfirst : exists sm s1,
            (if truthy series_id then _fetch_item_metadata series_id s
             else (Ok None, s)) = (Ok sm, s1)).
  { destruct (truthy series_id); [|eauto].
    destruct (fetch_item_metadata_effects series_id s) as (r & s' & _ & H & _).
    eauto. }
  destruct Hfirst as (sm & s1 & Hfirst).
  destruct (fetch_item_metadata_effects item_id s1) as (im & s2 & _ & Hsecond & _).
  exists sm, s1, im, s2. split; [done|]. split; [done|].
  unfold enhance_metadata, get_state, bind at 1. rewrite Hen. cbn [negb].
  rewrite try_except_cases. unfold bind at 1.
  replace ((if truthy series_id then _fetch_item_metadata series_id
            else ret None) s) with (Ok sm, s1).
  2:{ rewrite <- Hfirst. by destruct (truthy series_id). }
  unfold bind at 1. rewrite Hsecond.
  by destruct (any_values (_merge_metadata sm im)).
Qed.

Lemma enhance_metadata_effects (item_id series_id : json) (s : obj_state) :
  exists d s' new,
    enhance_metadata item_id series_id s = (Ok d, s') /\
    requests (net s') = (new ++ requests (net s))%list /\
    (length new <= 3)%nat /\
    (truthy series_id = false -> (length new <= 2)%nat) /\
    (truthy (user_id (self s)) = true ->
     (length new <= 2)%nat /\ user_id (self s') = user_id (self s)) /\
    clients (net s') =
      (if enabled (self s) && negb (session_is_open (self s))
       then S (clients (net s)) else clients (net s)) /\
    same_config (self s) (self s') /\
    (enabled (self s) = true -> session_is_open (self s') = true) /\
    (enabled (self s) = false -> s' = s /\ d = default_metadata).
Proof.
  destruct (enabled (self s)) eqn:Hen.
  2:{ exists default_metadata, s, []. destruct s as [e n].
      rewrite enhance_metadata_disabled by done. cbn [self net] in *.
      repeat split; simpl; auto; try lia; try done. }
  destruct (enhance_metadata_steps item_id series_id s Hen)
    as (sm & s1 & im & s2 & Hfirst & Hsecond & ->).
  assert (H1 : exists new1,
            requests (net s1) = (new1 ++ requests (net s))%list /\
            (length new1 <= 2)%nat /\
            (truthy series_id = false -> new1 = []) /\
            (truthy (user_id (self s)) = true ->
             (length new1 <= 1)%nat /\ user_id (self s1) = user_id (self s)) /\
            ((length new1 = 2)%nat -> truthy (user_id (self s1)) = true) /\
            same_config (self s) (self s1) /\
            (truthy series_id = true -> session_is_open (self s1) = true) /\
            clients (net s1) =
              (if truthy series_id && negb (session_is_open (self s))
               then S (clients (net s)) else clients (net s)) /\
            (truthy series_id = false -> s1 = s)).
  { destruct (truthy series_id).
    - destruct (fetch_item_metadata_effects series_id s)
        as (r & s' & new1 & Hrun & Hr & Hlen & Hc & H2 & Hcfg & Hopen & Hcl & _).
      rewrite Hrun in Hfirst. injection Hfirst as <- <-.
      exists new1. rewrite Hen in Hcl.
      repeat split; auto; try done; try apply Hc; try apply Hcfg; auto.
    - injection Hfirst as <- <-. exists [].
      repeat split; simpl; auto; try lia; try done. }
  destruct H1 as (new1 & Hr1 & Hlen1 & Hnil & Hc1 & Htwo & (Hu1 & Hk1 & He1)
                  & Hopen1 & Hcl1 & Hsame).
  destruct (fetch_item_metadata_effects item_id s1)
    as (r & s' & new2 & Hrun & Hr2 & Hlen2 & Hc2 & _ & (Hu2 & Hk2 & He2)
        & Hopen2 & Hcl2 & _).
  rewrite Hrun in Hsecond. injection Hsecond as <- <-.
  eexists _, s', (new2 ++ new1)%list. split; [reflexivity|].
  split; [by rewrite Hr2, Hr1, app_assoc|].
  rewrite length_app.
  assert (Hsum : (length new2 + length new1 <= 3)%nat).
  { destruct (decide (length new1 = 2)%nat) as [H2|H2]; [|lia].
    destruct (Hc2 (Htwo H2)). lia. }
  split; [exact Hsum|].
  split; [intros Hs; rewrite (Hnil Hs); simpl; lia|].
  split.
  { intros Hc. destruct (Hc1 Hc) as [Hl1 Hu].
    destruct Hc2 as [Hl2 Hu']; [by rewrite Hu|].
    split; [lia|congruence]. }
  split.
  { rewrite Hcl2, He1, Hen, Hcl1. cbn [andb].
    destruct (truthy series_id) eqn:Hs.
    - rewrite (Hopen1 eq_refl). cbn. done.
    - by rewrite (Hsame eq_refl). }
  split; [repeat split; congruence|].
  split; [|done].
  intros _. apply Hopen2. congruence.
Qed.

(** X5. One call of [enhance_metadata] issues at most three requests, at
    most two when no series is given or the acting user is cached, and
    creates at most one client, none when the enhancer holds an open one.
    It keeps the configuration, and an enabled enhancer holds an open client
    afterwards. *)
Theorem enhance_metadata_is_bounded (item_id series_id : json) (s : obj_state) :
  exists d s' new,
    enhance_metadata item_id series_id s = (Ok d, s') /\
    requests (net s') = (new ++ requests (net s))%list /\
    (length new <= 3)%nat /\
    (truthy series_id = false -> (length new <= 2)%nat) /\
    (truthy (user_id (self s)) = true ->
     (length new <= 2)%nat /\ user_id (self s') = user_id (self s)) /\
    clients (net s') =
      (if enabled (self s) && negb (session_is_open (self s))
       then S (clients (net s)) else clients (net s)) /\
    same_config (self s) (self s') /\
    (enabled (self s) = true -> session_is_open (self s') = true).
Proof.
  destruct (enhance_metadata_effects item_id series_id s)
    as (d & s' & new & H1 & H2 & H3 & H4 & H5 & H6 & H7 & H8 & _).
  by exists d, s', new.
Qed.



(** ** Series before item *)

(** X6. With the acting user cached, [enhance_metadata] asks for the series
    first (when one is given) and for the item second, and under every key
    the dictionary it returns holds the series-level value when that is
    present, else the item-level value when that is present, else nothing,
    each level being what its own answer yields (nothing at all unless the
    answer is a 200 with an object as body). *)
Theorem enhance_metadata_asks_series_then_item
    (item_id series_id : json) (s : obj_state) :
  enabled (self s) = true ->
  truthy (user_id (self s)) = true ->
  let url_of := item_url (self s) (user_id (self s)) in
  let series_urls := if truthy series_id then [url_of series_id] else [] in
  let series_metadata :=
    if truthy series_id
    then metadata_of_answer (remote (requests (net s)) (url_of series_id))
    else None in
  let item_metadata :=
    metadata_of_answer
      (remote (series_urls ++ requests (net s))%list (url_of item_id)) in
  exists d s',
    enhance_metadata item_id series_id s = (Ok d, s') /\
    requests (net s') = (url_of item_id :: series_urls ++ requests (net s))%list /\
    user_id (self s') = user_id (self s) /\
    forall key,
      dict_get d key =
        series_over_item (opt_get series_metadata key)
                         (opt_get item_metadata key).
Proof.
  intros Hen Hc url_of series_urls series_metadata item_metadata.
  destruct (enhance_metadata_steps item_id series_id s Hen)
    as (sm & s1 & im & s2 & Hfirst & Hsecond & ->).
  assert (H1 : sm = series_metadata /\
               requests (net s1) = (series_urls ++ requests (net s))%list /\
               user_id (self s1) = user_id (self s) /\
               enabled (self s1) = true /\
               _build_url (self s1) = _build_url (self s)).
  { subst series_urls series_metadata. destruct (truthy series_id).
    - rewrite fetch_item_metadata_cached in Hfirst by done.
      injection Hfirst as <- <-.
      destruct (opened_fields s) as (Hreq & Huid & (_ & _ & Hen') & Hurl & _).
      cbn [log_request self net requests]. rewrite Hreq.
      repeat split; auto; congruence.
    - by injection Hfirst as <- <-. }
  destruct H1 as (-> & Hreq1 & Huid1 & Hen1 & Hurl1).
  rewrite fetch_item_metadata_cached in Hsecond by congruence.
  injection Hsecond as <- <-.
  unfold item_url. rewrite Hurl1, Huid1, Hreq1.
  fold (item_url (self s) (user_id (self s)) item_id). fold url_of.
  fold item_metadata.
  destruct (opened_fields s1) as (Hreq & Huid & _).
  eexists _, _. split; [reflexivity|].
  split; [cbn [log_request self net requests]; by rewrite Hreq, Hreq1|].
  split; [cbn [log_request self]; congruence|].
  intros key.
  assert (Hmerge : dict_get (_merge_metadata series_metadata item_metadata) key =
            series_over_item (opt_get series_metadata key)
                             (opt_get item_metadata key)).
  { unfold _merge_metadata, series_over_item, present.
    rewrite overwrite_with_opt.
    destruct (truthy (opt_get series_metadata key)); [done|].
    rewrite overwrite_with_opt, dict_get_default_metadata.
    by destruct (truthy (opt_get item_metadata key)). }
  destruct (any_values (_merge_metadata series_metadata item_metadata))
    eqn:Hany; [done|].
  rewrite dict_get_default_metadata.
  pose proof (proj1 (any_values_false _) Hany key) as Hk.
  rewrite Hmerge in Hk. revert Hk. unfold series_over_item, present.
  destruct (truthy (opt_get series_metadata key)) eqn:E1; [congruence|].
  destruct (truthy (opt_get item_metadata key)) eqn:E2; [congruence|done].
Qed.

(** * More of the handler *)

(** ** The enhancement call, with its effects *)

(** The handler's enhancement call runs [enhance_metadata] on the global
    instance, created from the environment when there is none, and leaves
    that instance in place; the fallback pass decides the result when the
    enhancement found nothing. *)
Lemma guarded_enhance_effects (item_id series_id payload : json) (w : world) :
  exists enhanced s' d,
    enhance_metadata item_id series_id
      (ObjState (default (__init__ (EMBY_SERVER_URL w) (EMBY_API_KEY w))
                         (_metadata_enhancer w)) (net_io w))
      = (Ok enhanced, s') /\
    (enhanced = default_metadata \/ any_values enhanced = true) /\
    guarded_enhance item_id series_id payload w =
      (Ok d, with_enhancer (self s') (net s') w) /\
    d = (if negb (any_values enhanced) && truthy payload then
           match _extract_metadata_from_webhook payload with
           | Ok webhook_metadata =>
               if any_values webhook_metadata then webhook_metadata
               else enhanced
           | Raise _ => default_metadata
           end
         else enhanced).
Proof.
  destruct (enhance_webhook_metadata_unfold item_id series_id payload w)
    as (e & enhanced & s' & He & Hen & Hshape & Heq).
  destruct (get_metadata_enhancer_returns w) as (e' & He' & ->).
  rewrite He in He'. injection He' as ->.
  exists enhanced, s'. eexists. split; [exact Hen|]. split; [exact Hshape|].
  split; [|reflexivity].
  unfold guarded_enhance. rewrite try_except_cases, Heq. cbn zeta.
  destruct (negb (any_values enhanced) && truthy payload); [|done].
  by destruct (_extract_metadata_from_webhook payload).
Qed.

(** ** Accepted and rejected deliveries *)

Lemma basic_provider_ids_raises (item : pydict) :
  (forall ids, default (JObj ∅) (item !! "ProviderIds") <> JObj ids) ->
  exists e, basic_provider_ids (JObj item) = Raise e.
Proof.
  intros Hno. unfold basic_provider_ids. cbn [py_get res_bind].
  destruct (default (JObj ∅) (item !! "ProviderIds")); cbn; eauto.
  by destruct (Hno m).
Qed.

Lemma format_02d_is_int (v : json) :
  is_int v = true <-> exists s, format_02d v = Ok s.
Proof.
  destruct v; cbn; split; try done; eauto; by intros [? ?].
Qed.

Lemma is_int_not_none (v : json) : is_int v = true -> is_none v = false.
Proof. by destruct v. Qed.

(** The submission made for a delivery, given what the enhancement call
    returned. *)
Lemma merge_and_submit_run (event_type production_year : json)
    (basic : basic_ids) (enhanced : pydict) (task_title : string)
    (search_keyword : json) (media_type : string)
    (season_number episode_number anime_title : json) (w : world) :
  exists sub,
    merge_and_submit event_type production_year basic enhanced task_title
      search_keyword media_type season_number episode_number anime_title w
      = (Ok tt, {| EMBY_SERVER_URL := EMBY_SERVER_URL w;
                   EMBY_API_KEY := EMBY_API_KEY w;
                   _metadata_enhancer := _metadata_enhancer w;
                   net_io := net_io w;
                   submitted := sub :: submitted w |}) /\
    sub_title sub = task_title /\
    sub_unique_key sub = dispatch_key anime_title season_number episode_number /\
    animeTitle (sub_task sub) = anime_title /\
    mediaType (sub_task sub) = media_type /\
    season (sub_task sub) = season_number /\
    currentEpisodeIndex (sub_task sub) = episode_number /\
    year (sub_task sub) = production_year /\
    searchKeyword (sub_task sub) = search_keyword /\
    webhookSource (sub_task sub) = "emby" /\
    eventType (sub_task sub) = event_type /\
    forall kind,
      task_id kind (sub_task sub) =
        merge_rule (dict_get enhanced (enhanced_key kind)) (basic_id kind basic).
Proof.
  destruct (merge_and_submit_task event_type production_year basic enhanced
              task_title search_keyword media_type season_number
              episode_number anime_title w)
    as (sub & w' & Hrun & Hsub & _ & _ & _ & _ & _ & Hids).
  unfold merge_and_submit, submit_task, modify in Hrun.
  injection Hrun as <-. cbn [submitted] in Hsub. injection Hsub as <-.
  eexists. split; [reflexivity|].
  cbn. repeat (split; [reflexivity|]). exact Hids.
Qed.

Lemma basic_id_map (ids : pydict) (kind : ProviderKind) :
  basic_id kind
    (BasicIds (dict_get ids "Tmdb") (dict_get ids "IMDB") (dict_get ids "Tvdb")
       (dict_get ids "DoubanID") (dict_get ids "Bangumi"))
  = dict_get ids (webhook_key kind).
Proof. by destruct kind. Qed.

(** The run of the handler on an accepted delivery: one enhancement call on
    the global instance, then one submission. *)
Lemma handle_accepted (payload item ids : pydict) (w : world) :
  py_in_strs (dict_get payload "Event") handled_events = true ->
  payload !! "Item" = Some (JObj item) ->
  default (JObj ∅) (item !! "ProviderIds") = JObj ids ->
  accepted_item item = true ->
  exists enhanced s' d sub,
    enhance_metadata (dict_get item "Id") (series_of item)
      (ObjState (default (__init__ (EMBY_SERVER_URL w) (EMBY_API_KEY w))
                         (_metadata_enhancer w)) (net_io w))
      = (Ok enhanced, s') /\
    (enhanced = default_metadata \/ any_values enhanced = true) /\
    d = (if negb (any_values enhanced) && truthy (JObj payload) then
           match _extract_metadata_from_webhook (JObj payload) with
           | Ok webhook_metadata =>
               if any_values webhook_metadata then webhook_metadata
               else enhanced
           | Raise _ => default_metadata
           end
         else enhanced) /\
    handle (Some (JObj payload)) w =
      (Ok tt, {| EMBY_SERVER_URL := EMBY_SERVER_URL w;
                 EMBY_API_KEY := EMBY_API_KEY w;
                 _metadata_enhancer := Some (self s');
                 net_io := net s';
                 submitted := sub :: submitted w |}) /\
    task_for payload item sub /\
    forall kind,
      task_id kind (sub_task sub) =
        merge_rule (dict_get d (enhanced_key kind))
                   (dict_get ids (webhook_key kind)).
Proof.
  intros Hev Hitem Hids Hacc. unfold accepted_item in Hacc. rewrite Hids in Hacc.
  assert (Hty : dict_get item "Type" <> JNull).
  { intros Hnull. rewrite Hnull in Hacc. done. }
  unfold handle, series_of, task_for. unfold handled_events in Hev.
  rewrite bind_lift, py_get_obj, Hev. cbn [negb].
  rewrite bind_lift, (py_get_item _ _ Hitem).
  rewrite (item_truthy item "Type" _ eq_refl) by done. cbn [negb].
  rewrite bind_lift, py_get_obj.
  assert (Hin : py_in_strs (dict_get item "Type") ["Episode"; "Movie"] = true).
  { cbn [py_in_strs existsb].
    destruct (py_eq_str (dict_get item "Type") "Episode"); [done|].
    by destruct (py_eq_str (dict_get item "Type") "Movie"). }
  rewrite Hin. cbn [negb].
  rewrite !bind_lift, !py_get_obj.
  rewrite bind_lift, (basic_provider_ids_map _ _ Hids).
  destruct (py_eq_str (dict_get item "Type") "Episode") eqn:Hep.
  - apply andb_true_iff in Hacc as [Hacc He].
    apply andb_true_iff in Hacc as [Hname Hs].
    rewrite !bind_lift, Hname, (is_int_not_none _ Hs), (is_int_not_none _ He).
    cbn [negb andb].
    destruct (proj1 (format_02d_is_int _) Hs) as (s02 & Hs02).
    destruct (proj1 (format_02d_is_int _) He) as (e02 & He02).
    rewrite bind_lift, Hs02, bind_lift, He02. unfold bind at 1.
    match goal with |- context [guarded_enhance ?i ?s ?p w] =>
      destruct (guarded_enhance_effects i s p w)
        as (enhanced & s' & d & Hen & Hshape & -> & Hd)
    end.
    match goal with
    |- context [merge_and_submit ?a ?b ?c ?d ?e ?f ?g ?h ?i ?j ?wx] =>
      destruct (merge_and_submit_run a b c d e f g h i j wx)
        as (sub & -> & Ht & Hk & Ha & Hm & Hsn & Hen' & Hy & Hkw & Hsrc & Hevt
            & Hids')
    end.
    exists enhanced, s', d, sub. split; [exact Hen|]. split; [exact Hshape|].
    split; [exact Hd|]. split; [reflexivity|].
    split.
    + rewrite Hsrc, Hevt, Hy, Ha, Hm, Hsn, Hen', Hk, Hkw, Ht.
      repeat (split; [done|]). exists s02, e02. done.
    + intros kind. by rewrite Hids', basic_id_map.
  - destruct (py_eq_str (dict_get item "Type") "Movie") eqn:Hmv; [|done].
    rewrite !bind_lift, Hacc. cbn [negb]. unfold bind at 1.
    match goal with |- context [guarded_enhance ?i ?s ?p w] =>
      destruct (guarded_enhance_effects i s p w)
        as (enhanced & s' & d & Hen & Hshape & -> & Hd)
    end.
    match goal with
    |- context [merge_and_submit ?a ?b ?c ?d ?e ?f ?g ?h ?i ?j ?wx] =>
      destruct (merge_and_submit_run a b c d e f g h i j wx)
        as (sub & -> & Ht & Hk & Ha & Hm & Hsn & Hen' & Hy & Hkw & Hsrc & Hevt
            & Hids')
    end.
    exists enhanced, s', d, sub. split; [exact Hen|]. split; [exact Hshape|].
    split; [exact Hd|]. split; [reflexivity|].
    split.
    + rewrite Hsrc, Hevt, Hy, Ha, Hm, Hsn, Hen', Hk, Hkw, Ht. done.
    + intros kind. by rewrite Hids', basic_id_map.
Qed.

(** A delivery that is not accepted ends, normally or with an exception,
    before anything is done: no instance is created, no request is issued,
    no task is submitted. *)
Lemma handle_rejected (body : option json) (w : world) :
  accepted body = false -> exists r, handle body w = (r, w).
Proof.
  intros Hrej. unfold handle.
  destruct body as [payload|]; [|unfold raise; eauto].
  destruct payload as [| | | | |payload];
    try solve [rewrite bind_lift; cbn; eauto].
  cbn [accepted] in Hrej. unfold handled_events in Hrej.
  rewrite bind_lift, py_get_obj.
  destruct (py_in_strs (dict_get payload "Event") _); [|unfold ret; eauto].
  cbn [negb andb] in *. rewrite bind_lift. cbn [py_get].
  destruct (default (JObj ∅) (payload !! "Item")) as [| | | | |item] eqn:Hitem;
    try solve [destruct (negb (truthy _)); [unfold ret; eauto|];
               rewrite bind_lift; cbn; eauto].
  destruct (negb (truthy (JObj item))); [unfold ret; eauto|].
  rewrite bind_lift, py_get_obj.
  destruct (negb (py_in_strs (dict_get item "Type") _)); [unfold ret; eauto|].
  rewrite !bind_lift, !py_get_obj. rewrite bind_lift.
  unfold accepted_item in Hrej.
  destruct (default (JObj ∅) (item !! "ProviderIds")) as [| | | | |ids] eqn:Hids;
    try solve [destruct (basic_provider_ids_raises item) as (e & ->);
               [intros ids; rewrite Hids; done|eauto]].
  rewrite (basic_provider_ids_map _ _ Hids).
  destruct (py_eq_str (dict_get item "Type") "Episode").
  - rewrite !bind_lift.
    destruct (truthy (dict_get item "SeriesName")); [|unfold ret; eauto].
    destruct (is_none (dict_get item "ParentIndexNumber")) eqn:Hs;
      [unfold ret; eauto|].
    destruct (is_none (dict_get item "IndexNumber")) eqn:He;
      [unfold ret; eauto|].
    cbn [negb andb] in *. rewrite bind_lift.
    destruct (format_02d (dict_get item "ParentIndexNumber")) as [s02|] eqn:Hs02;
      [|eauto].
    rewrite bind_lift.
    destruct (format_02d (dict_get item "IndexNumber")) as [e02|] eqn:He02;
      [|eauto].
    rewrite (proj2 (format_02d_is_int _)) in Hrej by eauto.
    rewrite (proj2 (format_02d_is_int _)) in Hrej by eauto. done.
  - destruct (py_eq_str (dict_get item "Type") "Movie"); [|unfold raise; eauto].
    rewrite !bind_lift, Hrej. unfold ret. eauto.
Qed.

Lemma accepted_inv (body : option json) :
  accepted body = true ->
  exists payload item ids : pydict,
    body = Some (JObj payload) /\
    py_in_strs (dict_get payload "Event") handled_events = true /\
    payload !! "Item" = Some (JObj item) /\
    default (JObj ∅) (item !! "ProviderIds") = JObj ids /\
    accepted_item item = true.
Proof.
  destruct body as [[| | | | |payload]|]; try done. cbn [accepted].
  intros [Hev Hacc]%andb_true_iff.
  destruct (payload !! "Item") as [[| | | | |item]|] eqn:Hitem; try done.
  cbn [default id] in Hacc.
  destruct (default (JObj ∅) (item !! "ProviderIds")) as [| | | | |ids] eqn:Hids;
    try (unfold accepted_item in Hacc; by rewrite Hids in Hacc).
  by exists payload, item, ids.
Qed.

(** The effects of one delivery. *)
Lemma handle_effects (body : option json) (w : world) :
  exists r w' new,
    handle body w = (r, w') /\
    EMBY_SERVER_URL w' = EMBY_SERVER_URL w /\
    EMBY_API_KEY w' = EMBY_API_KEY w /\
    requests (net_io w') = (new ++ requests (net_io w))%list /\
    (length new <= 3)%nat /\
    (if accepted body
     then r = Ok tt /\
          (exists sub, submitted w' = sub :: submitted w) /\
          (exists e', _metadata_enhancer w' = Some e' /\
                      same_config (instance w) e' /\
                      (enabled (instance w) = true ->
                       session_is_open e' = true) /\
                      (enabled (instance w) = false -> e' = instance w)) /\
          clients (net_io w') =
            (if enabled (instance w) && negb (session_is_open (instance w))
             then S (clients (net_io w)) else clients (net_io w)) /\
          (enabled (instance w) = false -> net_io w' = net_io w) /\
          (truthy (user_id (instance w)) = true ->
           (length new <= 2)%nat /\
           user_id (instance w') = user_id (instance w))
     else w' = w /\ new = []).
Proof.
  destruct (accepted body) eqn:Hacc.
  - destruct (accepted_inv body Hacc)
      as (payload & item & ids & -> & Hev & Hitem & Hids & Hit).
    destruct (handle_accepted payload item ids w Hev Hitem Hids Hit)
      as (enhanced & s' & d & sub & Hen & _ & _ & -> & _).
    destruct (enhance_metadata_effects (dict_get item "Id") (series_of item)
                (ObjState (instance w) (net_io w)))
      as (d' & s'' & new & Hen' & Hreq & Hlen & _ & Hcached & Hcl & Hcfg & Hopen
          & Hoff).
    unfold instance in Hen'. rewrite Hen in Hen'. injection Hen' as <- <-.
    cbn [self net] in *.
    eexists _, _, new. split; [reflexivity|]. cbn.
    repeat (split; [done|]). split; [eauto|]. split.
    + exists (self s'). repeat (split; [done|]).
      intros Hdis. by destruct (Hoff Hdis) as [-> _].
    + split; [done|]. split; [|exact Hcached].
      intros Hdis. by destruct (Hoff Hdis) as [-> _].
  - destruct (handle_rejected body w Hacc) as (r & ->).
    exists r, w, []. repeat split; simpl; auto; lia.
Qed.

(** ** All or nothing *)

(** X7. Every delivery either hands exactly one task to the task manager,
    being accepted, or leaves the process as it was, whether its handling
    returns or raises: no task, no instance created, no request.  Up to the
    hand-over, handling an accepted delivery issues at most three requests
    and creates at most one client; the environment is never written. *)
Theorem delivery_is_all_or_nothing (body : option json) (w : world) :
  exists r w' new,
    handle body w = (r, w') /\
    EMBY_SERVER_URL w' = EMBY_SERVER_URL w /\
    EMBY_API_KEY w' = EMBY_API_KEY w /\
    requests (net_io w') = (new ++ requests (net_io w))%list /\
    (length new <= 3)%nat /\
    (clients (net_io w') <= S (clients (net_io w)))%nat /\
    if accepted body
    then exists sub, submitted w' = sub :: submitted w
    else w' = w.
Proof.
  destruct (handle_effects body w)
    as (r & w' & new & Hrun & Hurl & Hkey & Hreq & Hlen & Hcase).
  exists r, w', new. repeat (split; [done|]).
  destruct (accepted body).
  - destruct Hcase as (_ & Hsub & _ & Hcl & _). split; [|done].
    rewrite Hcl. destruct (_ && _); lia.
  - destruct Hcase as [-> _]. split; [lia|done].
Qed.

(** ** The task of an accepted delivery *)

(** A run of the handler that has submitted a task has handled an accepted
    delivery. *)
Lemma handle_submission_inv (body : option json) (w : world) (sub : submission) :
  submitted (handle body w).2 = sub :: submitted w ->
  exists (payload item ids : pydict) enhanced s' d,
    body = Some (JObj payload) /\
    py_in_strs (dict_get payload "Event") handled_events = true /\
    payload !! "Item" = Some (JObj item) /\
    default (JObj ∅) (item !! "ProviderIds") = JObj ids /\
    accepted_item item = true /\
    enhance_metadata (dict_get item "Id") (series_of item)
      (ObjState (instance w) (net_io w)) = (Ok enhanced, s') /\
    (enhanced = default_metadata \/ any_values enhanced = true) /\
    d = (if negb (any_values enhanced) && truthy (JObj payload) then
           match _extract_metadata_from_webhook (JObj payload) with
           | Ok webhook_metadata =>
               if any_values webhook_metadata then webhook_metadata
               else enhanced
           | Raise _ => default_metadata
           end
         else enhanced) /\
    task_for payload item sub /\
    forall kind,
      task_id kind (sub_task sub) =
        merge_rule (dict_get d (enhanced_key kind))
                   (dict_get ids (webhook_key kind)).
Proof.
  intros Hsub. destruct (accepted body) eqn:Hacc.
  - destruct (accepted_inv body Hacc)
      as (payload & item & ids & -> & Hev & Hitem & Hids & Hit).
    destruct (handle_accepted payload item ids w Hev Hitem Hids Hit)
      as (enhanced & s' & d & sub' & Hen & Hshape & Hd & Hrun & Htask & Hkinds).
    rewrite Hrun in Hsub. cbn in Hsub. injection Hsub as ->.
    by exists payload, item, ids, enhanced, s', d.
  - destruct (handle_rejected body w Hacc) as (r & Hrun).
    rewrite Hrun in Hsub. by destruct (cons_neq_self sub (submitted w)).
Qed.

Lemma merge_rule_nonempty (enhanced basic : json) :
  merge_rule enhanced basic <> Some "".
Proof.
  unfold merge_rule, present.
  destruct (truthy enhanced) eqn:He.
  { intros [= H]. by apply (py_str_nonempty enhanced). }
  destruct (truthy basic) eqn:Hb; [|done].
  intros [= H]. by apply (py_str_nonempty basic).
Qed.

(** X8. Every task the handler submits is well formed.  It comes from a
    payload with an [Item]; its source is emby and its event one of the
    three the handler cares about; its title is not empty; season and
    episode are integers, both 1 for a movie; the search keyword is the
    title, followed for an episode by the season and episode numbers in two
    digits; the key is made of title, season and episode; and no identifier
    is the empty string. *)
Theorem dispatched_task_is_well_formed (body : option json) (w : world)
    (sub : submission) :
  submitted (handle body w).2 = sub :: submitted w ->
  exists payload item : pydict,
    body = Some (JObj payload) /\
    payload !! "Item" = Some (JObj item) /\
    task_for payload item sub /\
    py_in_strs (eventType (sub_task sub)) handled_events = true /\
    is_int (season (sub_task sub)) = true /\
    is_int (currentEpisodeIndex (sub_task sub)) = true /\
    (mediaType (sub_task sub) = "movie" \/
     mediaType (sub_task sub) = "tv_series") /\
    forall kind, task_id kind (sub_task sub) <> Some "".
Proof.
  intros Hsub.
  destruct (handle_submission_inv body w sub Hsub)
    as (payload & item & ids & enhanced & s' & d & -> & Hev & Hitem & _ & _ & _
        & _ & _ & Htask & Hkinds).
  exists payload, item. split; [done|]. split; [done|]. split; [done|].
  destruct Htask as (_ & Hevt & _ & _ & _ & Hmedia).
  split; [by rewrite Hevt|].
  destruct (py_eq_str (dict_get item "Type") "Episode").
  - destruct Hmedia as (_ & Hm & _ & _ & s02 & e02 & Hs & He & _).
    split; [apply format_02d_is_int; eauto|].
    split; [apply format_02d_is_int; eauto|].
    split; [by right|].
    intros kind. rewrite Hkinds. apply merge_rule_nonempty.
  - destruct Hmedia as (_ & Hm & -> & -> & _).
    split; [done|]. split; [done|]. split; [by left|].
    intros kind. rewrite Hkinds. apply merge_rule_nonempty.
Qed.

(** ** The identity of a task when the API gives nothing *)

Lemma resolve_present (ids : pydict) (names : list string) :
  truthy (resolve ids names) =
    match first_match ids names with Some _ => true | None => false end.
Proof.
  unfold resolve. destruct (first_match ids names) as [name|] eqn:Hf; [|done].
  destruct (first_match_Some _ _ _ Hf) as (raw & _ & Hraw & ->).
  apply truthy_str, py_str_nonempty, Hraw.
Qed.

Lemma first_match_None (ids : pydict) (names : list string) (name : string) :
  first_match ids names = None -> In name names ->
  truthy (dict_get ids name) = false.
Proof. intros Hf Hin. exact (find_none _ _ Hf name Hin). Qed.

Lemma webhook_key_is_alias (kind : ProviderKind) :
  In (webhook_key kind) (aliases kind).
Proof. destruct kind; cbn; auto. Qed.

Lemma enhance_metadata_nothing (item_id series_id : json) (s : obj_state) :
  never_200 \/ enabled (self s) = false ->
  exists s', enhance_metadata item_id series_id s = (Ok default_metadata, s').
Proof.
  intros [Hno|Hoff].
  - by apply enhance_metadata_without_200.
  - destruct s as [e n]. exists (ObjState e n).
    by apply enhance_metadata_disabled.
Qed.

(** X9. When the API answers no request with status 200, or no server is
    configured, the task of an accepted delivery carries for each kind the
    identifier the payload's [ProviderIds] holds under the first matching
    spelling of the kind, as a string, and none when no spelling matches. *)
Theorem identity_without_the_api (payload item ids : pydict) (w : world)
    (sub : submission) :
  never_200 \/ enabled (instance w) = false ->
  payload !! "Item" = Some (JObj item) ->
  default (JObj ∅) (item !! "ProviderIds") = JObj ids ->
  submitted (handle (Some (JObj payload)) w).2 = sub :: submitted w ->
  forall kind,
    task_id kind (sub_task sub) = str_or_none (resolve ids (aliases kind)).
Proof.
  intros Hnothing Hitem Hids Hsub kind.
  destruct (handle_submission_inv _ w sub Hsub)
    as (payload' & item' & ids' & enhanced & s' & d & [= <-] & _ & Hitem' & Hids'
        & _ & Hen & _ & Hd & _ & Hkinds).
  rewrite Hitem in Hitem'. injection Hitem' as <-.
  rewrite Hids in Hids'. injection Hids' as <-.
  destruct (enhance_metadata_nothing (dict_get item "Id") (series_of item)
              (ObjState (instance w) (net_io w)) Hnothing) as (s'' & Hen').
  rewrite Hen in Hen'. injection Hen' as -> <-.
  rewrite any_values_default in Hd. cbn [negb andb] in Hd.
  assert (Hpayload : truthy (JObj payload) = true).
  { cbn [truthy]. apply negb_true_iff, bool_decide_eq_false.
    intros ->. by rewrite lookup_empty in Hitem. }
  rewrite Hpayload in Hd.
  unfold _extract_metadata_from_webhook in Hd.
  rewrite (py_get_item _ _ Hitem) in Hd. cbn [res_bind py_get] in Hd.
  rewrite Hids in Hd.
  destruct (scan_mappings_map ids) as (wm & Hwm & Hres & _).
  rewrite Hwm in Hd.
  rewrite Hkinds. unfold merge_rule, str_or_none, present.
  assert (Hbasic : truthy (resolve ids (aliases kind)) = false ->
                   truthy (dict_get ids (webhook_key kind)) = false).
  { rewrite resolve_present.
    destruct (first_match ids (aliases kind)) eqn:Hf; [done|]. intros _.
    eapply first_match_None; [exact Hf|apply webhook_key_is_alias]. }
  destruct (any_values wm) eqn:Hany; subst d.
  - rewrite Hres.
    destruct (truthy (resolve ids (aliases kind))) eqn:Hr; [done|].
    by rewrite Hbasic.
  - pose proof (proj1 (any_values_false wm) Hany (enhanced_key kind)) as Hk.
    rewrite Hres in Hk.
    by rewrite dict_get_default_metadata, Hk, Hbasic.
Qed.

(** ** A process and its deliveries *)

Lemma instance_open (w : world) :
  session_is_open (instance w) = holds_open_client w.
Proof. unfold instance, holds_open_client. by destruct (_metadata_enhancer w). Qed.

(** X10. However many deliveries a process handles, it submits one task for
    each accepted delivery and none for the others, issues at most three
    requests for each accepted delivery, and creates at most one client,
    none when it holds an open one; it never writes the environment, and
    without a configured server it leaves the network alone.  Once the
    instance has cached an acting user it keeps that user, and an accepted
    delivery costs at most two requests. *)
Theorem process_creates_one_client (bodies : list (option json)) :
  forall w,
    let w' := serve bodies w in
    let n := length (List.filter accepted bodies) in
    length (submitted w') = (length (submitted w) + n)%nat /\
    (length (requests (net_io w')) <= length (requests (net_io w)) + 3 * n)%nat /\
    (clients (net_io w) <= clients (net_io w'))%nat /\
    (clients (net_io w') + (if holds_open_client w' then 0 else 1)
     <= clients (net_io w) + (if holds_open_client w then 0 else 1))%nat /\
    EMBY_SERVER_URL w' = EMBY_SERVER_URL w /\
    EMBY_API_KEY w' = EMBY_API_KEY w /\
    (enabled (instance w) = false -> net_io w' = net_io w) /\
    (truthy (user_id (instance w)) = true ->
     (length (requests (net_io w'))
      <= length (requests (net_io w)) + 2 * n)%nat /\
     user_id (instance w') = user_id (instance w)).
Proof.
  induction bodies as [|body rest IH]; intros w.
  { cbn. repeat split; auto; lia. }
  cbn [serve List.filter].
  destruct (handle_effects body w)
    as (r & w1 & new & Hrun & Hurl & Hkey & Hreq & Hlen & Hcase).
  rewrite Hrun. cbn [snd].
  destruct (IH w1) as (Hsub & Hreqs & Hmono & Hcl & Hurl' & Hkey' & Hoff & Huser).
  cbn zeta in *.
  destruct (accepted body).
  - destruct Hcase as (_ & (sub & Hs) & (e' & He' & (Hc1 & Hc2 & Hc3) & Hopen & Hsame)
                       & Hcl1 & Hnet & Hcached).
    assert (Hopen' : holds_open_client w1 =
                     (enabled (instance w) || holds_open_client w)).
    { unfold holds_open_client at 1. rewrite He'.
      destruct (enabled (instance w)) eqn:Hen; [by apply Hopen|].
      rewrite (Hsame eq_refl). apply instance_open. }
    assert (Hen1 : enabled (instance w1) = enabled (instance w)).
    { unfold instance at 1. by rewrite He'. }
    rewrite instance_open in Hcl1.
    cbn [length]. rewrite Hs, Hreq, length_app in *. cbn [length] in *.
    split; [lia|]. split; [lia|].
    split; [destruct (_ && _) in Hcl1; lia|].
    split.
    { rewrite Hopen' in Hcl.
      destruct (enabled (instance w)), (holds_open_client w);
        cbn in Hcl1, Hcl; lia. }
    split; [congruence|]. split; [congruence|].
    split; [intros Hdis; rewrite Hoff by congruence; by apply Hnet|].
    intros Hc. destruct (Hcached Hc) as [Hlen2 Hkept].
    destruct Huser as [Hreqs2 Hkept']; [congruence|].
    split; [lia|congruence].
  - destruct Hcase as [-> ->]. cbn [app] in *.
    repeat split; auto; try lia; by apply Huser.
Qed.

(** ** Closing and cleaning up *)

(** X11. [close] issues no request and creates no client.  It leaves no open
    client, keeps the configuration and the cached acting user, and closing
    twice is closing once.  An enabled enhancer with a cached acting user
    answers the next fetch after [close] with a new client and one request,
    for the item, without asking for the users again. *)
Theorem close_keeps_the_acting_user (s : obj_state) (item_id : json) :
  exists s1,
    close s = (Ok tt, s1) /\
    net s1 = net s /\
    user_id (self s1) = user_id (self s) /\
    same_config (self s) (self s1) /\
    session_is_open (self s1) = false /\
    close s1 = (Ok tt, s1) /\
    (session_is_open (self s) = false -> s1 = s) /\
    (enabled (self s) = true -> truthy (user_id (self s)) = true ->
     exists r s2,
       _fetch_item_metadata item_id s1 = (Ok r, s2) /\
       requests (net s2) =
         item_url (self s) (user_id (self s)) item_id :: requests (net s) /\
       r = metadata_of_answer
             (remote (requests (net s))
                     (item_url (self s) (user_id (self s)) item_id)) /\
       clients (net s2) = S (clients (net s)) /\
       session_is_open (self s2) = true).
Proof.
  assert (Hclose : exists s1,
            close s = (Ok tt, s1) /\ net s1 = net s /\
            user_id (self s1) = user_id (self s) /\
            same_config (self s) (self s1) /\
            _build_url (self s1) = _build_url (self s) /\
            session_is_open (self s1) = false /\
            close s1 = (Ok tt, s1) /\
            (session_is_open (self s) = false -> s1 = s)).
  { unfold close, session_is_open.
    destruct (session (self s)) as [[[|]]|] eqn:Hs; cbn [is_closed negb].
    - exists s. rewrite Hs. by repeat split.
    - exists (close_session s). by repeat split.
    - exists s. rewrite Hs. by repeat split. }
  destruct Hclose as (s1 & Hrun & Hnet & Huid & Hcfg & Hurl & Hopen & Hidem & Hsame).
  exists s1. repeat (split; [done|]).
  intros Hen Hc. destruct Hcfg as (_ & _ & Hen1).
  pose proof (fetch_item_metadata_cached item_id s1) as Hfetch.
  rewrite Hen1, Huid, Hnet in Hfetch. specialize (Hfetch Hen Hc).
  unfold item_url in *. rewrite Hurl in Hfetch.
  eexists _, _. split; [exact Hfetch|].
  unfold opened. rewrite Hopen. cbn. rewrite Hnet. done.
Qed.

(** X12. [cleanup_metadata_enhancer] leaves the process without an instance;
    requests, clients created, tasks and environment are as they were, and
    cleaning up twice is cleaning up once.  The instance made at the next
    use comes from the environment, with no cached acting user and no
    client, so the next accepted delivery of a configured process creates a
    client. *)
Theorem cleanup_forgets_the_instance (w : world) :
  exists w1,
    cleanup_metadata_enhancer w = (Ok tt, w1) /\
    _metadata_enhancer w1 = None /\
    net_io w1 = net_io w /\
    submitted w1 = submitted w /\
    EMBY_SERVER_URL w1 = EMBY_SERVER_URL w /\
    EMBY_API_KEY w1 = EMBY_API_KEY w /\
    cleanup_metadata_enhancer w1 = (Ok tt, w1) /\
    instance w1 = __init__ (EMBY_SERVER_URL w) (EMBY_API_KEY w) /\
    get_metadata_enhancer w1 =
      (Ok (instance w1), with_enhancer (instance w1) (net_io w) w1) /\
    user_id (instance w1) = JNull /\
    session (instance w1) = None /\
    forall body,
      accepted body = true ->
      str_truthy (EMBY_SERVER_URL w) = true ->
      clients (net_io (handle body w1).2) = S (clients (net_io w)).
Proof.
  assert (Hclean : exists w1,
            cleanup_metadata_enhancer w = (Ok tt, w1) /\
            _metadata_enhancer w1 = None /\
            net_io w1 = net_io w /\
            submitted w1 = submitted w /\
            EMBY_SERVER_URL w1 = EMBY_SERVER_URL w /\
            EMBY_API_KEY w1 = EMBY_API_KEY w).
  { unfold cleanup_metadata_enhancer.
    destruct w as [url key [e|] n subs]; cbn [_metadata_enhancer].
    - unfold close. cbn [self session].
      destruct (session e) as [[[|]]|]; cbn; eexists; by repeat split.
    - eexists; by repeat split. }
  destruct Hclean as (w1 & Hrun & Hnone & Hnet & Hsub & Hurl & Hkey).
  exists w1. repeat (split; [done|]).
  assert (Hinst : instance w1 = __init__ (EMBY_SERVER_URL w) (EMBY_API_KEY w)).
  { unfold instance. by rewrite Hnone, Hurl, Hkey. }
  split; [unfold cleanup_metadata_enhancer; by rewrite Hnone|].
  split; [done|].
  split.
  { unfold get_metadata_enhancer. rewrite Hnone, Hinst, Hurl, Hkey, Hnet. done. }
  rewrite Hinst. split; [done|]. split; [done|].
  intros body Hacc Hen.
  destruct (handle_effects body w1) as (r & w2 & new & -> & _ & _ & _ & _ & Hcase).
  rewrite Hacc in Hcase. destruct Hcase as (_ & _ & _ & Hcl & _).
  rewrite Hinst in Hcl. cbn in Hcl. rewrite Hen in Hcl. cbn in Hcl.
  cbn [snd]. by rewrite Hcl, Hnet.
Qed.

(** * The danmaku checker *)

Lemma is_none_JNull (v : json) : is_none v = true -> v = JNull.
Proof. by destruct v. Qed.

(** The check of an anime makes one call, whatever it answers. *)
Lemma check_anime_danmaku_by_id_run (anime_id episode_index : json)
    (log : list db_call) :
  _check_anime_danmaku_by_id anime_id episode_index log =
    (danmaku_by_id anime_id episode_index,
     SelectEpisodes anime_id episode_index :: log).
Proof.
  unfold danmaku_by_id, _check_anime_danmaku_by_id, bind, lift, ret, log_call,
    modify.
  destruct (is_none episode_index) eqn:Hnone; cbn [negb fst].
  - rewrite (is_none_JNull _ Hnone).
    by destruct (episode_rows anime_id JNull).
  - destruct (episode_rows anime_id episode_index) as [rows|]; [|done].
    destruct (head rows) as [episode_data|]; [|done].
    destruct (py_le0 (commentCount episode_data)) as [[|]|]; try done.
    by destruct (str_truthy (danmakuFilePath episode_data)).
Qed.

(** One identifier of a known type: the anime is looked up, and checked when
    there is one; the outcome is a boolean, whatever is raised. *)
Lemma try_id_run (id_type : string) (id_value episode_index : json)
    (log : list db_call) :
  existsb (String.eqb id_type) id_field_map = true ->
  try_id id_type id_value episode_index log =
    (Ok (id_matches episode_index (id_type, id_value)),
     (rev (calls_for episode_index (id_type, id_value)) ++ log)%list).
Proof.
  intros Hknown.
  unfold try_id, id_matches, calls_for, _find_anime_by_metadata_id.
  rewrite try_except_cases, Hknown. cbn [negb fst snd].
  unfold bind at 1, bind at 1, log_call, modify. rewrite bind_lift.
  destruct (anime_rows id_type id_value) as [[|row rows]|]; try done.
  cbn [head]. unfold ret at 1, bind at 1.
  rewrite check_anime_danmaku_by_id_run.
  by destruct (danmaku_by_id (row_id row) episode_index).
Qed.

Lemma try_ids_run (ids : list (string * json)) (episode_index : json) :
  Forall (fun id => existsb (String.eqb id.1) id_field_map = true) ids ->
  forall log,
    let present := List.filter (fun id => truthy id.2) ids in
    try_ids ids episode_index log =
      (Ok (existsb (id_matches episode_index) present),
       (rev (flat_map (calls_for episode_index)
                      (tried episode_index present)) ++ log)%list).
Proof.
  induction 1 as [|[id_type id_value] rest Hknown _ IH]; intros log; [done|].
  cbn [try_ids List.filter snd]. cbn [fst] in Hknown.
  destruct (truthy id_value); [|apply IH].
  unfold bind at 1. rewrite (try_id_run _ _ _ _ Hknown).
  cbn [existsb tried flat_map].
  destruct (id_matches episode_index (id_type, id_value)).
  - cbn [orb flat_map]. by rewrite app_nil_r.
  - cbn [orb]. rewrite IH. cbn zeta.
    by rewrite rev_app_distr, <- app_assoc.
Qed.

Lemma title_match_run (title season episode_index : json) (log : list db_call) :
  title_match title season episode_index log =
    (Ok (title_answer title season episode_index),
     TitleMatch title season episode_index :: log).
Proof.
  unfold title_match, title_answer, try_except, bind, lift, ret, log_call,
    modify.
  by destruct (crud_check_anime_has_danmaku title season episode_index).
Qed.

Lemma scan_episodes_readable (rows : list episode_row) :
  Forall row_readable rows ->
  scan_episodes rows = Ok (JBool (existsb episode_has_danmaku rows)).
Proof.
  induction 1 as [|episode_data rest [[count Hcount] Hfile] _ IH]; [done|].
  cbn [scan_episodes existsb]. unfold episode_has_danmaku at 1.
  rewrite Hcount. cbn [py_gt0 res_bind].
  destruct (0 <? count); cbn [andb]; [|exact IH].
  destruct (str_truthy (danmakuFilePath episode_data)); cbn [andb]; [|exact IH].
  destruct (Hfile eq_refl) as (found & ->). cbn [res_bind].
  destruct (truthy found); [done|exact IH].
Qed.

(** X13. What the check of an anime reads from the rows of its episodes,
    when reading them raises nothing.  Asked about the whole anime, it says
    yes exactly when some row counts comments and names a file that is
    there.  Asked about one episode, it lets the first row decide, whatever
    the rows after it hold, and says no when there is no row.  An exception
    of the statement is passed on. *)
Theorem danmaku_is_read_from_the_rows (anime_id episode_index : json) :
  (forall rows,
     episode_rows anime_id episode_index = Ok rows ->
     Forall row_readable rows ->
     exists answer,
       danmaku_by_id anime_id episode_index = Ok answer /\
       truthy answer =
         if is_none episode_index then existsb episode_has_danmaku rows
         else match rows with
              | episode_data :: _ => episode_has_danmaku episode_data
              | [] => false
              end) /\
  (forall e,
     episode_rows anime_id episode_index = Raise e ->
     danmaku_by_id anime_id episode_index = Raise e).
Proof.
  unfold danmaku_by_id, _check_anime_danmaku_by_id, bind, lift, ret, log_call,
    modify.
  split.
  - intros rows Hrows Hreadable.
    destruct (is_none episode_index) eqn:Hnone; cbn [negb fst].
    + rewrite (is_none_JNull _ Hnone) in *. rewrite Hrows.
      rewrite (scan_episodes_readable rows Hreadable). cbn [fst]. eauto.
    + rewrite Hrows.
      destruct Hreadable as [|episode_data rest [[count Hcount] Hfile] _];
        cbn [head fst]; [eauto|].
      unfold episode_has_danmaku. rewrite Hcount. cbn [py_le0].
      destruct (Z.leb_spec count 0) as [Hle|Hgt].
      * exists (JBool false). cbn [fst]. split; [done|].
        by destruct (Z.ltb_spec 0 count); [lia|].
      * destruct (Z.ltb_spec 0 count); [|lia]. cbn [andb].
        destruct (str_truthy (danmakuFilePath episode_data)); cbn [andb fst];
          [|eauto].
        destruct (Hfile eq_refl) as (found & ->). eauto.
  - intros e Hrows.
    destruct (is_none episode_index) eqn:Hnone; cbn [negb fst].
    + rewrite (is_none_JNull _ Hnone) in *. by rewrite Hrows.
    + by rewrite Hrows.
Qed.

Lemma priority_order_known (metadata : pydict) :
  Forall (fun id => existsb (String.eqb id.1) id_field_map = true)
         (_get_metadata_priority_order metadata).
Proof. repeat constructor. Qed.

Lemma check_anime_has_danmaku_run (title season episode_index : json)
    (metadata : option pydict) (log : list db_call) :
  let ids :=
    if has_useful_metadata metadata
    then present_ids (default ∅ metadata) else [] in
  let matched := existsb (id_matches episode_index) ids in
  check_anime_has_danmaku title season episode_index metadata log =
    (Ok (matched || title_answer title season episode_index),
     ((if matched then [] else [TitleMatch title season episode_index])
      ++ rev (flat_map (calls_for episode_index) (tried episode_index ids))
      ++ log)%list).
Proof.
  unfold check_anime_has_danmaku, has_useful_metadata, present_ids.
  destruct metadata as [ids|]; cbn [default].
  - destruct (dict_truthy (Some ids)); cbn [negb andb].
    + destruct (any_values ids).
      * unfold bind at 1.
        rewrite (try_ids_run _ _ (priority_order_known ids)). cbn zeta.
        destruct (existsb _ _); [done|]. by rewrite title_match_run.
      * unfold bind at 1, ret at 1. by rewrite title_match_run.
    + unfold bind at 1, ret at 1. by rewrite title_match_run.
  - unfold bind at 1, ret at 1. by rewrite title_match_run.
Qed.

(** X14. The check never raises, whatever the database, [crud] and the file
    system do, so that the convenience function [check_danmaku_enhanced]
    never enters its own fallback and is the same function.  Without useful
    metadata the check is the title match and nothing else, and a title
    match that raises answers no. *)
Theorem check_never_raises (title season episode_index : json)
    (metadata : option pydict) (log : list db_call) :
  exists has_danmaku log',
    check_anime_has_danmaku title season episode_index metadata log
      = (Ok has_danmaku, log') /\
    check_danmaku_enhanced title season episode_index metadata log
      = (Ok has_danmaku, log') /\
    (has_useful_metadata metadata = false ->
     has_danmaku = title_answer title season episode_index /\
     log' = TitleMatch title season episode_index :: log) /\
    (forall e,
       crud_check_anime_has_danmaku title season episode_index = Raise e ->
       title_answer title season episode_index = false).
Proof.
  pose proof (check_anime_has_danmaku_run title season episode_index metadata
                log) as Hrun. cbn zeta in Hrun.
  eexists _, _. split; [exact Hrun|].
  split; [unfold check_danmaku_enhanced, try_except at 1; by rewrite Hrun|].
  split; [|by unfold title_answer; intros e ->].
  intros Huseless. by rewrite Huseless.
Qed.

(** X15. With useful metadata, the present identifiers are tried in the
    order TMDB, Douban, IMDb, TVDB, Bangumi.  For each one the anime is
    looked up and, when there is one, checked; the first identifier that
    leads to danmaku ends the check with yes, and no later identifier and no
    title is asked for.  An identifier that is absent is passed over, one
    whose handling raises counts as no, and when none leads to danmaku the
    title match decides. *)
Theorem identifiers_are_tried_in_priority_order
    (title season episode_index : json) (metadata : pydict)
    (log : list db_call) :
  has_useful_metadata (Some metadata) = true ->
  let ids := present_ids metadata in
  let matched := existsb (id_matches episode_index) ids in
  check_anime_has_danmaku title season episode_index (Some metadata) log =
    (Ok (matched || title_answer title season episode_index),
     ((if matched then [] else [TitleMatch title season episode_index])
      ++ rev (flat_map (calls_for episode_index) (tried episode_index ids))
      ++ log)%list) /\
  ids = List.filter (fun id => truthy id.2)
          [ ("TMDB", dict_get metadata "tmdb_id");
            ("Douban", dict_get metadata "douban_id");
            ("IMDb", dict_get metadata "imdb_id");
            ("TVDB", dict_get metadata "tvdb_id");
            ("Bangumi", dict_get metadata "bangumi_id") ] /\
  (matched = true ->
   exists before id,
     tried episode_index ids = (before ++ [id])%list /\
     id_matches episode_index id = true /\
     Forall (fun id' => id_matches episode_index id' = false) before /\
     exists after, ids = (before ++ id :: after)%list) /\
  (matched = false -> tried episode_index ids = ids).
Proof.
  intros Huseful ids matched.
  pose proof (check_anime_has_danmaku_run title season episode_index
                (Some metadata) log) as Hrun.
  cbn zeta in Hrun. rewrite Huseful in Hrun. cbn [default] in Hrun.
  split; [exact Hrun|]. split; [reflexivity|].
  subst matched. generalize ids. clear. intros ids. split.
  - induction ids as [|id rest IH]; [done|].
    cbn [existsb tried].
    destruct (id_matches episode_index id) eqn:Hid.
    + intros _. exists [], id. repeat split; eauto.
    + cbn [orb]. intros Hrest.
      destruct (IH Hrest) as (before & id' & Htried & Hid' & Hbefore & after & ->).
      exists (id :: before), id'. rewrite Htried.
      repeat split; eauto.
  - induction ids as [|id rest IH]; [done|].
    cbn [existsb tried]. intros [Hid Hrest]%orb_false_iff.
    by rewrite Hid, IH.
Qed.

End Emby.

(** * Two deliveries, and the statements at sample deliveries *)

(** C8. Two deliveries that are dispatched with the same title, season and
    episode are submitted under the same key: the key of a submission is
    [dispatch_key] of the title, season and episode of its task, whatever the
    event type, the provider identifiers of the payload, the server and its
    answers, the state of the process and the order of the deliveries. *)
Theorem unique_key_of_title_season_episode
    (urljoin1 urljoin2 : string -> string -> string)
    (remote1 remote2 : list string -> string -> http_outcome)
    (body1 body2 : option json) (w1 w1' w2 w2' : world) (r1 r2 : res unit)
    (sub1 sub2 : submission) :
  handle urljoin1 remote1 body1 w1 = (r1, w1') ->
  submitted w1' = sub1 :: submitted w1 ->
  handle urljoin2 remote2 body2 w2 = (r2, w2') ->
  submitted w2' = sub2 :: submitted w2 ->
  sub_unique_key sub1 =
    dispatch_key (animeTitle (sub_task sub1)) (season (sub_task sub1))
      (currentEpisodeIndex (sub_task sub1)) /\
  (animeTitle (sub_task sub1) = animeTitle (sub_task sub2) ->
   season (sub_task sub1) = season (sub_task sub2) ->
   currentEpisodeIndex (sub_task sub1) = currentEpisodeIndex (sub_task sub2) ->
   sub_unique_key sub1 = sub_unique_key sub2).
Proof.
  intros H1 Hsub1 H2 Hsub2.
  assert (Hkey : forall urljoin remote body w w' r sub,
            handle urljoin remote body w = (r, w') ->
            submitted w' = sub :: submitted w ->
            sub_unique_key sub =
              dispatch_key (animeTitle (sub_task sub)) (season (sub_task sub))
                (currentEpisodeIndex (sub_task sub))).
  { intros urljoin remote body w w' r sub H Hsub.
    destruct (handle_inv _ _ _ _ _ _ H)
      as [Hsame|(? & ? & ? & ? & ? & ? & ? & sub' & _ & _ & _ & _ & _
                 & Hsub' & Hkey & _)].
    - rewrite Hsame in Hsub. by destruct (cons_neq_self sub (submitted w)).
    - rewrite Hsub in Hsub'. by injection Hsub' as <-. }
  split; [exact (Hkey _ _ _ _ _ _ _ H1 Hsub1)|].
  intros Ht Hs He.
  rewrite (Hkey _ _ _ _ _ _ _ H1 Hsub1), (Hkey _ _ _ _ _ _ _ H2 Hsub2).
  by rewrite Ht, Hs, He.
Qed.

(** C8 at two deliveries of episode 5 of season 2 of Bar: a playback
    notice enriched by the server, and a library notice handled without a
    server. *)
Lemma unique_key_of_title_season_episode_witness :
  exists sub1 w1' sub2 w2',
    handle join_base remote_up (Some (JObj episode_bar)) world_configured
      = (Ok tt, w1') /\
    submitted w1' = [sub1] /\
    handle join_base remote_down (Some (JObj episode_bar_added))
      world_unconfigured = (Ok tt, w2') /\
    submitted w2' = [sub2] /\
    tmdbId (sub_task sub1) = Some "55" /\
    tmdbId (sub_task sub2) = Some "9" /\
    sub_unique_key sub1 = "webhook-search-Bar-S2-E5" /\
    sub_unique_key sub1 = sub_unique_key sub2.
Proof.
  eexists _, _, _, _.
  split; [vm_compute; reflexivity|]. split; [reflexivity|].
  split; [vm_compute; reflexivity|]. split; [reflexivity|].
  split; [reflexivity|]. split; [reflexivity|]. split; [reflexivity|].
  eapply (unique_key_of_title_season_episode join_base join_base
            remote_up remote_down (Some (JObj episode_bar))
            (Some (JObj episode_bar_added)) world_configured _
            world_unconfigured _ (Ok tt) (Ok tt));
    vm_compute; reflexivity.
Defined.

(** Scenario A of the specification: the movie Foo, without a server. *)
Example scenario_movie_without_enrichment :
  exists sub w',
    handle join_base remote_down (Some (JObj movie_foo)) world_unconfigured
      = (Ok tt, w') /\
    submitted w' = [sub] /\
    requests (net_io w') = [] /\
    searchKeyword (sub_task sub) = JStr "Foo" /\
    season (sub_task sub) = JInt 1 /\
    currentEpisodeIndex (sub_task sub) = JInt 1 /\
    tmdbId (sub_task sub) = Some "100".
Proof.
  eexists _, _. split; [vm_compute; reflexivity|]. by repeat split.
Qed.

(** Scenario B of the specification: an episode of Bar, whose series the
    server knows under TMDB 55. *)
Example scenario_episode_with_enrichment :
  exists sub w',
    handle join_base remote_up (Some (JObj episode_bar)) world_configured
      = (Ok tt, w') /\
    submitted w' = [sub] /\
    searchKeyword (sub_task sub) = JStr "Bar S02E05" /\
    sub_title sub = "Webhook（emby）搜索: Bar - S02E05" /\
    tmdbId (sub_task sub) = Some "55".
Proof.
  eexists _, _. split; [vm_compute; reflexivity|]. by repeat split.
Qed.

(** A body that is not JSON is answered with status 400. *)
Example malformed_body_is_a_client_error :
  handle join_base remote_up None world_configured
    = (Raise (HTTPException 400), world_configured).
Proof. reflexivity. Qed.

(** Against C3 as it was stated: the webhook payload of a movie whose
    identifier map is [{"Imdb": "tt1"}].  [Imdb] is the first spelling of
    IMDb's list and the table-driven pass over the payload yields "tt1", but
    the handler's own reading of the same map yields no IMDb identifier; and
    when the server knows the movie under TMDB 100, so that the fallback pass
    is not run, the task is dispatched without an IMDb identifier. *)
Lemma handler_reads_one_spelling :
  first_match {[ "Imdb" := JStr "tt1" ]} (aliases IMDb) = Some "Imdb" /\
  _extract_metadata_from_webhook (JObj movie_imdb_spelling) =
    Ok (<["imdb_id" := JStr "tt1"]> default_metadata) /\
  basic_provider_ids
    (JObj {[ "ProviderIds" := JObj {[ "Imdb" := JStr "tt1" ]} ]}) =
    Ok (BasicIds JNull JNull JNull JNull JNull) /\
  exists sub w',
    handle join_base remote_up (Some (JObj movie_imdb_spelling))
      world_configured = (Ok tt, w') /\
    submitted w' = [sub] /\
    tmdbId (sub_task sub) = Some "100" /\
    imdbId (sub_task sub) = None.
Proof.
  split; [vm_compute; reflexivity|]. split; [vm_compute; reflexivity|].
  split; [vm_compute; reflexivity|].
  eexists _, _. split; [vm_compute; reflexivity|]. by repeat split.
Qed.

(** C1 at the movie known to the server under TMDB 100 whose payload
    carries TMDB 2 and IMDb 9: the task gets TMDB 100 and IMDb 9. *)
Lemma final_identity_prefers_enhanced_witness :
  exists sub w',
    handle join_base remote_up (Some (JObj movie_known)) world_configured
      = (Ok tt, w') /\
    submitted w' = [sub] /\
    map (fun kind => task_id kind (sub_task sub)) all_kinds
      = [Some "100"; Some "9"; None; None; None] /\
    exists payload item basic item_id series_id enhanced wx,
      Some (JObj movie_known) = Some payload /\
      py_get payload "Item" (JObj ∅) = Ok item /\
      basic_provider_ids item = Ok basic /\
      guarded_enhance join_base remote_up item_id series_id payload
        world_configured = (Ok enhanced, wx) /\
      forall kind,
        task_id kind (sub_task sub) =
          merge_rule (dict_get enhanced (enhanced_key kind))
            (basic_id kind basic).
Proof.
  eexists _, _.
  split; [vm_compute; reflexivity|]. split; [reflexivity|].
  split; [vm_compute; reflexivity|].
  eapply (proj1 (proj2 (final_identity_prefers_enhanced join_base remote_up))
            (Some (JObj movie_known)) world_configured (Ok tt));
    vm_compute; reflexivity.
Defined.

(** C4. The enhancement call does raise.  With no server configured and the
    payload of an Episode whose [Item.ProviderIds] is [null],
    [enhance_webhook_metadata] raises a [TypeError] to its caller: the
    fallback pass of lines 279-284 stands outside any [try], against the
    function's own description, which promises that it never makes the
    webhook fail, and unlike [enhance_metadata], whose body is guarded as a
    whole. *)
Lemma fallback_pass_raises :
  exists w',
    enhance_webhook_metadata join_base remote_down (JStr "E1") JNull
      (JObj episode_null_ids) world_unconfigured = (Raise TypeError, w').
Proof. eexists. vm_compute. reflexivity. Qed.

(** X16 at an unreachable server. *)
Lemma enhancement_absorbs_failures_witness :
  never_200 remote_down /\
  (exists s',
     enhance_metadata join_base remote_down (JStr "E9") (JStr "S1")
       (ObjState (__init__ (Some "http://emby:8096") (Some "k")) (Io [] 0))
     = (Ok default_metadata, s')) /\
  (exists d w',
     enhance_webhook_metadata join_base remote_down (JStr "M1") JNull
       (JObj movie_foo) world_configured = (Ok d, w') /\
     (d = default_metadata \/ any_values d = true)) /\
  (exists d w',
     guarded_enhance join_base remote_down (JStr "E1") JNull
       (JObj episode_null_ids) world_unconfigured = (Ok d, w') /\
     submitted w' = submitted world_unconfigured).
Proof.
  assert (Hdown : never_200 remote_down) by (intros log url body; discriminate).
  pose proof (enhancement_absorbs_failures join_base remote_down)
    as (_ & Hfail & Hweb & Hguard).
  split; [exact Hdown|]. split; [|split].
  - apply (Hfail Hdown).
  - apply Hweb. right. eexists. vm_compute. reflexivity.
  - apply Hguard.
Defined.

(** Against C5 as it was stated: the well-formed payload of an Episode that
    has no series title and no numbers, and whose [Item.ProviderIds] is
    [null], makes the handler raise an [AttributeError]; so does a payload
    that is not an object. *)
Lemma handler_raises_on_null_provider_ids :
  (exists item : pydict,
     episode_null_ids !! "Item" = Some (JObj item) /\
     episode_incomplete item /\
     item !! "ProviderIds" = Some JNull) /\
  handle join_base remote_down (Some (JObj episode_null_ids)) world_unconfigured
    = (Raise AttributeError, world_unconfigured) /\
  handle join_base remote_down (Some (JArr [])) world_unconfigured
    = (Raise AttributeError, world_unconfigured).
Proof.
  split; [|split; vm_compute; reflexivity].
  eexists. split; [vm_compute; reflexivity|].
  split; [|vm_compute; reflexivity].
  split; [vm_compute; reflexivity|]. left. vm_compute. reflexivity.
Qed.

(** C5 at the removal of an item, at a season, and at an episode without
    numbers. *)
Lemma irrelevant_payloads_are_ignored_witness :
  handle join_base remote_up (Some (JObj item_removed)) world_configured
    = (Ok tt, world_configured) /\
  handle join_base remote_up (Some (JObj season_added)) world_configured
    = (Ok tt, world_configured) /\
  handle join_base remote_up (Some (JObj episode_unnumbered)) world_configured
    = (Ok tt, world_configured).
Proof.
  split; [|split].
  - apply (proj1 (irrelevant_payloads_are_ignored join_base remote_up
                    item_removed world_configured)).
    vm_compute. reflexivity.
  - eapply (proj1 (proj2 (irrelevant_payloads_are_ignored join_base remote_up
                            season_added world_configured))).
    + vm_compute. reflexivity.
    + vm_compute. reflexivity.
  - eapply (proj2 (proj2 (irrelevant_payloads_are_ignored join_base remote_up
                            episode_unnumbered world_configured))).
    + vm_compute. reflexivity.
    + split; [vm_compute; reflexivity|]. right. left. vm_compute. reflexivity.
    + vm_compute. reflexivity.
Defined.

(** C6 at a process without [EMBY_SERVER_URL]. *)
Lemma unconfigured_enhancer_is_silent_witness :
  str_truthy None = false /\
  enhance_metadata join_base remote_up (JStr "E9") (JStr "S1")
    (ObjState (__init__ None (Some "k")) (Io [] 0))
  = (Ok default_metadata, ObjState (__init__ None (Some "k")) (Io [] 0)).
Proof.
  split; [reflexivity|].
  apply (unconfigured_enhancer_is_silent join_base remote_up None (Some "k")).
  reflexivity.
Defined.

(** C7. The fallback pass does not always give way to the all-absent
    result.  At an unreachable server the enhancement of the movie [M1]
    yields nothing, a payload is passed, and its [Item] is [null]:
    [enhance_webhook_metadata] raises an [AttributeError] to its caller and
    returns neither the result of the pass nor the all-absent dictionary.
    The pass of lines 279-284 stands outside any [try], against the
    function's own description; it is the defect shown at
    [ProviderIds: null] for the enhancement call as a whole. *)
Lemma fallback_pass_raises_without_item :
  exists s' w',
    enhance_metadata join_base remote_down (JStr "M1") JNull
      (ObjState (instance world_configured) (net_io world_configured))
      = (Ok default_metadata, s') /\
    truthy (JObj delivery_null_item) = true /\
    enhance_webhook_metadata join_base remote_down (JStr "M1") JNull
      (JObj delivery_null_item) world_configured = (Raise AttributeError, w').
Proof.
  eexists _, _. split; [vm_compute; reflexivity|]. split; [reflexivity|].
  vm_compute. reflexivity.
Qed.

(** X17 at an unreachable server and the payload of the movie Foo, whose
    [ProviderIds] hold TMDB 100: the pass finds that identifier, and the
    call of the module and the handler's guarded call both return what the
    pass found. *)
Lemma webhook_fallback_after_absent_enhancement_witness :
  exists webhook_metadata w',
    _extract_metadata_from_webhook (JObj movie_foo) = Ok webhook_metadata /\
    dict_get webhook_metadata "tmdb_id" = JStr "100" /\
    enhance_webhook_metadata join_base remote_down (JStr "M1") JNull
      (JObj movie_foo) world_configured
    = (Ok (if any_values webhook_metadata then webhook_metadata
           else default_metadata), w') /\
    guarded_enhance join_base remote_down (JStr "M1") JNull (JObj movie_foo)
      world_configured
    = (Ok match _extract_metadata_from_webhook (JObj movie_foo) with
          | Ok found => if any_values found then found else default_metadata
          | Raise _ => default_metadata
          end, w').
Proof.
  pose (e := __init__ (Some "http://emby:8096") (Some "k")).
  pose (run := enhance_metadata join_base remote_down (JStr "M1") JNull
                 (ObjState e (Io [] 0))).
  destruct (webhook_fallback_after_absent_enhancement join_base remote_down
              (JStr "M1") JNull (JObj movie_foo) world_configured e
              default_metadata run.2 eq_refl eq_refl eq_refl)
    as [Hpass Hguarded].
  destruct (Hpass {[ "Tmdb" := JStr "100" ]} eq_refl)
    as (webhook_metadata & Hex & Hres & Hrun).
  exists webhook_metadata. eexists. split; [exact Hex|].
  split; [exact (Hres TMDB)|]. split; [exact Hrun|exact Hguarded].
Defined.

(** C9 at the title Foo. *)
Lemma movie_and_first_episode_share_key_witness :
  exists sub1 w1' sub2 w2',
    handle join_base remote_down (Some (JObj movie_foo)) world_unconfigured
      = (Ok tt, w1') /\
    submitted w1' = sub1 :: submitted world_unconfigured /\
    handle join_base remote_down (Some (JObj episode_foo)) world_unconfigured
      = (Ok tt, w2') /\
    submitted w2' = sub2 :: submitted world_unconfigured /\
    sub_unique_key sub1 = "webhook-search-Foo-S1-E1" /\
    sub_unique_key sub2 = "webhook-search-Foo-S1-E1" /\
    mediaType (sub_task sub1) = "movie" /\
    mediaType (sub_task sub2) = "tv_series" /\
    year (sub_task sub1) = JInt 2020 /\
    year (sub_task sub2) = JInt 1999.
Proof.
  apply (movie_and_first_episode_share_key join_base remote_down "Foo"
           movie_foo movie_foo_item {[ "Tmdb" := JStr "100" ]}
           episode_foo episode_foo_item ∅
           world_unconfigured world_unconfigured).
  all: try (vm_compute; reflexivity).
  discriminate.
Defined.

(** C10 at the identifier map that holds an empty string, a zero and the
    number 7 under the three spellings of TMDB, in an API response and in a
    webhook payload: the first two spellings are skipped and both
    extractions leave the string of 7. *)
Lemma extraction_coerces_present_values_witness :
  let ids : pydict :=
    <["Tmdb" := JStr ""]> (<["TheMovieDb" := JInt 0]> {[ "TMDB" := JInt 7 ]}) in
  let item : pydict := {[ "ProviderIds" := JObj ids ]} in
  let payload : pydict := {[ "Item" := JObj item ]} in
  (exists d,
     _extract_metadata_ids (JObj item) = Ok d /\
     forall kind,
       coerced_from ids (aliases kind) (dict_get d (enhanced_key kind)) /\
       dict_get d (enhanced_key kind) <> JStr "") /\
  (exists d,
     _extract_metadata_from_webhook (JObj payload) = Ok d /\
     forall kind,
       coerced_from ids (aliases kind) (dict_get d (enhanced_key kind)) /\
       dict_get d (enhanced_key kind) <> JStr "") /\
  present (dict_get ids "Tmdb") = false /\
  present (dict_get ids "TheMovieDb") = false /\
  _extract_metadata_ids (JObj item)
    = Ok (<["tmdb_id" := JStr "7"]> default_metadata) /\
  _extract_metadata_from_webhook (JObj payload)
    = Ok (<["tmdb_id" := JStr "7"]> default_metadata).
Proof.
  intros ids item payload.
  pose proof extraction_coerces_present_values as (Hapi & Hweb & Hskip & _).
  split; [|split; [|split; [|split; [|split]]]].
  - apply (Hapi item ids). reflexivity.
  - apply (Hweb payload ids). reflexivity.
  - apply Hskip. right. right. left. reflexivity.
  - apply Hskip. right. right. right. reflexivity.
  - reflexivity.
  - reflexivity.
Defined.

(** * The further properties at sample states *)

(** A fresh enabled enhancer creates its client at the first call. *)
Lemma get_session_reuses_client_witness :
  exists s',
    _get_session enhancer_fresh = (Ok (Some (Client false)), s') /\
    _get_session s' = (Ok (Some (Client false)), s') /\
    clients (net s') = 1%nat.
Proof.
  destruct (proj2 (get_session_reuses_client enhancer_fresh) eq_refl)
    as (s' & Hrun & _ & Hagain & _ & _ & _ & Hclients).
  exists s'. split; [exact Hrun|]. split; [exact Hagain|exact Hclients].
Defined.

(** The administrator [u2] is chosen over the first user [u1]. *)
Lemma administrator_is_preferred_witness :
  exists s',
    _get_user_id join_base remote_up enhancer_fresh = (Ok (JStr "u2"), s') /\
    requests (net s') = ["http://emby:8096/emby/Users?api_key=k"] /\
    user_id (self s') = JStr "u2".
Proof.
  apply (administrator_is_preferred join_base remote_up enhancer_fresh
           sample_user_list eq_refl eq_refl eq_refl).
  repeat constructor; vm_compute; eauto.
Defined.

(** With [u2] cached, the item [M1] is fetched with one request. *)
Lemma fetch_with_cached_user_witness :
  exists s',
    _fetch_item_metadata join_base remote_up (JStr "M1") enhancer_with_user
      = (Ok (Some (<["tmdb_id" := JStr "100"]> default_metadata)), s') /\
    requests (net s') =
      [ "http://emby:8096/emby/Users/u2/Items/M1?api_key=k";
        "http://emby:8096/emby/Users?api_key=k" ].
Proof.
  destruct (fetch_with_cached_user join_base remote_up (JStr "M1")
              enhancer_with_user eq_refl eq_refl)
    as (r & s' & Hrun & Hreq & _ & Hr & _).
  exists s'. split; [|rewrite Hreq; vm_compute; reflexivity].
  rewrite Hrun, Hr. reflexivity.
Defined.

(** With [u2] cached, the series [S1] and the unknown episode [E9]: the
    series is asked first, and its TMDB identifier is the result. *)
Lemma enhance_metadata_asks_series_then_item_witness :
  exists d s',
    enhance_metadata join_base remote_up (JStr "E9") (JStr "S1")
      enhancer_with_user = (Ok d, s') /\
    requests (net s') =
      [ "http://emby:8096/emby/Users/u2/Items/E9?api_key=k";
        "http://emby:8096/emby/Users/u2/Items/S1?api_key=k";
        "http://emby:8096/emby/Users?api_key=k" ] /\
    dict_get d "tmdb_id" = JStr "55".
Proof.
  destruct (enhance_metadata_asks_series_then_item join_base remote_up
              (JStr "E9") (JStr "S1") enhancer_with_user eq_refl eq_refl)
    as (d & s' & Hrun & Hreq & _ & Hkeys).
  exists d, s'. split; [exact Hrun|].
  split; [rewrite Hreq; vm_compute; reflexivity|].
  rewrite (Hkeys "tmdb_id"). vm_compute. reflexivity.
Defined.

(** The task of the movie Foo, delivered to an unconfigured process. *)
Lemma dispatched_task_is_well_formed_witness :
  exists sub,
    submitted (handle join_base remote_down (Some (JObj movie_foo))
                 world_unconfigured).2 = [sub] /\
    mediaType (sub_task sub) = "movie" /\
    season (sub_task sub) = JInt 1 /\
    searchKeyword (sub_task sub) = JStr "Foo" /\
    forall kind, task_id kind (sub_task sub) <> Some "".
Proof.
  eexists. split; [vm_compute; reflexivity|].
  split; [reflexivity|]. split; [reflexivity|]. split; [reflexivity|].
  match goal with |- forall kind, task_id kind (sub_task ?s) <> _ =>
    assert (Hsub : submitted (handle join_base remote_down
                                (Some (JObj movie_foo)) world_unconfigured).2
                   = s :: submitted world_unconfigured)
      by (vm_compute; reflexivity)
  end.
  destruct (dispatched_task_is_well_formed join_base remote_down
              (Some (JObj movie_foo)) world_unconfigured _ Hsub)
    as (payload & item & _ & _ & _ & _ & _ & _ & _ & Hids).
  exact Hids.
Defined.

(** The movie with the spelling [Imdb], which the handler itself does not
    read, delivered while the server cannot be reached: the task carries the
    identifier found under that spelling. *)
Lemma identity_without_the_api_witness :
  exists sub,
    submitted (handle join_base remote_down (Some (JObj movie_imdb_spelling))
                 world_configured).2 = [sub] /\
    task_id IMDb (sub_task sub) = Some "tt1".
Proof.
  assert (Hdown : never_200 remote_down) by (intros log url body H; discriminate H).
  eexists. split; [vm_compute; reflexivity|].
  match goal with |- task_id IMDb (sub_task ?s) = _ =>
    assert (Hsub : submitted (handle join_base remote_down
                                (Some (JObj movie_imdb_spelling))
                                world_configured).2
                   = s :: submitted world_configured)
      by (vm_compute; reflexivity)
  end.
  assert (Hitem : movie_imdb_spelling !! "Item" = Some (JObj imdb_spelling_item))
    by (vm_compute; reflexivity).
  rewrite (identity_without_the_api join_base remote_down movie_imdb_spelling
             imdb_spelling_item {[ "Imdb" := JStr "tt1" ]} world_configured _
             (or_introl Hdown) Hitem eq_refl Hsub IMDb).
  vm_compute. reflexivity.
Defined.

(** Closing the enhancer that has cached [u2]: the next fetch creates a
    second client and asks for the item only. *)
Lemma close_keeps_the_acting_user_witness :
  exists s1 r s2,
    close enhancer_with_user = (Ok tt, s1) /\
    user_id (self s1) = JStr "u2" /\
    _fetch_item_metadata join_base remote_up (JStr "M1") s1 = (Ok r, s2) /\
    clients (net s2) = 2%nat /\
    length (requests (net s2)) = 2%nat.
Proof.
  destruct (close_keeps_the_acting_user join_base remote_up enhancer_with_user
              (JStr "M1"))
    as (s1 & Hrun & _ & Huid & _ & _ & _ & _ & Hnext).
  destruct (Hnext eq_refl eq_refl) as (r & s2 & Hfetch & Hreq & _ & Hcl & _).
  exists s1, r, s2. split; [exact Hrun|]. split; [exact Huid|].
  split; [exact Hfetch|]. split; [exact Hcl|]. by rewrite Hreq.
Defined.

(** The TMDB identifier is tried first and fails, the Douban identifier is
    tried next and leads to danmaku; no other identifier and no title is
    asked for. *)
Lemma identifiers_are_tried_in_priority_order_witness :
  check_anime_has_danmaku sample_anime_rows sample_episode_rows
    sample_crud_check sample_fs_path sample_is_file
    (JStr "Foo") (JInt 1) (JInt 1) (Some sample_metadata) []
  = (Ok true,
     [ SelectEpisodes (JInt 7) (JInt 1);
       SelectAnime "Douban" (JStr "2");
       SelectAnime "TMDB" (JStr "1") ]).
Proof.
  rewrite (proj1 (identifiers_are_tried_in_priority_order sample_anime_rows
                    sample_episode_rows sample_crud_check sample_fs_path
                    sample_is_file (JStr "Foo") (JInt 1) (JInt 1)
                    sample_metadata [] eq_refl)).
  reflexivity.
Defined.

(** The one episode of the anime 7 has comments and its file is there. *)
Lemma danmaku_is_read_from_the_rows_witness :
  exists answer,
    danmaku_by_id sample_episode_rows sample_fs_path sample_is_file
      (JInt 7) (JInt 1) = Ok answer /\
    truthy answer = true.
Proof.
  destruct (proj1 (danmaku_is_read_from_the_rows sample_episode_rows
                     sample_fs_path sample_is_file (JInt 7) (JInt 1))
              [EpisodeRow (Some 12) (Some "/danmaku/7/1.xml")] eq_refl)
    as (answer & Hrun & Hanswer).
  { repeat constructor; cbn; eauto. }
  exists answer. split; [exact Hrun|]. rewrite Hanswer. reflexivity.
Defined.
